(** * Message-arrival coordinator: debounce, session lifecycle, fact inheritance

    A shallow embedding of the coordinator Lambda
    [src/Cursor/User/History/733b3e8d/9HPk.py] and the properties its
    specification states about it.

    - [Contact]   : [normalizar_telefone]
    - [Flutuante] : the floats of [timestamp()] and of the fencing
                    comparison
    - [Debounce]  : [armazenar_mensagem_pendente], [agendar_processamento],
                    [obter_e_limpar_mensagens_acumuladas], alone and
                    overlapping
    - [Timestamp] : [_parse_timestamp_to_unix], [_is_memory_valid]
    - [Ledger]    : the negotiation table and its failures,
                    [_get_previous_negotiation_data],
                    [_save_session_timestamp_to_negociacao],
                    [_get_or_create_session_id], [_get_or_create_memory_id] *)

From Stdlib Require Import ZArith NArith List Bool Lia.
From Stdlib Require Import SpecFloat.
From stdpp Require Import base decidable option list gmap strings pretty.
From Stdlib Require Import Ascii.

Set Default Proof Using "Type".
Set Warnings "-register-all".

(* ===================================================================== *)
(** * Contact normalisation *)
(* ===================================================================== *)

Module Contact.

(** A Python [str] is a sequence of Unicode code points. *)
Definition codepoint := N.
Definition pystr := list codepoint.

Definition c5 : codepoint := 53%N.
Definition prefix55 : pystr := [c5; c5].

(** Python slice [s[lo:hi]] with possibly negative bounds; [None] is an
    omitted bound. *)
Definition clamp_index (len i : Z) : Z :=
  if (i <? 0)%Z then Z.max 0 (i + len) else Z.min i len.

Definition py_slice {A} (lo hi : option Z) (s : list A) : list A :=
  let len := Z.of_nat (length s) in
  let l := match lo with Some i => clamp_index len i | None => 0%Z end in
  let h := match hi with Some i => clamp_index len i | None => len end in
  firstn (Z.to_nat (h - l)) (skipn (Z.to_nat l) s).

Definition startswith (s p : pystr) : bool :=
  bool_decide (firstn (length p) s = p).

Definition endswith (s p : pystr) : bool :=
  bool_decide (length p <= length s
               /\ skipn (length s - length p) s = p).

Section Normalizar.

(** The non-ASCII part of [str.isdigit] comes from the interpreter's
    Unicode tables; it is a parameter here. *)
Variable unicode_digit : codepoint -> bool.

Definition isdigit (c : codepoint) : bool :=
  ((48 <=? c)%N && (c <=? 57)%N) || unicode_digit c.

(** [''.join(filter(str.isdigit, str(telefone)))] *)
Definition limpar (telefone : pystr) : pystr := List.filter isdigit telefone.

(** The body of [normalizar_telefone] after [telefone_limpo] is computed. *)
Definition normalizar_limpo (telefone_limpo : pystr) : pystr :=
  let n := length telefone_limpo in
  if startswith telefone_limpo prefix55 && (n =? 13) then telefone_limpo
  else if n =? 11 then prefix55 ++ telefone_limpo
  else if (n =? 13) && negb (startswith telefone_limpo prefix55)
       then telefone_limpo
  else if 13 <? n then
    if endswith telefone_limpo (py_slice (Some (-13)%Z) None telefone_limpo)
       && bool_decide (py_slice (Some (-13)%Z) (Some (-11)%Z) telefone_limpo
                       = prefix55)
    then py_slice (Some (-13)%Z) None telefone_limpo
    else telefone_limpo
  else if n <? 11 then telefone_limpo
  else telefone_limpo.

Definition normalizar_telefone (telefone : pystr) : pystr :=
  match telefone with
  | [] => telefone                       (* [if not telefone] *)
  | _ => normalizar_limpo (limpar telefone)
  end.

(** Strings made of digits only. *)
Definition so_digitos (l : pystr) : Prop :=
  Forall (fun c => isdigit c = true) l.

End Normalizar.

End Contact.

(* ===================================================================== *)
(** * Python and DynamoDB values *)
(* ===================================================================== *)

Module Py.

(** The values a JSON body or a DynamoDB item (as deserialised by the
    boto3 resource layer) holds.  Numbers are restricted to integers;
    sets and binary attributes are left out. *)
Inductive value : Type :=
  | VNone
  | VBool (b : bool)
  | VNum (n : Z)
  | VStr (s : string)
  | VList (l : list value)
  | VDict (d : list (string * value)).

(** Python truthiness, as tested by [if x] and [x and y]. *)
Definition truthy (v : value) : bool :=
  match v with
  | VNone => false
  | VBool b => b
  | VNum n => negb (n =? 0)%Z
  | VStr s => negb (String.eqb s EmptyString)
  | VList l => match l with [] => false | _ => true end
  | VDict d => match d with [] => false | _ => true end
  end.

(** Truthiness of the result of [d.get(k)]: a missing key gives [None]. *)
Definition truthy_opt (o : option value) : bool :=
  match o with Some v => truthy v | None => false end.

Definition join (sep : string) (l : list string) : string :=
  match l with
  | [] => EmptyString
  | x :: r => fold_left (fun acc y => acc +:+ sep +:+ y) r x
  end.

(** [repr(v)] of an element of a container, without string escapes. *)
Fixpoint py_repr (v : value) : string :=
  match v with
  | VStr s => "'" +:+ s +:+ "'"
  | VNum n => "Decimal('" +:+ pretty n +:+ "')"
  | VNone => "None"
  | VBool true => "True"
  | VBool false => "False"
  | VList l => "[" +:+ join ", " (map py_repr l) +:+ "]"
  | VDict d =>
      "{" +:+ join ", "
        (map (fun kv => "'" +:+ fst kv +:+ "': " +:+ py_repr (snd kv)) d)
      +:+ "}"
  end.

(** [str(v)]: exact on strings, integers, booleans and [None]. *)
Definition py_str (v : value) : string :=
  match v with
  | VStr s => s
  | VNum n => pretty n
  | _ => py_repr v
  end.

(** A Python [dict] with string keys. *)
Abbreviation dict := (gmap string value).

(** [d.get(k, dflt)] *)
Definition get (d : dict) (k : string) (dflt : value) : value :=
  default dflt (d !! k).

End Py.

(* ===================================================================== *)
(** * Python's [float] *)
(* ===================================================================== *)

Module Flutuante.
Local Open Scope Z_scope.

(** A Python [float] is an IEEE 754 binary64 number; its operations are
    those of the specification of floating-point arithmetic of the
    standard library, with 53 bits of precision and rounding to nearest,
    ties to even. *)
Definition double := spec_float.

(** An integer as an operand of a true division, and [float(z)] for an
    integer below 2^53 in absolute value. *)
Definition de_inteiro (z : Z) : double :=
  match z with
  | Z0 => S754_zero false
  | Zpos p => S754_finite false p 0
  | Zneg p => S754_finite true p 0
  end.

(** [a / b] on two integers: the double nearest to the quotient. *)
Definition divisao (a b : Z) : double :=
  SFdiv 53 1024 (de_inteiro a) (de_inteiro b).

(** [x - y] and [abs(x)] on floats. *)
Definition subtrai (x y : double) : double := SFsub 53 1024 x y.
Definition absoluto (x : double) : double := SFabs x.

(** [x > y] on floats. *)
Definition maior (x y : double) : bool := SFltb y x.

(** [bool(x)]: a float is falsy when it is a zero. *)
Definition verdadeiro (x : double) : bool :=
  match x with S754_zero _ => false | _ => true end.

(** [int(x)]: the integer part, towards zero.  ([int] raises on an
    infinity and on a NaN, which the quotient of two integers by a non-zero
    one below 2^1024 is not; 0 stands for them here.) *)
Definition truncar (x : double) : Z :=
  match x with
  | S754_finite s m e =>
      let v := match e with
               | Zneg p => Zpos m / 2 ^ Zpos p
               | _ => Zpos m * 2 ^ e
               end in
      if s then - v else v
  | _ => 0
  end.

(** [timedelta.total_seconds()], and so [datetime.timestamp()] of an aware
    [datetime]: the microseconds since the epoch divided by [10**6]. *)
Definition timestamp_de_micros (m : Z) : double := divisao m 1000000.

End Flutuante.

(* ===================================================================== *)
(** * Debounce store, scheduler and coordinator *)
(* ===================================================================== *)

Module Debounce.
Import Py Flutuante.

(** A reading of the clock, [datetime.now(timezone.utc)], counted in
    microseconds since the epoch. *)
Definition instante := Z.

(** [datetime.now(timezone.utc).timestamp()] of a reading of the clock.
    The coordinator keeps this float as [Decimal(str(x))] in the store and
    hands it as [float(d)] to the wakeup payload and to the comparison of
    [obter_e_limpar_mensagens_acumuladas]; [str] of a float is the shortest
    numeral that reads back as the same float, so the token is the same
    double at every place. *)
Definition carimbo (agora : instante) : double := timestamp_de_micros agora.

(** The literal [0.1]. *)
Definition TOLERANCIA : double := divisao 1 10.

(** [abs(stored_timer - timer_timestamp) > 0.1] *)
Definition fora_da_tolerancia (stored_timer timer_timestamp : double) : bool :=
  maior (absoluto (subtrai stored_timer timer_timestamp)) TOLERANCIA.

(** Environment of the Lambda: the two delays, in seconds. *)
Record ambiente_cfg := {
  MESSAGE_ACCUMULATION_DELAY : Z;
  MESSAGE_EXTENSION_DELAY : Z
}.

(** The values used when the environment variables are not set. *)
Definition cfg_padrao : ambiente_cfg :=
  {| MESSAGE_ACCUMULATION_DELAY := 10; MESSAGE_EXTENSION_DELAY := 3 |}.

(** One entry of [pending_messages]. *)
Record pendente := {
  texto : value;
  tipo : value;
  timestamp : double;
  codMensagem : value;
  nomeArquivo : value;
  localizacao : value;
  mensagemResposta : value
}.

(** The batch record of a correspondent in the sessions table (key
    [telefone = session_id = cod_conversa]); every attribute may be
    missing from the item. *)
Record sessao := {
  timer_timestamp : option double;
  pending_messages : option (list pendente);
  last_message_timestamp : option double;
  last_message_text : option value;
  timer_active : option bool
}.

Definition sessao_vazia : sessao :=
  {| timer_timestamp := None; pending_messages := None;
     last_message_timestamp := None; last_message_text := None;
     timer_active := None |}.

(** Payload of the asynchronous self-invocation. *)
Record despertar := {
  codConversa : string;
  d_timer_timestamp : double;
  delay_seconds : Z
}.

(** What the coordinator works on: the sessions table and the wakeups
    handed to [lambda_client.invoke] so far, each with the reading of the
    clock of the invocation that handed it over. *)
Record estado := {
  tabela : gmap string sessao;
  agendados : list (instante * despertar)
}.

(** Per-call inputs that the code reads from its surroundings: the clock
    and whether a collaborator call raises (with the text of the error). *)
Record chamada := {
  agora : instante;
  falha_get_item : option string;
  falha_escrita : option string;
  falha_invoke : option string
}.

Definition sem_falhas (t : instante) : chamada :=
  {| agora := t; falha_get_item := None; falha_escrita := None;
     falha_invoke := None |}.

(** ** State and exception monad *)

Inductive res (A : Type) : Type :=
  | Ok (a : A)
  | Raise (e : string).
Arguments Ok {A} a.
Arguments Raise {A} e.

Definition M (A : Type) : Type := estado -> res A * estado.

#[export] Instance M_ret : MRet M := fun A a s => (Ok a, s).
#[export] Instance M_bind : MBind M := fun A B f c s =>
  match c s with
  | (Ok a, s') => f a s'
  | (Raise e, s') => (Raise e, s')
  end.

(** [try: c except Exception as e: h e] *)
Definition tentar {A} (c : M A) (h : string -> M A) : M A := fun s =>
  match c s with
  | (Ok a, s') => (Ok a, s')
  | (Raise e, s') => h e s'
  end.

(** ** Collaborators *)

Definition get_item (c : chamada) (cod : string) : M (option sessao) :=
  fun s => match falha_get_item c with
           | Some e => (Raise e, s)
           | None => (Ok (tabela s !! cod), s)
           end.

Definition put_item (c : chamada) (cod : string) (it : sessao) : M unit :=
  fun s => match falha_escrita c with
           | Some e => (Raise e, s)
           | None => (Ok tt, {| tabela := <[cod := it]> (tabela s);
                                agendados := agendados s |})
           end.

(** [update_item] changes the named attributes of the item as it is in the
    table at the time of the call, and creates the item when it does not
    exist. *)
Definition update_item (c : chamada) (cod : string) (f : sessao -> sessao)
  : M unit :=
  fun s => match falha_escrita c with
           | Some e => (Raise e, s)
           | None =>
               (Ok tt,
                {| tabela := <[cod := f (default sessao_vazia (tabela s !! cod))]>
                               (tabela s);
                   agendados := agendados s |})
           end.

Definition invoke (c : chamada) (p : despertar) : M unit :=
  fun s => match falha_invoke c with
           | Some e => (Raise e, s)
           | None => (Ok tt, {| tabela := tabela s;
                                agendados := agendados s ++ [(agora c, p)] |})
           end.

(** ** The coordinator *)

(** Result dictionary of [armazenar_mensagem_pendente]. *)
Record resultado := {
  deve_processar : bool;
  is_first_message : bool;
  mensagens_acumuladas : option nat;
  timer_resetado : option bool;
  erro : option string
}.

Definition nova_pendente (mensagem : dict) (timestamp_atual : double)
  : pendente :=
  {| texto := get mensagem "texto" (VStr EmptyString);
     tipo := get mensagem "tipo" (VStr "TEXT");
     timestamp := timestamp_atual;
     codMensagem := get mensagem "codMensagem" (VStr EmptyString);
     nomeArquivo := get mensagem "nomeArquivo" (VStr EmptyString);
     localizacao := get mensagem "localizacao" (VStr EmptyString);
     mensagemResposta := get mensagem "mensagemResposta" (VStr EmptyString) |}.

Definition agendar_processamento (c : chamada) (cod_conversa : string)
    (timer_timestamp : double) (delay_seconds : Z) : M unit :=
  tentar
    (invoke c {| codConversa := cod_conversa;
                 d_timer_timestamp := timer_timestamp;
                 delay_seconds := delay_seconds |})
    (fun _ => mret tt).

(** [item and item.get('timer_active')] *)
Definition item_timer_active (item : option sessao) : bool :=
  match item with
  | Some it => default false (timer_active it)
  | None => false
  end.

(** [armazenar_mensagem_pendente] after its [get_item]: what it does with
    the [item] it has read. *)
Definition armazenar_apos_leitura (cfg : ambiente_cfg) (c : chamada)
    (cod_conversa : string) (mensagem : dict) (item : option sessao)
  : M resultado :=
  let timestamp_atual := carimbo (agora c) in
  if item_timer_active item then
    let pending := default [] (item ≫= pending_messages)
                   ++ [nova_pendente mensagem timestamp_atual] in
    _ ← update_item c cod_conversa (fun old =>
          {| timer_timestamp := Some timestamp_atual;
             pending_messages := Some pending;
             last_message_timestamp := Some timestamp_atual;
             last_message_text :=
               Some (get mensagem "texto" (VStr EmptyString));
             timer_active := timer_active old |});
    _ ← agendar_processamento c cod_conversa timestamp_atual
          (MESSAGE_EXTENSION_DELAY cfg);
    mret {| deve_processar := false; is_first_message := false;
            mensagens_acumuladas := Some (length pending);
            timer_resetado := Some true; erro := None |}
  else
    let pending := [nova_pendente mensagem timestamp_atual] in
    _ ← put_item c cod_conversa
          {| timer_timestamp := Some timestamp_atual;
             pending_messages := Some pending;
             last_message_timestamp := Some timestamp_atual;
             last_message_text :=
               Some (get mensagem "texto" (VStr EmptyString));
             timer_active := Some true |};
    _ ← agendar_processamento c cod_conversa timestamp_atual
          (MESSAGE_ACCUMULATION_DELAY cfg);
    mret {| deve_processar := false; is_first_message := true;
            mensagens_acumuladas := Some 1%nat;
            timer_resetado := None; erro := None |}.

(** The [except] branch of [armazenar_mensagem_pendente]. *)
Definition armazenar_excecao (e : string) : M resultado :=
  mret {| deve_processar := true; is_first_message := true;
          mensagens_acumuladas := None; timer_resetado := None;
          erro := Some e |}.

Definition armazenar_mensagem_pendente (cfg : ambiente_cfg) (c : chamada)
    (cod_conversa : string) (mensagem : dict) : M resultado :=
  tentar
    (item ← get_item c cod_conversa;
     armazenar_apos_leitura cfg c cod_conversa mensagem item)
    armazenar_excecao.

(** [obter_e_limpar_mensagens_acumuladas] after its [get_item]. *)
Definition obter_apos_leitura (c : chamada) (cod_conversa : string)
    (timer_timestamp_recebido : double) (item : option sessao)
  : M (list pendente) :=
  match item with
  | None => mret []
  | Some it =>
      let stored_timer := default (de_inteiro 0) (timer_timestamp it) in
      if fora_da_tolerancia stored_timer timer_timestamp_recebido
      then mret []
      else
        match default [] (pending_messages it) with
        | [] => mret []
        | pending =>
            _ ← update_item c cod_conversa (fun old =>
                  {| timer_timestamp := None;
                     pending_messages := Some [];
                     last_message_timestamp := last_message_timestamp old;
                     last_message_text := last_message_text old;
                     timer_active := Some false |});
            mret pending
        end
  end.

Definition obter_e_limpar_mensagens_acumuladas (c : chamada)
    (cod_conversa : string) (timer_timestamp_recebido : double)
  : M (list pendente) :=
  tentar
    (item ← get_item c cod_conversa;
     obter_apos_leitura c cod_conversa timer_timestamp_recebido item)
    (fun _ => mret []).

(** [processar_mensagens_acumuladas_handler] lets a wakeup through to
    [obter_e_limpar_mensagens_acumuladas] when its payload names a
    correspondent and carries a token that is not zero, and when
    [time.sleep(delay_seconds)] does not raise. *)
Definition despertar_aceito (w : despertar) : bool :=
  negb (String.eqb (codConversa w) EmptyString)
  && verdadeiro (d_timer_timestamp w)
  && (0 <=? delay_seconds w)%Z.

(** ** Invocations of the coordinator

    The coordinator is entered either with an inbound message of a
    correspondent (which calls [armazenar_mensagem_pendente]) or with a
    wakeup payload (whose handler sleeps and then calls
    [obter_e_limpar_mensagens_acumuladas] with the correspondent and the
    fencing value of the payload).  The [chamada] of an invocation holds
    the reading of the clock at which it works on the store. *)
Inductive evento : Type :=
  | Chegada (c : chamada) (cod_conversa : string) (mensagem : dict)
  | Disparo (c : chamada) (w : despertar).

Definition e_chegada (e : evento) : bool :=
  match e with Chegada _ _ _ => true | Disparo _ _ => false end.

Definition chamada_de (e : evento) : chamada :=
  match e with Chegada c _ _ => c | Disparo c _ => c end.

Definition correspondente (e : evento) : string :=
  match e with Chegada _ cod _ => cod | Disparo _ w => codConversa w end.

(** An invocation that runs alone, from its read to its write: the new
    state and, when it called [obter_e_limpar_mensagens_acumuladas], the
    batch that call returned. *)
Definition passo (cfg : ambiente_cfg) (s : estado) (e : evento)
  : estado * option (list pendente) :=
  match e with
  | Chegada c cod m =>
      (snd (armazenar_mensagem_pendente cfg c cod m s), None)
  | Disparo c w =>
      if despertar_aceito w then
        match obter_e_limpar_mensagens_acumuladas c (codConversa w)
                (d_timer_timestamp w) s with
        | (Ok l, s') => (s', Some l)
        | (Raise _, s') => (s', Some [])
        end
      else (s, None)
  end.

(** The state after a run of invocations that follow one another. *)
Definition estado_final (cfg : ambiente_cfg) (s : estado) (tr : list evento)
  : estado :=
  fold_left (fun s e => fst (passo cfg s e)) tr s.

(** The batches returned by the calls of
    [obter_e_limpar_mensagens_acumuladas] of such a run, in the order of
    the calls. *)
Fixpoint lotes (cfg : ambiente_cfg) (s : estado) (tr : list evento)
  : list (list pendente) :=
  match tr with
  | [] => []
  | e :: tr' =>
      let '(s', o) := passo cfg s e in
      match o with
      | Some l => l :: lotes cfg s' tr'
      | None => lotes cfg s' tr'
      end
  end.

(** ** Invocations that overlap

    Every call on the store is atomic, an invocation is not: between its
    [get_item] and its write other invocations may read and write the same
    record.  [Inicia e] runs invocation [e] up to and including its
    [get_item]; [Conclui k] lets the [k]-th of the invocations that have
    read and not yet finished run to its end, on the store as it is
    then. *)
Inductive acao : Type :=
  | Inicia (e : evento)
  | Conclui (k : nat).

Record sistema := {
  armazem : estado;
  abertas : list (evento * option sessao)
}.

Definition sistema_de (s : estado) : sistema :=
  {| armazem := s; abertas := [] |}.

Definition inicia (sis : sistema) (e : evento)
  : sistema * option (list pendente) :=
  let le cod :=
    get_item (chamada_de e) cod (armazem sis) in
  match e with
  | Chegada c cod m =>
      match le cod with
      | (Ok item, s') =>
          ({| armazem := s'; abertas := abertas sis ++ [(e, item)] |}, None)
      | (Raise err, s') =>
          ({| armazem := snd (armazenar_excecao err s');
              abertas := abertas sis |}, None)
      end
  | Disparo c w =>
      if despertar_aceito w then
        match le (codConversa w) with
        | (Ok item, s') =>
            ({| armazem := s'; abertas := abertas sis ++ [(e, item)] |}, None)
        | (Raise _, s') =>
            ({| armazem := s'; abertas := abertas sis |}, Some [])
        end
      else (sis, None)
  end.

Definition conclui (cfg : ambiente_cfg) (sis : sistema) (k : nat)
  : sistema * option (list pendente) :=
  match abertas sis !! k with
  | None => (sis, None)
  | Some (e, item) =>
      let resto := delete k (abertas sis) in
      match e with
      | Chegada c cod m =>
          let s' := snd (tentar (armazenar_apos_leitura cfg c cod m item)
                           armazenar_excecao (armazem sis)) in
          ({| armazem := s'; abertas := resto |}, None)
      | Disparo c w =>
          match tentar (obter_apos_leitura c (codConversa w)
                          (d_timer_timestamp w) item)
                  (fun _ => mret []) (armazem sis) with
          | (Ok l, s') => ({| armazem := s'; abertas := resto |}, Some l)
          | (Raise _, s') => ({| armazem := s'; abertas := resto |}, Some [])
          end
      end
  end.

Definition age (cfg : ambiente_cfg) (sis : sistema) (a : acao)
  : sistema * option (list pendente) :=
  match a with
  | Inicia e => inicia sis e
  | Conclui k => conclui cfg sis k
  end.

(** The system after a sequence of steps, and the batches returned by the
    calls of [obter_e_limpar_mensagens_acumuladas] in the order in which
    they returned. *)
Fixpoint executa (cfg : ambiente_cfg) (sis : sistema) (tr : list acao)
  : sistema * list (list pendente) :=
  match tr with
  | [] => (sis, [])
  | a :: tr' =>
      let '(sis', o) := age cfg sis a in
      let '(fim, ls) := executa cfg sis' tr' in
      (fim, match o with Some l => l :: ls | None => ls end)
  end.

(** The steps of a run in which no two invocations overlap: each one
    finishes before the next one starts. *)
Definition serie (tr : list evento) : list acao :=
  flat_map (fun e => [Inicia e; Conclui 0]) tr.

(** ** Runs of one correspondent in time *)

(** The inbound messages of a run, in the order of arrival. *)
Fixpoint mensagens (tr : list evento) : list (chamada * dict) :=
  match tr with
  | [] => []
  | Chegada c _ m :: tr' => (c, m) :: mensagens tr'
  | Disparo _ _ :: tr' => mensagens tr'
  end.


(** The timer of the correspondent is armed: the record exists and its
    [timer_active] attribute is true. *)
Definition timer_ativo (cod : string) (s : estado) : bool :=
  item_timer_active (tabela s !! cod).





(** ** A batch that is being accumulated *)

(** The entry that a message leaves in the batch. *)
Definition entrada (cm : chamada * dict) : pendente :=
  nova_pendente (snd cm) (carimbo (agora (fst cm))).





(** ** Records written by the coordinator *)

(** The record that starts a batch. *)
Definition lote_novo (c : chamada) (m : dict) : sessao :=
  {| timer_timestamp := Some (carimbo (agora c));
     pending_messages := Some [nova_pendente m (carimbo (agora c))];
     last_message_timestamp := Some (carimbo (agora c));
     last_message_text := Some (get m "texto" (VStr EmptyString));
     timer_active := Some true |}.

(** The record that the write of an extending message leaves, when the
    message had read [lido] and the record was [it] at the time of the
    write. *)
Definition lote_estendido (c : chamada) (m : dict) (lido it : sessao)
  : sessao :=
  {| timer_timestamp := Some (carimbo (agora c));
     pending_messages :=
       Some (default [] (pending_messages lido)
             ++ [nova_pendente m (carimbo (agora c))]);
     last_message_timestamp := Some (carimbo (agora c));
     last_message_text := Some (get m "texto" (VStr EmptyString));
     timer_active := timer_active it |}.

(** The record of a batch after it was handed out. *)
Definition lote_drenado (it : sessao) : sessao :=
  {| timer_timestamp := None;
     pending_messages := Some [];
     last_message_timestamp := last_message_timestamp it;
     last_message_text := last_message_text it;
     timer_active := Some false |}.

(** What makes a call of [obter_e_limpar_mensagens_acumuladas] return
    without a write: no record, a token further than the tolerance from
    the fencing value, or no pending message. *)
Definition obsoleto (item : option sessao) (f : double) : Prop :=
  match item with
  | None => True
  | Some it =>
      fora_da_tolerancia (default (de_inteiro 0) (timer_timestamp it)) f = true
      \/ default [] (pending_messages it) = []
  end.

(** ** Conservation of messages and the combined text *)

(** The messages pending for a correspondent. *)
Definition pendentes (cod : string) (s : estado) : list pendente :=
  match tabela s !! cod with
  | Some it => default [] (pending_messages it)
  | None => []
  end.

(** In the record of the correspondent, a timer that is not active comes
    with an empty batch. *)
Definition inativo_sem_lote (cod : string) (s : estado) : Prop :=
  forall it, tabela s !! cod = Some it ->
    default false (timer_active it) = false ->
    default [] (pending_messages it) = [].

(** Every message of the run was stored: no arrival hit an error of the
    store. *)
Definition chegadas_sem_falha (tr : list evento) : Prop :=
  Forall (fun e => e_chegada e = true ->
                   falha_get_item (chamada_de e) = None
                   /\ falha_escrita (chamada_de e) = None) tr.

(** The texts of a list of values, when all of them are strings. *)
Fixpoint textos_str (l : list value) : option (list string) :=
  match l with
  | [] => Some []
  | VStr s :: r => cons s <$> textos_str r
  | _ :: _ => None
  end.

(** The line feed between the texts. *)
Definition LF : string := String "010"%char EmptyString.

(** [msg.get('texto')] as a condition. *)
Definition com_texto (msg : pendente) : bool := truthy (texto msg).

(** [combinar_mensagens]; [None] is the [TypeError] of joining a text that
    is not a string. *)
Definition combinar_mensagens (mensagens : list pendente) : option value :=
  match mensagens with
  | [] => Some (VStr EmptyString)
  | [m] => Some (texto m)
  | _ =>
      textos ← textos_str
                 (map texto (List.filter com_texto mensagens));
      Some (VStr (join LF textos))
  end.

End Debounce.

(* ===================================================================== *)
(** * Clock readings and timestamp encodings *)
(* ===================================================================== *)

Module Timestamp.
Import Flutuante.

(** A text is a [string] whose characters are the code points of the
    Python text, which are taken to be below U+0100. *)

(** A [datetime] in UTC. *)
Record datetime := {
  year : Z; month : Z; day : Z;
  hour : Z; minute : Z; second : Z; microsecond : Z
}.

Definition is_leap (y : Z) : bool :=
  ((y mod 4 =? 0) && (negb (y mod 100 =? 0) || (y mod 400 =? 0)))%Z.

Definition days_in_month (y m : Z) : Z :=
  if (m =? 2)%Z then (if is_leap y then 29 else 28)
  else if ((m =? 4) || (m =? 6) || (m =? 9) || (m =? 11))%Z then 30
  else 31.

(** The checks of the [datetime(...)] constructor. *)
Definition datetime_ok (d : datetime) : bool :=
  ((1 <=? year d) && (year d <=? 9999)
   && (1 <=? month d) && (month d <=? 12)
   && (1 <=? day d) && (day d <=? days_in_month (year d) (month d))
   && (0 <=? hour d) && (hour d <=? 23)
   && (0 <=? minute d) && (minute d <=? 59)
   && (0 <=? second d) && (second d <=? 59)
   && (0 <=? microsecond d) && (microsecond d <=? 999999))%Z.

(** [datetime(y, mo, d, h, mi, s, us, tzinfo=timezone.utc)]; [None] is the
    [ValueError] of an out-of-range field. *)
Definition novo_datetime (y mo d h mi s us : Z) : option datetime :=
  let dt := {| year := y; month := mo; day := d; hour := h; minute := mi;
               second := s; microsecond := us |} in
  if datetime_ok dt then Some dt else None.

Definition days_before_year (y : Z) : Z :=
  ((y - 1) * 365 + (y - 1) / 4 - (y - 1) / 100 + (y - 1) / 400)%Z.

Fixpoint days_before_month_nat (y : Z) (m : nat) : Z :=
  match m with
  | O => 0
  | S m' => (days_before_month_nat y m' + days_in_month y (Z.of_nat m))%Z
  end.

(** Days of the year before the first day of month [m]. *)
Definition days_before_month (y m : Z) : Z :=
  days_before_month_nat y (Z.to_nat (m - 1)).

(** Proleptic Gregorian ordinal; 1970-01-01 has ordinal 719163. *)
Definition toordinal (d : datetime) : Z :=
  (days_before_year (year d) + days_before_month (year d) (month d) + day d)%Z.

(** Microseconds since the epoch. *)
Definition micros (d : datetime) : Z :=
  (((toordinal d - 719163) * 86400
    + hour d * 3600 + minute d * 60 + second d) * 1000000
   + microsecond d)%Z.

(** [int(d.timestamp())] of an aware [datetime]: [timestamp()] is the
    float nearest to the seconds since the epoch, and [int] takes its
    integer part. *)
Definition int_timestamp (d : datetime) : Z :=
  truncar (timestamp_de_micros (micros d)).

(** ** Formatting *)

Definition pad2 (n : Z) : string :=
  if (n <? 10)%Z then "0" +:+ pretty n else pretty n.

Fixpoint zeros (k : nat) : string :=
  match k with O => EmptyString | S k' => "0" +:+ zeros k' end.

Definition pad6 (n : Z) : string :=
  let s := pretty n in zeros (6 - String.length s) +:+ s.

(** [d.strftime("%Y-%m-%dT%H:%M:%S.%fZ")] *)
Definition strftime_micro (d : datetime) : string :=
  pretty (year d) +:+ "-" +:+ pad2 (month d) +:+ "-" +:+ pad2 (day d)
  +:+ "T" +:+ pad2 (hour d) +:+ ":" +:+ pad2 (minute d) +:+ ":"
  +:+ pad2 (second d) +:+ "." +:+ pad6 (microsecond d) +:+ "Z".

(** [d.strftime("%Y-%m-%dT%H:%M:%SZ")] *)
Definition strftime_seg (d : datetime) : string :=
  pretty (year d) +:+ "-" +:+ pad2 (month d) +:+ "-" +:+ pad2 (day d)
  +:+ "T" +:+ pad2 (hour d) +:+ ":" +:+ pad2 (minute d) +:+ ":"
  +:+ pad2 (second d) +:+ "Z".

(** [d.replace(minute=0, second=0, microsecond=0)] *)
Definition inicio_da_hora (d : datetime) : datetime :=
  {| year := year d; month := month d; day := day d; hour := hour d;
     minute := 0; second := 0; microsecond := 0 |}.

(** ** Parsing *)

Definition digit_val (a : Ascii.ascii) : option Z :=
  let n := Ascii.N_of_ascii a in
  if ((48 <=? n) && (n <=? 57))%N then Some (Z.of_N n - 48)%Z else None.

Fixpoint digits_acc (acc : Z) (s : string) : option Z :=
  match s with
  | EmptyString => Some acc
  | String a r =>
      match digit_val a with
      | Some d => digits_acc (acc * 10 + d) r
      | None => None
      end
  end.

(** A non-empty run of ASCII decimal digits. *)
Definition digits (s : string) : option Z :=
  match s with
  | EmptyString => None
  | _ => digits_acc 0 s
  end.

(** [int(s)] on an optional sign followed by ASCII decimal digits. *)
Definition int_ascii (s : string) : option Z :=
  match s with
  | String "-"%char r => Z.opp <$> digits r
  | String "+"%char r => digits r
  | _ => digits s
  end.

(** What the library of the interpreter does on the texts that the
    definitions of this section do not read.  [int_outros s] is [int(s)]
    for a text that is not empty and is not an optional sign followed by
    ASCII decimal digits (the built-in also takes surrounding blanks, underscores between
    digits and digits outside ASCII).  [iso_outros s] is, for a text that
    [fromisoformat] below does not read (the library of some versions also
    reads zone offsets, other lengths of the fraction and layouts without
    separators), the [int(d.timestamp())] of the [datetime] that
    [datetime.fromisoformat(s)] returns, taken in UTC when it has no zone.
    [None] is the exception raised. *)
Record biblioteca := {
  int_outros : string -> option Z;
  iso_outros : string -> option Z
}.

(** [int(s)]; [None] is the exception it raises, as it does on the empty
    text. *)
Definition py_int (lib : biblioteca) (s : string) : option Z :=
  match int_ascii s with
  | Some z => Some z
  | None =>
      match s with
      | EmptyString => None
      | _ => int_outros lib s
      end
  end.

Fixpoint contains (a : Ascii.ascii) (s : string) : bool :=
  match s with
  | EmptyString => false
  | String b r => Ascii.eqb a b || contains a r
  end.

(** The white space that [str.strip()] removes, among the characters
    below U+0100: U+0009 to U+000D, U+001C to U+0020, U+0085 and U+00A0. *)
Definition is_space (a : Ascii.ascii) : bool :=
  let n := Ascii.N_of_ascii a in
  (((9 <=? n) && (n <=? 13)) || ((28 <=? n) && (n <=? 32))
   || (n =? 133) || (n =? 160))%N.

Fixpoint lstrip (s : string) : string :=
  match s with
  | EmptyString => EmptyString
  | String a r => if is_space a then lstrip r else s
  end.

Definition strip (s : string) : string :=
  String.rev (lstrip (String.rev (lstrip s))).

(** [s[a:b]] for [0 <= a <= b]. *)
Definition slice (a b : nat) (s : string) : string :=
  String.substring a (b - a) s.

Definition char_at (i : nat) (s : string) : option Ascii.ascii :=
  String.get i s.

(** [s[:-1] if s.endswith('Z') else s] *)
Definition sem_Z_final (s : string) : string :=
  let n := String.length s in
  match char_at (n - 1) s with
  | Some "Z"%char => slice 0 (n - 1) s
  | _ => s
  end.

(** [datetime.fromisoformat] on the layouts
    [YYYY-MM-DD*HH], [YYYY-MM-DD*HH:MM], [YYYY-MM-DD*HH:MM:SS],
    [YYYY-MM-DD*HH:MM:SS.fff] and [YYYY-MM-DD*HH:MM:SS.ffffff] without a zone
    offset ([*] is any one character) and with fields in range, which
    every version of the library that has the function reads alike; [None]
    on every other input, where [iso_outros] stands for the library. *)
Definition fromisoformat (s : string) : option datetime :=
  let n := String.length s in
  let is_ch i ch := bool_decide (char_at i s = Some ch) in
  let campo a b := digits (slice a b s) in
  if negb (is_ch 4 "-"%char && is_ch 7 "-"%char) then None else
  y ← campo 0 4; mo ← campo 5 7; d ← campo 8 10;
  h ← campo 11 13;
  if (n =? 13)%nat then novo_datetime y mo d h 0 0 0 else
  if negb (is_ch 13 ":"%char) then None else
  mi ← campo 14 16;
  if (n =? 16)%nat then novo_datetime y mo d h mi 0 0 else
  if negb (is_ch 16 ":"%char) then None else
  sg ← campo 17 19;
  if (n =? 19)%nat then novo_datetime y mo d h mi sg 0 else
  if negb (is_ch 19 "."%char) then None else
  if (n =? 23)%nat then
    ms ← campo 20 23; novo_datetime y mo d h mi sg (ms * 1000)
  else if (n =? 26)%nat then
    us ← campo 20 26; novo_datetime y mo d h mi sg us
  else None.

(** [_parse_timestamp_to_unix]; [None] is the exception it raises. *)
Definition _parse_timestamp_to_unix (lib : biblioteca) (tempo_str : string)
  : option Z :=
  match tempo_str with
  | EmptyString => None
  | _ =>
    let tempo_str := strip tempo_str in
    if contains "T"%char tempo_str && contains "-"%char tempo_str then
      let tempo_str := sem_Z_final tempo_str in
      match fromisoformat tempo_str with
      | Some dt_obj => Some (int_timestamp dt_obj)
      | None => iso_outros lib tempo_str
      end
    else if (String.length tempo_str <=? 10)%nat then py_int lib tempo_str
    else
      year ← py_int lib (slice 0 4 tempo_str);
      month ← py_int lib (slice 4 6 tempo_str);
      day ← py_int lib (slice 6 8 tempo_str);
      hour ← py_int lib (slice 8 10 tempo_str);
      minute ← py_int lib (slice 10 12 tempo_str);
      second ← py_int lib (slice 12 14 tempo_str);
      microsecond ← (if (20 <=? String.length tempo_str)%nat
                     then py_int lib (slice 14 20 tempo_str) else Some 0%Z);
      dt_obj ← novo_datetime year month day hour minute second microsecond;
      Some (int_timestamp dt_obj)
  end.

(** [_is_session_valid] and [_is_memory_valid], with [now] the reading of
    the clock made inside the function. *)
Definition _is_session_valid (lib : biblioteca) (now : datetime)
    (tempo_sessao_str : string) : bool :=
  match tempo_sessao_str with
  | EmptyString => false
  | _ =>
      match _parse_timestamp_to_unix lib tempo_sessao_str with
      | Some session_timestamp =>
          (int_timestamp now - session_timestamp <? 3600)%Z
      | None => false
      end
  end.

Definition MEMORY_TIMEOUT : Z := 604800.

Definition _is_memory_valid (lib : biblioteca) (now : datetime)
    (tempo_memoria_str : string) : bool :=
  match tempo_memoria_str with
  | EmptyString => false
  | _ =>
      match _parse_timestamp_to_unix lib tempo_memoria_str with
      | Some memory_timestamp =>
          (int_timestamp now - memory_timestamp <? MEMORY_TIMEOUT)%Z
      | None => false
      end
  end.

(** ** Fixed-width decimal numerals *)

(** [k] decimal digits of [n], least significant last, in front of [acc]. *)
Fixpoint decimal_fixo (k : nat) (n : N) (acc : string) : string :=
  match k with
  | O => acc
  | S k' => decimal_fixo k' (n / 10) (String (pretty_N_char (n mod 10)) acc)
  end.

(** A decimal digit character and its value. *)
Definition digito (c : ascii) (v : Z) : Prop :=
  digit_val c = Some v /\ (0 <= v <= 9)%Z.

(** The layout [YYYY-MM-DDTHH:MM:SS] followed by [fim], character by
    character. *)
Definition esq_seg (y1 y2 y3 y4 m1 m2 d1 d2 h1 h2 n1 n2 s1 s2 : ascii)
    (fim : string) : string :=
  String y1 (String y2 (String y3 (String y4 (String "-"
  (String m1 (String m2 (String "-" (String d1 (String d2 (String "T"
  (String h1 (String h2 (String ":" (String n1 (String n2 (String ":"
  (String s1 (String s2 fim)))))))))))))))))).

(** The layout [YYYY-MM-DDTHH:MM:SS.ffffff] followed by [fim]. *)
Definition esq_micro (y1 y2 y3 y4 m1 m2 d1 d2 h1 h2 n1 n2 s1 s2
    u1 u2 u3 u4 u5 u6 : ascii) (fim : string) : string :=
  esq_seg y1 y2 y3 y4 m1 m2 d1 d2 h1 h2 n1 n2 s1 s2
    (String "." (String u1 (String u2 (String u3 (String u4
    (String u5 (String u6 fim))))))).

(** The number written by two, four and six digits. *)
Definition val2 (a b : Z) : Z := (a * 10 + b)%Z.
Definition val4 (a b c d : Z) : Z := (((a * 10 + b) * 10 + c) * 10 + d)%Z.
Definition val6 (a b c d e f : Z) : Z :=
  (((((a * 10 + b) * 10 + c) * 10 + d) * 10 + e) * 10 + f)%Z.

(** Strings of ASCII decimal digits. *)
Fixpoint todos_digitos (s : string) : bool :=
  match s with
  | EmptyString => true
  | String c r => match digit_val c with Some _ => todos_digitos r | None => false end
  end.

(** [c.isdigit()] of a character below U+0100: the ASCII digits and the
    superscripts U+00B2, U+00B3 and U+00B9. *)
Definition isdigit_char (c : ascii) : bool :=
  let n := Ascii.N_of_ascii c in
  (((48 <=? n) && (n <=? 57)) || (n =? 178) || (n =? 179) || (n =? 185))%N.

Fixpoint todos_isdigit (s : string) : bool :=
  match s with
  | EmptyString => true
  | String c r => isdigit_char c && todos_isdigit r
  end.

(** [s.isdigit()] *)
Definition isdigit_str (s : string) : bool :=
  match s with EmptyString => false | _ => todos_isdigit s end.

End Timestamp.

(* ===================================================================== *)
(** * Negotiation ledger and session lifecycle *)
(* ===================================================================== *)

Module Ledger.
Import Py Timestamp.

(** The negotiation table: partition key [telefone], sort key
    [tempo_sessao], both strings. *)
Abbreviation negociacao := (gmap string (gmap string dict)).

(** Whether the calls on the table made during one invocation of the
    lifecycle raise: the query of [_get_session_timestamp_from_negociacao],
    the query of [_get_previous_negotiation_data], the query of
    [_get_memory_timestamp_from_negociacao], [put_item] and
    [update_item].  Each of them is made at most once in an invocation. *)
Record falhas := {
  falha_consulta_sessao : bool;
  falha_consulta_anterior : bool;
  falha_consulta_memoria : bool;
  falha_put_item : bool;
  falha_update_item : bool
}.

Definition nenhuma_falha : falhas :=
  {| falha_consulta_sessao := false; falha_consulta_anterior := false;
     falha_consulta_memoria := false; falha_put_item := false;
     falha_update_item := false |}.

(** An item as a query returns it: with its two key attributes. *)
Definition item_completo (telefone chave : string) (it : dict) : dict :=
  <["telefone" := VStr telefone]> (<["tempo_sessao" := VStr chave]> it).

Definition maior_chave (acc : option (string * dict)) (kv : string * dict)
  : option (string * dict) :=
  match acc with
  | None => Some kv
  | Some kv' => if bool_decide (String.le (fst kv') (fst kv)) then Some kv
                else acc
  end.

(** The entry of a partition with the greatest sort key. *)
Definition mais_recente (m : gmap string dict) : option (string * dict) :=
  foldl maior_chave None (map_to_list m).

(** [query(KeyConditionExpression=Key('telefone').eq(telefone),
    ScanIndexForward=False, Limit=1)]: the first of [Items], if any. *)
Definition consulta_mais_recente (t : negociacao) (telefone : string)
  : option dict :=
  m ← t !! telefone;
  kv ← mais_recente m;
  Some (item_completo telefone (fst kv) (snd kv)).

(** [put_item(Item=item)] when the call reaches the table; [None] is the
    error raised for an item without its string keys. *)
Definition put_item (t : negociacao) (item : dict) : option negociacao :=
  match item !! "telefone", item !! "tempo_sessao" with
  | Some (VStr tel), Some (VStr chave) =>
      Some (<[tel := <[chave := item]> (default ∅ (t !! tel))]> t)
  | _, _ => None
  end.

(** The item stored under a key, as a read returns it. *)
Definition registro (t : negociacao) (telefone chave : string) : option dict :=
  m ← t !! telefone;
  it ← m !! chave;
  Some (item_completo telefone chave it).

(** [not s] on a string. *)
Definition vazia (s : string) : bool :=
  match s with EmptyString => true | _ => false end.

(** [not s] where [s] is a string or [None]. *)
Definition vazia_opt (o : option string) : bool :=
  match o with Some s => vazia s | None => true end.

(** [_get_session_timestamp_from_negociacao]; when the query raises, the
    [except] branch returns [(None, None)]. *)
Definition _get_session_timestamp_from_negociacao (f : falhas)
    (t : negociacao) (telefone : string) : option string * option string :=
  if vazia telefone then (None, None) else
  if falha_consulta_sessao f then (None, None) else
  match consulta_mais_recente t telefone with
  | Some item0 =>
      match item0 !! "tempo_sessao" with
      | Some ts =>
          (Some (py_str ts),
           if truthy_opt (item0 !! "session_id")
           then Some (py_str (get item0 "session_id" (VStr EmptyString)))
           else None)
      | None => (None, None)
      end
  | None => (None, None)
  end.

Definition immutable_fields : list string :=
  [ "carga_id"; "veiculo_cavalo"; "veiculo_cavalo_id";
    "id_veiculo_equipamento"; "equipamento_ids"; "tipo_veiculo_id";
    "tipo_equipamento_id"; "tempo_memoria"; "placa_cavalo";
    "placa_equipamento" ].

(** One turn of the loop over [immutable_fields]. *)
Definition herdar_campo (prev_item : dict) (inherited_data : dict)
    (field : string) : dict :=
  match prev_item !! field with
  | Some v => if truthy v then <[field := v]> inherited_data
              else inherited_data
  | None => inherited_data
  end.

(** [_get_previous_negotiation_data]; when the query raises, the [except]
    branch returns [{}]. *)
Definition _get_previous_negotiation_data (f : falhas) (t : negociacao)
    (telefone : string) : dict :=
  if vazia telefone then ∅ else
  if falha_consulta_anterior f then ∅ else
  match consulta_mais_recente t telefone with
  | None => ∅
  | Some prev_item => foldl (herdar_campo prev_item) ∅ immutable_fields
  end.

(** [_save_session_timestamp_to_negociacao]; [now_memoria] is the reading
    of the clock made by [_is_memory_valid].  When [put_item] raises, the
    [except] branch returns [False] and nothing is written. *)
Definition _save_session_timestamp_to_negociacao (lib : biblioteca)
    (f : falhas) (now_memoria : datetime)
    (t : negociacao) (telefone tempo_sessao session_id : string)
    (negociacao_iniciada_em : option string) : bool * negociacao :=
  if vazia telefone || vazia tempo_sessao || vazia session_id
  then (false, t) else
  let inherited_data := _get_previous_negotiation_data f t telefone in
  let item : dict :=
    <["session_id" := VStr session_id]>
      (<["tempo_sessao" := VStr tempo_sessao]>
         (<["telefone" := VStr telefone]> ∅)) in
  let item :=
    if vazia_opt negociacao_iniciada_em then item
    else <["negociacao_iniciada_em" :=
             VStr (default EmptyString negociacao_iniciada_em)]> item in
  let item :=
    if bool_decide (inherited_data = ∅) then item
    else
      let inherited_data :=
        match inherited_data !! "tempo_memoria" with
        | Some tm =>
            if _is_memory_valid lib now_memoria (py_str tm)
            then inherited_data
            else delete "tempo_memoria" inherited_data
        | None => inherited_data
        end in
      inherited_data ∪ item in
  if falha_put_item f then (false, t) else
  match put_item t item with
  | Some t' => (true, t')
  | None => (false, t)
  end.

(** [_get_or_create_session_id]: [now] is the reading of the clock made by
    the function itself; [None] is the [ValueError] that escapes when the
    stored session pointer does not parse. *)
Definition _get_or_create_session_id (lib : biblioteca) (f : falhas)
    (now now_memoria : datetime) (t : negociacao) (telefone : string)
  : option ((string * bool) * negociacao) :=
  if vazia telefone then Some ((strftime_micro now, false), t) else
  let '(existing_tempo_sessao, existing_session_id) :=
    _get_session_timestamp_from_negociacao f t telefone in
  let current_tempo_sessao := strftime_seg (inicio_da_hora now) in
  let current_timestamp := int_timestamp now in
  if vazia_opt existing_tempo_sessao || vazia_opt existing_session_id then
    let new_session_id := strftime_micro now in
    let negociacao_iniciada_em := strftime_micro now in
    let '(_, t') := _save_session_timestamp_to_negociacao lib f now_memoria t
                      telefone current_tempo_sessao new_session_id
                      (Some negociacao_iniciada_em) in
    Some ((new_session_id, false), t')
  else
    let existing_tempo_sessao := default EmptyString existing_tempo_sessao in
    let existing_session_id := default EmptyString existing_session_id in
    session_id_timestamp ← _parse_timestamp_to_unix lib existing_session_id;
    let session_age_seconds := (current_timestamp - session_id_timestamp)%Z in
    if (session_age_seconds <? 3600)%Z then
      if String.eqb existing_tempo_sessao current_tempo_sessao then
        Some ((existing_session_id, false), t)
      else
        let negociacao_iniciada_em := strftime_micro now in
        let '(_, t') := _save_session_timestamp_to_negociacao lib f now_memoria t
                          telefone current_tempo_sessao existing_session_id
                          (Some negociacao_iniciada_em) in
        Some ((existing_session_id, false), t')
    else
      let new_session_id := strftime_micro now in
      let negociacao_iniciada_em := strftime_micro now in
      let '(_, t') := _save_session_timestamp_to_negociacao lib f now_memoria t
                        telefone current_tempo_sessao new_session_id
                        (Some negociacao_iniciada_em) in
      Some ((new_session_id, true), t').

(** What a field contributes to the inherited data. *)
Definition herdavel (prev : dict) (k : string) : option value :=
  match prev !! k with
  | Some v => if truthy v then Some v else None
  | None => None
  end.

(** The item that [_save_session_timestamp_to_negociacao] persists, read
    key by key. *)
Definition item_salvo (lib : biblioteca) (now_memoria : datetime)
    (inherited_data : dict)
    (telefone tempo_sessao session_id iniciada : string) (k : string)
  : option value :=
  match
    (if decide (k = "tempo_memoria") then
       match inherited_data !! k with
       | Some tm =>
           if _is_memory_valid lib now_memoria (py_str tm)
           then Some tm else None
       | None => None
       end
     else inherited_data !! k)
  with
  | Some v => Some v
  | None =>
      if decide ("negociacao_iniciada_em" = k) then Some (VStr iniciada)
      else if decide ("session_id" = k) then Some (VStr session_id)
      else if decide ("tempo_sessao" = k) then Some (VStr tempo_sessao)
      else if decide ("telefone" = k) then Some (VStr telefone)
      else None
  end.

(** The latest record of the correspondent is [prev]; it holds the bucket
    [ets] and the session pointer [sid], which reads as the instant [ts]. *)
Definition sessao_existente (lib : biblioteca) (t : negociacao)
    (tel : string) (prev : dict) (ets sid : string) (ts : Z) : Prop :=
  vazia tel = false
  /\ consulta_mais_recente t tel = Some prev
  /\ prev !! "tempo_sessao" = Some (VStr ets)
  /\ vazia ets = false
  /\ prev !! "session_id" = Some (VStr sid)
  /\ _parse_timestamp_to_unix lib sid = Some ts.

(** The call finds a session pointer that is 3600 seconds old or older. *)
Definition renovacao (lib : biblioteca) (now : datetime) (t : negociacao)
    (tel : string) (prev : dict) : Prop :=
  exists ets sid ts,
    sessao_existente lib t tel prev ets sid ts
    /\ (3600 <= int_timestamp now - ts)%Z.

(** The fields that [_save_session_timestamp_to_negociacao] writes itself. *)
Definition chaves_base : list string :=
  ["telefone"; "tempo_sessao"; "session_id"; "negociacao_iniciada_em"].

(** ** Memory lifecycle *)

(** [_normalize_tempo_memoria_to_iso] *)
Definition _normalize_tempo_memoria_to_iso (lib : biblioteca)
    (tempo_memoria : string) : string :=
  match tempo_memoria with
  | EmptyString => tempo_memoria
  | _ =>
    let tempo_str := strip tempo_memoria in
    if contains "T"%char tempo_str && contains "-"%char tempo_str
    then tempo_str
    else if (14 <=? String.length tempo_str)%nat && isdigit_str tempo_str then
      match
        year ← py_int lib (slice 0 4 tempo_str);
        month ← py_int lib (slice 4 6 tempo_str);
        day ← py_int lib (slice 6 8 tempo_str);
        hour ← py_int lib (slice 8 10 tempo_str);
        minute ← py_int lib (slice 10 12 tempo_str);
        second ← py_int lib (slice 12 14 tempo_str);
        microsecond ← (if (20 <=? String.length tempo_str)%nat
                       then py_int lib (slice 14 20 tempo_str) else Some 0%Z);
        novo_datetime year month day hour minute second microsecond
      with
      | Some dt_obj => strftime_micro dt_obj
      | None => tempo_str
      end
    else tempo_str
  end.

(** [_get_memory_timestamp_from_negociacao]; when the query raises, the
    [except] branch returns [None]. *)
Definition _get_memory_timestamp_from_negociacao (lib : biblioteca)
    (f : falhas) (t : negociacao) (telefone : string) : option string :=
  if vazia telefone then None else
  if falha_consulta_memoria f then None else
  match consulta_mais_recente t telefone with
  | Some item0 =>
      match item0 !! "tempo_memoria" with
      | Some tm => Some (_normalize_tempo_memoria_to_iso lib (py_str tm))
      | None => None
      end
  | None => None
  end.

(** [update_item(Key={telefone, tempo_sessao}, UpdateExpression='SET
    tempo_memoria = :tm')]: sets the attribute of the item under the key
    and creates the item when there is none. *)
Definition update_tempo_memoria (t : negociacao) (telefone chave : string)
    (tm : string) : negociacao :=
  let m := default ∅ (t !! telefone) in
  <[telefone := <[chave := <["tempo_memoria" := VStr tm]>
                              (default ∅ (m !! chave))]> m]> t.

(** [_save_memory_timestamp_to_negociacao]; [now] is the reading of the
    clock made when there is no session to attach the memory to.  When
    [put_item] or [update_item] raises, the [except] branch returns [False]
    and nothing is written. *)
Definition _save_memory_timestamp_to_negociacao (f : falhas) (now : datetime)
    (t : negociacao) (telefone tempo_memoria : string) : bool * negociacao :=
  if vazia telefone || vazia tempo_memoria then (false, t) else
  let '(tempo_sessao_recente, session_id_recente) :=
    _get_session_timestamp_from_negociacao f t telefone in
  if vazia_opt tempo_sessao_recente || vazia_opt session_id_recente then
    let tempo_sessao_recente := strftime_seg (inicio_da_hora now) in
    let session_id_recente := strftime_micro now in
    let negociacao_iniciada_em := strftime_micro now in
    if falha_put_item f then (false, t) else
    match put_item t
            (<["negociacao_iniciada_em" := VStr negociacao_iniciada_em]>
             (<["tempo_memoria" := VStr tempo_memoria]>
              (<["session_id" := VStr session_id_recente]>
               (<["tempo_sessao" := VStr tempo_sessao_recente]>
                (<["telefone" := VStr telefone]> ∅)))))
    with
    | Some t' => (true, t')
    | None => (false, t)
    end
  else
    if falha_update_item f then (false, t) else
    (true, update_tempo_memoria t telefone
             (default EmptyString tempo_sessao_recente) tempo_memoria).

(** [_get_or_create_memory_id]: [now_valid] is the reading of the clock
    made by [_is_memory_valid], [now] the one from which a new memory
    pointer is minted, [now_save] the one made while saving; [None] is the
    [ValueError] that escapes when the stored timestamp is not valid and
    does not parse. *)
Definition _get_or_create_memory_id (lib : biblioteca) (f : falhas)
    (now_valid now now_save : datetime)
    (t : negociacao) (telefone : string) : option (string * negociacao) :=
  if vazia telefone then Some ("mem_" +:+ strftime_micro now, t) else
  let existing_tempo_memoria :=
    _get_memory_timestamp_from_negociacao lib f t telefone in
  if vazia_opt existing_tempo_memoria then
    let tempo_memoria := strftime_micro now in
    let '(_, t') := _save_memory_timestamp_to_negociacao f now_save t telefone
                      tempo_memoria in
    Some (telefone +:+ "_mem_" +:+ tempo_memoria, t')
  else
    let existing_tempo_memoria := default EmptyString existing_tempo_memoria in
    if _is_memory_valid lib now_valid existing_tempo_memoria then
      Some (telefone +:+ "_mem_" +:+ existing_tempo_memoria, t)
    else
      memory_timestamp ← _parse_timestamp_to_unix lib existing_tempo_memoria;
      let tempo_memoria := strftime_micro now in
      let '(_, t') := _save_memory_timestamp_to_negociacao f now_save t
                        telefone tempo_memoria in
      Some (telefone +:+ "_mem_" +:+ tempo_memoria, t').

(** The memory is to be renewed: none is stored, or the stored one parses
    and is no longer valid. *)
Definition memoria_a_renovar (lib : biblioteca) (f : falhas)
    (now_valid : datetime) (t : negociacao) (tel : string) : Prop :=
  match _get_memory_timestamp_from_negociacao lib f t tel with
  | None => True
  | Some e =>
      vazia e = true
      \/ (is_Some (_parse_timestamp_to_unix lib e)
          /\ _is_memory_valid lib now_valid e = false)
  end.

(** The compact encoding is of a year that [strftime] writes with four
    digits. *)
Definition ano_de_quatro_digitos (lib : biblioteca) (s : string) : Prop :=
  forall y : Z,
    ((14 <=? String.length (strip s))%nat && isdigit_str (strip s)) = true ->
    py_int lib (slice 0 4 (strip s)) = Some y -> (1000 <= y)%Z.

(** The record of a session that starts with nothing to inherit. *)
Definition registro_inicial (tel bucket ponteiro : string) : dict :=
  <["negociacao_iniciada_em" := VStr ponteiro]>
  (<["session_id" := VStr ponteiro]>
   (<["tempo_sessao" := VStr bucket]>
    (<["telefone" := VStr tel]> ∅))).

End Ledger.

(* ===================================================================== *)
(** * Session attributes of a driver *)
(* ===================================================================== *)

Module Atributos.
Import Py Timestamp Ledger.
Local Open Scope Z_scope.

(** [d.strftime("%Y-%m-%d %H:%M:%S UTC")] *)
Definition strftime_utc (d : datetime) : string :=
  pretty (year d) +:+ "-" +:+ pad2 (month d) +:+ "-" +:+ pad2 (day d)
  +:+ " " +:+ pad2 (hour d) +:+ ":" +:+ pad2 (minute d) +:+ ":"
  +:+ pad2 (second d) +:+ " UTC".

(** An item as the low-level client returns it: attribute name to type tag
    to value. The function reads the tag [S] only, whose value is a
    string. *)
Abbreviation item_ddb := (gmap string (gmap string string)).

(** [item.get(k, {}).get("S", padrao)] *)
Definition campo_S (item : item_ddb) (k padrao : string) : string :=
  default padrao (default ∅ (item !! k) !! "S").

(** [_get_session_attributes_from_db]: [itens] is the list [Items] of the
    answer of the query on the drivers' table, [None] when the query
    raises; [now] is the reading of the clock. *)
Definition _get_session_attributes_from_db (now : datetime)
    (itens : option (list item_ddb)) (telefone : string)
  : gmap string string :=
  if vazia telefone then ∅ else
  match itens with
  | None => {[ "telefone" := telefone ]}
  | Some [] => {[ "telefone" := telefone ]}
  | Some (item :: _) =>
      let session_attrs : gmap string string :=
        <[ "data_atual" := strftime_utc now ]>
        (<[ "timestamp" := pretty (int_timestamp now) ]>
        (<[ "cadastrado_cpf" := campo_S item "cadastrado_cpf" "false" ]>
        (<[ "cadastrado_telefone" :=
              campo_S item "cadastrado_telefone" "false" ]>
        (<[ "nome" := campo_S item "nome" EmptyString ]>
        (<[ "id_motorista" := campo_S item "id_motorista" EmptyString ]>
        (<[ "telefone" := telefone ]> ∅)))))) in
      filter (fun kv => vazia kv.2 = false) session_attrs
  end.

(** The attributes a session may carry. *)
Definition chaves_session_attrs : list string :=
  ["telefone"; "id_motorista"; "nome"; "cadastrado_telefone";
   "cadastrado_cpf"; "timestamp"; "data_atual"].

End Atributos.

(* ===================================================================== *)
(** * Escape sequences of the rendered reply *)
(* ===================================================================== *)

Module Resposta.
Import Contact.
Local Open Scope N_scope.

(** [s.replace(old, new)] for a two-character [old = a b] and a
    one-character [new = c]. *)
Fixpoint replace2 (a b c : codepoint) (s : pystr) : pystr :=
  match s with
  | [] => []
  | x :: r =>
      match r with
      | y :: r' =>
          if (x =? a) && (y =? b) then c :: replace2 a b c r'
          else x :: replace2 a b c r
      | [] => [x]
      end
  end.

(** [sanitizar_texto_resposta]: backslash is 92, [n] 110, [t] 116, [r] 114;
    line feed is 10, tab 9, carriage return 13. *)
Definition sanitizar_texto_resposta (texto : pystr) : pystr :=
  match texto with
  | [] => texto
  | _ =>
      let texto_sanitizado := replace2 92 110 10 texto in
      let texto_sanitizado := replace2 92 116 9 texto_sanitizado in
      let texto_sanitizado := replace2 92 114 13 texto_sanitizado in
      texto_sanitizado
  end.

(** The two characters [a b] occur next to each other in [s]. *)
Fixpoint tem_par (a b : codepoint) (s : pystr) : bool :=
  match s with
  | [] => false
  | x :: r =>
      match r with
      | y :: _ => ((x =? a) && (y =? b)) || tem_par a b r
      | [] => false
      end
  end.

End Resposta.

(* ===================================================================== *)
(** * Concrete scenarios *)
(* ===================================================================== *)

Module Exemplos.
Import Py Flutuante Debounce Timestamp Ledger.
Local Open Scope Z_scope.

Definition cod_ex : string := "5511999990000".

Definition s_vazio : estado := {| tabela := ∅; agendados := [] |}.

Definition m_oi : dict := {[ "texto" := VStr "Oi" ]}.
Definition m_bom_dia : dict := {[ "texto" := VStr "bom dia" ]}.
Definition m_carga : dict :=
  <[ "tipo" := VStr "TEXT" ]> {[ "texto" := VStr "tem carga?" ]}.

(** 2023-11-14 22:13:20 UTC, in microseconds. *)
Definition T0 : instante := 1700000000000000.

(** "Oi", then "bom dia" two seconds later. *)
Definition c_oi : chamada := sem_falhas T0.
Definition c_bom_dia : chamada := sem_falhas (T0 + 2000000).

(** The entries that the two messages leave in the batch. *)
Definition e_oi : pendente := nova_pendente m_oi (carimbo T0).
Definition e_bom_dia : pendente :=
  nova_pendente m_bom_dia (carimbo (T0 + 2000000)).

(** The wakeup that a message arriving at [t] hands over. *)
Definition despertar_ex (t : instante) (atraso : Z) : despertar :=
  {| codConversa := cod_ex; d_timer_timestamp := carimbo t;
     delay_seconds := atraso |}.

(** The two wakeups of that burst: the one of "bom dia" sleeps 3 s, the
    one of "Oi" 10 s. *)
Definition disparos_ex : list evento :=
  [ Disparo (sem_falhas (T0 + 5000000)) (despertar_ex (T0 + 2000000) 3);
    Disparo (sem_falhas (T0 + 10000000)) (despertar_ex T0 10) ].

(** The burst of "Oi" and "bom dia" with its two wakeups. *)
Definition rajada_ex : list evento :=
  Chegada c_oi cod_ex m_oi :: Chegada c_bom_dia cod_ex m_bom_dia
  :: disparos_ex.

(** The state after "Oi" arrived, after "bom dia" arrived, and after the
    first wakeup fired. *)
Definition s_oi : estado :=
  fst (passo cfg_padrao s_vazio (Chegada c_oi cod_ex m_oi)).
Definition s_bom_dia : estado :=
  fst (passo cfg_padrao s_oi (Chegada c_bom_dia cod_ex m_bom_dia)).
Definition s_drenado : estado :=
  fst (passo cfg_padrao s_bom_dia
         (Disparo (sem_falhas (T0 + 5000000))
            (despertar_ex (T0 + 2000000) 3))).







(** "Oi" arrives and is stored; its wakeup wakes up after 10 s and reads
    the record; "bom dia" arrives a microsecond later and reads the record
    too, before the wakeup writes; the wakeup finishes, then the
    message. *)
Definition corrida_sobreposta : list acao :=
  [ Inicia (Chegada c_oi cod_ex m_oi); Conclui 0;
    Inicia (Disparo (sem_falhas (T0 + 10000000)) (despertar_ex T0 10));
    Inicia (Chegada (sem_falhas (T0 + 10000001)) cod_ex m_bom_dia);
    Conclui 0; Conclui 0 ].

Definition s_sobreposto : estado :=
  armazem (fst (executa cfg_padrao (sistema_de s_vazio) corrida_sobreposta)).


(** A store whose reads fail. *)
Definition c_sem_leitura : chamada :=
  {| agora := T0;
     falha_get_item := Some "ProvisionedThroughputExceededException";
     falha_escrita := None; falha_invoke := None |}.


(** A library that reads nothing beyond the layouts of [fromisoformat]
    and the numerals of [int_ascii]. *)
Definition lib_estrita : biblioteca :=
  {| int_outros := fun _ => None; iso_outros := fun _ => None |}.

(** Calls on the ledger in which [put_item], or the query for the latest
    record, raises. *)
Definition falha_put : falhas :=
  {| falha_consulta_sessao := false; falha_consulta_anterior := false;
     falha_consulta_memoria := false; falha_put_item := true;
     falha_update_item := false |}.
Definition falha_consulta : falhas :=
  {| falha_consulta_sessao := true; falha_consulta_anterior := false;
     falha_consulta_memoria := true; falha_put_item := false;
     falha_update_item := false |}.

(** The negotiation record of hour 10 of 2024-03-01, with a session
    pointer minted at 10:55 and a memory pointer two days old. *)
Definition bucket_10h : string := "2024-03-01T10:00:00Z".
Definition sid_10h55 : string := "2024-03-01T10:55:00.000000Z".
Definition tm_2dias : string := "2024-02-28T09:00:00.000000Z".

Definition item_10h : dict :=
  <[ "session_id" := VStr sid_10h55 ]>
  (<[ "carga_id" := VNum 42 ]>
  (<[ "equipamento_ids" := VList [] ]>
  (<[ "placa_cavalo" := VStr "ABC1D23" ]>
  (<[ "oferta_atual" := VStr "frete 123" ]>
  (<[ "tempo_memoria" := VStr tm_2dias ]> ∅))))).

Definition t_ex : negociacao := {[ cod_ex := {[ bucket_10h := item_10h ]} ]}.

Definition prev_ex : dict := item_completo cod_ex bucket_10h item_10h.

Definition as_11h05 : datetime :=
  {| year := 2024; month := 3; day := 1; hour := 11; minute := 5;
     second := 0; microsecond := 0 |}.
Definition as_11h54m59 : datetime :=
  {| year := 2024; month := 3; day := 1; hour := 11; minute := 54;
     second := 59; microsecond := 999999 |}.
Definition as_11h55 : datetime :=
  {| year := 2024; month := 3; day := 1; hour := 11; minute := 55;
     second := 0; microsecond := 0 |}.

(** The batch of "Oi" and "bom dia". *)
Definition lote_ex : list pendente := [e_oi; e_bom_dia].

(** The burst of "Oi" and "bom dia" with its two wakeups, and a message
    that arrives ten seconds after the last wakeup. *)
Definition rajada_e_carga : list evento :=
  rajada_ex ++ [Chegada (sem_falhas (T0 + 20000000)) cod_ex m_carga].

(** A batch with a message without text between "Oi" and "bom dia". *)
Definition m_sem_texto : dict := {[ "tipo" := VStr "IMAGE" ]}.
Definition lote_com_vazia : list pendente :=
  [e_oi; nova_pendente m_sem_texto (carimbo (T0 + 1000000)); e_bom_dia].

(** Another correspondent. *)
Definition outro_ex : string := "5521988887777".

(** The ledger of [t_ex] with a memory pointer of 2024-02-01, a month
    old. *)
Definition tm_velha : string := "2024-02-01T09:00:00.000000Z".
Definition item_velho : dict := <[ "tempo_memoria" := VStr tm_velha ]> item_10h.
Definition t_velha : negociacao :=
  {[ cod_ex := {[ bucket_10h := item_velho ]} ]}.
Definition prev_velho : dict := item_completo cod_ex bucket_10h item_velho.

(** A ledger without records. *)
Definition t_vazia : negociacao := ∅.

(** The ledger of [t_ex] with a record of another correspondent, and what
    the session lifecycle of the first one makes of it at 11:55. *)
Definition t_dois : negociacao :=
  <[ outro_ex := {[ bucket_10h := item_10h ]} ]> t_ex.
Definition r_renovada : string * bool :=
  default (EmptyString, false)
    (fst <$> _get_or_create_session_id lib_estrita nenhuma_falha
               as_11h55 as_11h55 t_dois cod_ex).
Definition t_renovada : negociacao :=
  default t_dois
    (snd <$> _get_or_create_session_id lib_estrita nenhuma_falha
               as_11h55 as_11h55 t_dois cod_ex).

(** A store whose writes fail. *)
Definition c_sem_escrita : chamada :=
  {| agora := T0 + 5000000; falha_get_item := None;
     falha_escrita := Some "ConditionalCheckFailedException";
     falha_invoke := None |}.

(** The memory timestamp 2024-03-01 10:55:00 in the compact encoding. *)
Definition tm_compacto : string := "20240301105500".

(** Readings of the clock far from the present: the last microsecond of
    the second hour of 2514-05-30 and the first instant of that hour, the
    last microsecond of year 9999, and the first microsecond of year
    1000. *)
Definition as_2514_01h59 : datetime :=
  {| year := 2514; month := 5; day := 30; hour := 1; minute := 59;
     second := 59; microsecond := 999999 |}.
Definition as_2514_01h00 : datetime :=
  {| year := 2514; month := 5; day := 30; hour := 1; minute := 0;
     second := 0; microsecond := 0 |}.
Definition fim_de_9999 : datetime :=
  {| year := 9999; month := 12; day := 31; hour := 23; minute := 59;
     second := 59; microsecond := 999999 |}.
Definition inicio_de_1000 : datetime :=
  {| year := 1000; month := 1; day := 1; hour := 0; minute := 0;
     second := 0; microsecond := 1 |}.

End Exemplos.

(* ===================================================================== *)
(** * Properties of the debounce coordinator *)
(* ===================================================================== *)

Module DebounceProps.
Import Py Flutuante Debounce.
Local Open Scope Z_scope.

Ltac desdobra :=
  unfold armazenar_mensagem_pendente, obter_e_limpar_mensagens_acumuladas,
    armazenar_apos_leitura, obter_apos_leitura, armazenar_excecao,
    agendar_processamento, tentar, mbind, M_bind, mret, M_ret,
    get_item, put_item, update_item, invoke.


(** ** The fencing comparison *)

(** A fencing value equal to the stored token is within the tolerance. *)
Lemma fora_da_tolerancia_refl x : fora_da_tolerancia x x = false.
Proof.
  unfold fora_da_tolerancia, maior, absoluto, subtrai.
  destruct x as [s|s| |s m e]; try (destruct s; reflexivity); try reflexivity.
  cbn [SFsub]. rewrite Z.sub_diag. reflexivity.
Qed.

Lemma fora_da_tolerancia_dif x y :
  fora_da_tolerancia x y = true -> x <> y.
Proof. intros H ->. by rewrite fora_da_tolerancia_refl in H. Qed.

(** ** An invocation that runs alone is its read followed by the rest *)

Lemma armazenar_lido cfg c cod m s :
  falha_get_item c = None ->
  armazenar_mensagem_pendente cfg c cod m s
  = tentar (armazenar_apos_leitura cfg c cod m (tabela s !! cod))
      armazenar_excecao s.
Proof.
  intros Hg. unfold armazenar_mensagem_pendente, tentar, mbind, M_bind,
    get_item. by rewrite Hg.
Qed.

Lemma obter_lido c cod f s :
  falha_get_item c = None ->
  obter_e_limpar_mensagens_acumuladas c cod f s
  = tentar (obter_apos_leitura c cod f (tabela s !! cod))
      (fun _ => mret []) s.
Proof.
  intros Hg. unfold obter_e_limpar_mensagens_acumuladas, tentar, mbind,
    M_bind, get_item. by rewrite Hg.
Qed.

Lemma age_serie cfg s e :
  executa cfg (sistema_de s) [Inicia e; Conclui 0]
  = (sistema_de (fst (passo cfg s e)),
     match snd (passo cfg s e) with Some l => [l] | None => [] end).
Proof.
  destruct e as [c cod m|c w]; cbn [executa age inicia chamada_de passo].
  - unfold get_item at 1. destruct (falha_get_item c) as [err|] eqn:Hg.
    + cbn. unfold armazenar_mensagem_pendente, tentar, mbind, M_bind,
        get_item. by rewrite Hg.
    + cbn. by rewrite armazenar_lido.
  - destruct (despertar_aceito w); [|done].
    unfold get_item at 1. destruct (falha_get_item c) as [err|] eqn:Hg.
    + cbn. unfold obter_e_limpar_mensagens_acumuladas, tentar, mbind,
        M_bind, get_item. by rewrite Hg.
    + cbn. rewrite obter_lido by done.
      by destruct (tentar _ _ s) as [[l|err] s'].
Qed.

Lemma executa_app cfg sis tr1 tr2 :
  executa cfg sis (tr1 ++ tr2)
  = let '(sis1, l1) := executa cfg sis tr1 in
    let '(sis2, l2) := executa cfg sis1 tr2 in
    (sis2, l1 ++ l2).
Proof.
  revert sis. induction tr1 as [|a tr1 IH]; intros sis.
  { cbn. by destruct (executa cfg sis tr2). }
  cbn [app executa]. destruct (age cfg sis a) as [sis' o].
  rewrite IH. destruct (executa cfg sis' tr1) as [sis1 l1].
  destruct (executa cfg sis1 tr2) as [sis2 l2]. by destruct o.
Qed.

(** A run whose invocations do not overlap is a sequence of invocations
    that run alone. *)
Lemma executa_serie cfg s tr :
  executa cfg (sistema_de s) (serie tr)
  = (sistema_de (estado_final cfg s tr), lotes cfg s tr).
Proof.
  revert s. induction tr as [|e tr IH]; intros s; [done|].
  change (serie (e :: tr)) with ([Inicia e; Conclui 0] ++ serie tr).
  rewrite executa_app, age_serie, IH.
  cbn [lotes estado_final fold_left].
  destruct (passo cfg s e) as [s' [l|]]; done.
Qed.

(** ** Fire *)

Lemma obter_apos_leitura_obsoleto c cod f item s :
  obsoleto item f -> obter_apos_leitura c cod f item s = (Ok [], s).
Proof.
  unfold obsoleto, obter_apos_leitura. intros H.
  destruct item as [it|]; [|done].
  destruct (fora_da_tolerancia _ f); [done|].
  destruct H as [H|H]; [done|]. by rewrite H.
Qed.

Lemma obter_obsoleto c cod f s :
  obsoleto (tabela s !! cod) f ->
  obter_e_limpar_mensagens_acumuladas c cod f s = (Ok [], s).
Proof.
  intros H. unfold obter_e_limpar_mensagens_acumuladas, tentar, mbind,
    M_bind, get_item.
  destruct (falha_get_item c); [done|].
  by rewrite obter_apos_leitura_obsoleto.
Qed.


(** Whatever happens, a wakeup either changes nothing and gets nothing, or
    drains the record. *)
Lemma obter_casos c cod f s :
  obter_e_limpar_mensagens_acumuladas c cod f s = (Ok [], s)
  \/ exists it,
       tabela s !! cod = Some it
       /\ default [] (pending_messages it) <> []
       /\ fora_da_tolerancia (default (de_inteiro 0) (timer_timestamp it)) f
          = false
       /\ obter_e_limpar_mensagens_acumuladas c cod f s
          = (Ok (default [] (pending_messages it)),
             {| tabela := <[cod := lote_drenado it]> (tabela s);
                agendados := agendados s |}).
Proof.
  desdobra.
  destruct (falha_get_item c); [by left|].
  destruct (tabela s !! cod) as [it|] eqn:Hit; [|by left].
  destruct (fora_da_tolerancia _ f) eqn:Hf; [by left|].
  destruct (default [] (pending_messages it)) as [|p ps] eqn:Hd; [by left|].
  destruct (falha_escrita c); [by left|].
  right. exists it. rewrite Hd. rewrite Hit. done.
Qed.



(** ** Accept *)

Lemma armazenar_inicia cfg c cod m s :
  falha_get_item c = None -> falha_escrita c = None ->
  timer_ativo cod s = false ->
  armazenar_mensagem_pendente cfg c cod m s
  = (Ok {| deve_processar := false; is_first_message := true;
           mensagens_acumuladas := Some 1%nat; timer_resetado := None;
           erro := None |},
     {| tabela := <[cod := lote_novo c m]> (tabela s);
        agendados := agendados s ++
          match falha_invoke c with
          | None =>
              [(agora c,
                {| codConversa := cod; d_timer_timestamp := carimbo (agora c);
                   delay_seconds := MESSAGE_ACCUMULATION_DELAY cfg |})]
          | Some _ => []
          end |}).
Proof.
  intros Hg He Hat. unfold timer_ativo in Hat.
  desdobra. rewrite Hg, Hat, He. cbn.
  destruct (falha_invoke c); [|done]. cbn. by rewrite app_nil_r.
Qed.

Lemma armazenar_estende cfg c cod m s it :
  falha_get_item c = None -> falha_escrita c = None ->
  tabela s !! cod = Some it ->
  default false (timer_active it) = true ->
  armazenar_mensagem_pendente cfg c cod m s
  = (Ok {| deve_processar := false; is_first_message := false;
           mensagens_acumuladas :=
             Some (length (default [] (pending_messages it)
                           ++ [nova_pendente m (carimbo (agora c))]));
           timer_resetado := Some true; erro := None |},
     {| tabela := <[cod := lote_estendido c m it it]> (tabela s);
        agendados := agendados s ++
          match falha_invoke c with
          | None =>
              [(agora c,
                {| codConversa := cod; d_timer_timestamp := carimbo (agora c);
                   delay_seconds := MESSAGE_EXTENSION_DELAY cfg |})]
          | Some _ => []
          end |}).
Proof.
  intros Hg He Hit Hat.
  desdobra. rewrite Hg, Hit. simpl. rewrite Hat, He. simpl.
  rewrite Hit. destruct (falha_invoke c); [|done]. cbn. by rewrite app_nil_r.
Qed.




(** C4. If the read or the write of the debounce store raises,
    [armazenar_mensagem_pendente] returns [deve_processar = true] (and has
    stored and scheduled nothing). *)
Theorem armazenar_falha_deve_processar cfg c cod m s :
  is_Some (falha_get_item c) \/ is_Some (falha_escrita c) ->
  exists r,
    armazenar_mensagem_pendente cfg c cod m s = (Ok r, s)
    /\ deve_processar r = true.
Proof.
  intros H. desdobra.
  destruct (falha_get_item c) as [e|] eqn:Hg.
  { eexists; split; reflexivity. }
  destruct H as [[? ?]|[e He]]; [done|].
  rewrite He.
  destruct (item_timer_active (tabela s !! cod));
    eexists; split; reflexivity.
Qed.

(** What a call of Accept can do to the table. *)
Lemma armazenar_tabela cfg c cod m s :
  let s' := snd (armazenar_mensagem_pendente cfg c cod m s) in
  tabela s' = tabela s
  \/ tabela s' = <[cod := lote_novo c m]> (tabela s)
  \/ exists it,
       tabela s !! cod = Some it
       /\ default false (timer_active it) = true
       /\ tabela s' = <[cod := lote_estendido c m it it]> (tabela s).
Proof.
  desdobra.
  destruct (falha_get_item c); [by left|].
  destruct (tabela s !! cod) as [it|] eqn:Hit; simpl.
  - destruct (default false (timer_active it)) eqn:Hact.
    + destruct (falha_escrita c); [by left|]. simpl. rewrite Hit.
      right; right. exists it.
      destruct (falha_invoke c); done.
    + destruct (falha_escrita c); [by left|]. simpl. right; left.
      destruct (falha_invoke c); done.
  - destruct (falha_escrita c); [by left|]. simpl. right; left.
    destruct (falha_invoke c); done.
Qed.


(** ** Bursts *)













(** ** Conservation of messages *)

Lemma passo_inativo_sem_lote cfg cod s e :
  correspondente e = cod ->
  inativo_sem_lote cod s -> inativo_sem_lote cod (fst (passo cfg s e)).
Proof.
  intros <- IH it Hit Hina.
  destruct e as [c cod m|c w]; cbn [correspondente] in *.
  - simpl in Hit.
    destruct (armazenar_tabela cfg c cod m s) as [Ht|[Ht|(it0 & Hit0 & Hact & Ht)]];
      simpl in Ht; rewrite Ht in Hit.
    + by apply IH.
    + rewrite lookup_insert_eq in Hit. by simplify_eq.
    + rewrite lookup_insert_eq in Hit. simplify_eq. simpl in Hina. congruence.
  - cbn [passo] in Hit. destruct (despertar_aceito w); [|by apply IH].
    destruct (obter_casos c (codConversa w) (d_timer_timestamp w) s)
      as [Ho|(it0 & Hit0 & _ & _ & Ho)];
      rewrite Ho in Hit; simpl in Hit.
    + by apply IH.
    + rewrite lookup_insert_eq in Hit. by simplify_eq.
Qed.

Lemma passo_chegada_pendentes cfg cod s c m :
  inativo_sem_lote cod s ->
  falha_get_item c = None -> falha_escrita c = None ->
  pendentes cod (fst (passo cfg s (Chegada c cod m)))
  = pendentes cod s ++ [entrada (c, m)].
Proof.
  intros Hinv Hg He. unfold pendentes. cbn [passo fst].
  destruct (timer_ativo cod s) eqn:Hat.
  - unfold timer_ativo, item_timer_active in Hat.
    destruct (tabela s !! cod) as [it|] eqn:Hit; [|done].
    erewrite armazenar_estende by eauto. cbn [snd tabela].
    by rewrite lookup_insert_eq.
  - rewrite armazenar_inicia by done. cbn [snd tabela].
    rewrite lookup_insert_eq. cbn.
    unfold timer_ativo, item_timer_active in Hat.
    destruct (tabela s !! cod) as [it|] eqn:Hit; [|done].
    by rewrite (Hinv it Hit Hat).
Qed.

Lemma passo_disparo_pendentes cfg s c w :
  concat (match snd (passo cfg s (Disparo c w)) with
          | Some l => [l] | None => [] end)
  ++ pendentes (codConversa w) (fst (passo cfg s (Disparo c w)))
  = pendentes (codConversa w) s.
Proof.
  cbn [passo]. destruct (despertar_aceito w); [|done].
  destruct (obter_casos c (codConversa w) (d_timer_timestamp w) s)
    as [Ho|(it & Hit & Hne & _ & Ho)]; rewrite Ho; [done|].
  unfold pendentes. cbn. rewrite lookup_insert_eq, Hit. cbn.
  by rewrite !app_nil_r.
Qed.

Lemma lotes_cons cfg s e tr :
  lotes cfg s (e :: tr)
  = match snd (passo cfg s e) with Some l => [l] | None => [] end
    ++ lotes cfg (fst (passo cfg s e)) tr.
Proof. cbn [lotes]. by destruct (passo cfg s e) as [s' [l|]]. Qed.

(** X1. In a run for one correspondent whose invocations do not overlap
    and in which no arrival hits an error of the store, every message is
    handed out exactly once and in arrival order: the batches returned by
    the calls of [obter_e_limpar_mensagens_acumuladas], one after the
    other, followed by what is still pending at the end, are what was
    pending at the start followed by the entries of the messages that
    arrived, each with the fields of its message. *)
Theorem mensagens_conservadas cfg cod s tr :
  inativo_sem_lote cod s ->
  Forall (fun e => correspondente e = cod) tr ->
  chegadas_sem_falha tr ->
  concat (snd (executa cfg (sistema_de s) (serie tr)))
  ++ pendentes cod (armazem (fst (executa cfg (sistema_de s) (serie tr))))
  = pendentes cod s
    ++ map (fun cm : chamada * dict =>
              {| texto := get (snd cm) "texto" (VStr EmptyString);
                 tipo := get (snd cm) "tipo" (VStr "TEXT");
                 timestamp := carimbo (agora (fst cm));
                 codMensagem := get (snd cm) "codMensagem" (VStr EmptyString);
                 nomeArquivo := get (snd cm) "nomeArquivo" (VStr EmptyString);
                 localizacao := get (snd cm) "localizacao" (VStr EmptyString);
                 mensagemResposta :=
                   get (snd cm) "mensagemResposta" (VStr EmptyString) |})
          (mensagens tr).
Proof.
  rewrite executa_serie. cbn [fst snd armazem sistema_de].
  change (fun cm : chamada * dict => _) with entrada.
  intros Hinv Hcod Htr. revert s Hinv.
  induction tr as [|e tr IH]; intros s Hinv.
  { simpl. by rewrite app_nil_r. }
  apply Forall_cons in Hcod as [Hce Hcod].
  apply Forall_cons in Htr as [He Htr].
  pose proof (passo_inativo_sem_lote cfg cod s e Hce Hinv) as Hinv'.
  specialize (IH Hcod Htr _ Hinv').
  rewrite lotes_cons, concat_app, <- app_assoc.
  cbn [estado_final fold_left]. fold (estado_final cfg (fst (passo cfg s e)) tr).
  rewrite IH.
  destruct e as [c cod0 m|c w]; cbn [correspondente] in Hce; subst cod.
  - cbn beta in He. cbn [e_chegada chamada_de] in He.
    destruct (He eq_refl) as [Hg Hes].
    rewrite (passo_chegada_pendentes cfg cod0 s c m Hinv Hg Hes).
    cbn [passo snd concat app mensagens map]. by rewrite <- app_assoc.
  - cbn [mensagens]. rewrite app_assoc.
    by rewrite passo_disparo_pendentes.
Qed.

(** X2. Fencing idempotence: once a wakeup obtained a batch, any further
    wakeup, whatever its fencing value, obtains nothing and changes
    nothing, until a new message arrives. *)
Theorem disparo_uma_vez c1 c2 cod f1 f2 s l s' :
  obter_e_limpar_mensagens_acumuladas c1 cod f1 s = (Ok l, s') ->
  l <> [] ->
  obter_e_limpar_mensagens_acumuladas c2 cod f2 s' = (Ok [], s').
Proof.
  intros H1 Hl.
  destruct (obter_casos c1 cod f1 s) as [Ho|(it & Hit & Hne & _ & Ho)];
    rewrite Ho in H1; injection H1 as <- <-; [done|].
  apply obter_obsoleto. unfold obsoleto. cbn.
  rewrite lookup_insert_eq. by right.
Qed.

(** X3. The coordinator works on the record of its correspondent only: an
    inbound message or a wakeup of one correspondent leaves the record of
    every other correspondent as it was. *)
Theorem passo_isola_correspondentes cfg cod' s e :
  cod' <> correspondente e ->
  tabela (fst (passo cfg s e)) !! cod' = tabela s !! cod'.
Proof.
  intros Hne. destruct e as [c cod m|c w]; cbn [passo fst correspondente] in *.
  - destruct (armazenar_tabela cfg c cod m s) as [Ht|[Ht|(it0 & _ & _ & Ht)]];
      simpl in Ht; rewrite Ht; by rewrite ?lookup_insert_ne.
  - destruct (despertar_aceito w); [|done].
    destruct (obter_casos c (codConversa w) (d_timer_timestamp w) s)
      as [Ho|(it0 & _ & _ & _ & Ho)];
      rewrite Ho; cbn; by rewrite ?lookup_insert_ne.
Qed.

(** X4. Scheduling discipline: a wakeup never schedules another wakeup; an
    inbound message schedules at most one, and that one carries the
    correspondent and the time of the message as its fencing value. *)
Theorem agendamento_disciplinado cfg s e :
  match e with
  | Disparo _ _ => agendados (fst (passo cfg s e)) = agendados s
  | Chegada c cod m =>
      agendados (fst (passo cfg s e)) = agendados s
      \/ exists d,
           agendados (fst (passo cfg s e))
           = agendados s ++ [(agora c,
                              {| codConversa := cod;
                                 d_timer_timestamp := carimbo (agora c);
                                 delay_seconds := d |})]
           /\ (d = MESSAGE_ACCUMULATION_DELAY cfg
               \/ d = MESSAGE_EXTENSION_DELAY cfg)
  end.
Proof.
  destruct e as [c cod m|c w]; cbn [passo fst].
  - desdobra.
    destruct (falha_get_item c); [by left|].
    destruct (item_timer_active (tabela s !! cod));
      (destruct (falha_escrita c); [by left|]); cbn;
      (destruct (falha_invoke c); [by left|]); cbn;
      right; eexists; split; eauto.
  - destruct (despertar_aceito w); [|done].
    destruct (obter_casos c (codConversa w) (d_timer_timestamp w) s)
      as [Ho|(it0 & _ & _ & _ & Ho)];
      by rewrite Ho.
Qed.

(** ** The combined text *)

Lemma filter_com_texto_idem l :
  List.filter com_texto (List.filter com_texto l) = List.filter com_texto l.
Proof.
  induction l as [|m l IH]; [done|]. simpl.
  destruct (com_texto m) eqn:Hm; [|done]. simpl. by rewrite Hm, IH.
Qed.
Lemma textos_str_filter l :
  Forall (fun m => exists s, texto m = VStr s) l ->
  exists ss, textos_str (map texto (List.filter com_texto l)) = Some ss.
Proof.
  induction 1 as [|m l [s Hs] _ [ss IH]]; [by exists []|].
  simpl. destruct (com_texto m); [|by exists ss].
  simpl. rewrite Hs, IH. by eexists.
Qed.

(** X5. Messages without text never change the combined text: combining a
    batch is combining its messages that have a text. *)
Theorem combinar_ignora_vazias l :
  Forall (fun m => exists s, texto m = VStr s) l ->
  combinar_mensagens l = combinar_mensagens (List.filter com_texto l).
Proof.
  intros Hl. destruct l as [|m1 [|m2 l]]; [done| |].
  - apply Forall_cons in Hl as [[s Hs] _]. simpl. unfold com_texto.
    rewrite Hs. destruct s; simpl; by rewrite ?Hs.
  - set (l0 := m1 :: m2 :: l) in *.
    destruct (textos_str_filter l0 Hl) as [ss Hss].
    change (combinar_mensagens l0)
      with (textos ← textos_str (map texto (List.filter com_texto l0));
            Some (VStr (join LF textos))).
    rewrite Hss. cbn [mbind option_bind].
    destruct (List.filter com_texto l0) as [|a [|b r]] eqn:Hf.
    + simpl in Hss. by injection Hss as <-.
    + assert (Ha : In a (List.filter com_texto l0)) by (rewrite Hf; by left).
      apply filter_In in Ha as [Ha _].
      rewrite Forall_forall in Hl.
      destruct (Hl a ltac:(by apply list_elem_of_In)) as [s Hs].
      simpl in Hss. rewrite Hs in Hss. injection Hss as <-.
      simpl. by rewrite Hs.
    + change (combinar_mensagens (a :: b :: r))
        with (textos ← textos_str (map texto (List.filter com_texto (a :: b :: r)));
              Some (VStr (join LF textos))).
      assert (List.filter com_texto (a :: b :: r) = a :: b :: r) as ->
        by (rewrite <- Hf; apply filter_com_texto_idem).
      by rewrite Hss.
Qed.

(** ** Collaborator errors at a wakeup *)

(** X22. A wakeup whose read or whose write of the debounce store raises
    obtains nothing and leaves the store as it was: the batch stays
    pending. *)
Theorem obter_falha_sem_efeito c cod f s :
  is_Some (falha_get_item c) \/ is_Some (falha_escrita c) ->
  obter_e_limpar_mensagens_acumuladas c cod f s = (Ok [], s).
Proof.
  intros H. desdobra.
  destruct (falha_get_item c) as [e|]; [done|].
  destruct H as [[? [=]]|[e He]]. rewrite He.
  destruct (tabela s !! cod) as [it|]; [|done].
  destruct (fora_da_tolerancia _ f); [done|].
  by destruct (default [] (pending_messages it)).
Qed.


End DebounceProps.

(* ===================================================================== *)
(** * Properties of the ledger and of the session lifecycle *)
(* ===================================================================== *)

Module LedgerProps.
Import Py Timestamp Ledger.

(** Membership in one of the literal lists of field names. *)
Ltac na_lista :=
  unfold chaves_base, immutable_fields; solve [repeat constructor].

Lemma maior_chave_spec acc kv r :
  maior_chave acc kv = Some r ->
  String.le (fst kv) (fst r)
  /\ (forall a, acc = Some a -> String.le (fst a) (fst r))
  /\ (r = kv \/ acc = Some r).
Proof.
  unfold maior_chave. destruct acc as [a|].
  - case_bool_decide as Hle; intros [= <-].
    + split; [done|]. split; [|by left]. by intros ? [= <-].
    + split; [|split; [|by right]].
      * destruct (total String.le (fst a) (fst kv)); done.
      * by intros ? [= <-].
  - intros [= <-]. split; [done|]. split; [done|by left].
Qed.

Lemma foldl_maior_spec l : forall acc r,
  foldl maior_chave acc l = Some r ->
  (forall kv, kv ∈ l -> String.le (fst kv) (fst r))
  /\ (forall a, acc = Some a -> String.le (fst a) (fst r))
  /\ (r ∈ l \/ acc = Some r).
Proof.
  induction l as [|kv l IH]; intros acc r Hr; simpl in Hr.
  - split; [by intros ? ?%elem_of_nil|]. split; [by intros ? ->; simplify_eq|by right].
  - destruct (maior_chave acc kv) as [r0|] eqn:Hm.
    2:{ destruct acc; simpl in Hm; [case_bool_decide|]; done. }
    destruct (IH _ _ Hr) as (H1 & H2 & H3).
    destruct (maior_chave_spec _ _ _ Hm) as (G1 & G2 & G3).
    pose proof (H2 _ eq_refl) as H0.
    split; [|split].
    + intros kv' [->|Hin]%elem_of_cons; [|by apply H1]. by etrans.
    + intros a Ha. etrans; [by apply G2|done].
    + destruct H3 as [H3|H3]; [left; by right|].
      simplify_eq. destruct G3 as [->|G3]; [left; by left|by right].
Qed.

Lemma mais_recente_Some m k v :
  mais_recente m = Some (k, v) ->
  m !! k = Some v /\ forall k' v', m !! k' = Some v' -> String.le k' k.
Proof.
  unfold mais_recente. intros H.
  destruct (foldl_maior_spec _ _ _ H) as (H1 & _ & [H3|H3]); [|done].
  split; [by apply elem_of_map_to_list|].
  intros k' v' Hk'. apply (H1 (k', v')). by apply elem_of_map_to_list.
Qed.

Lemma mais_recente_None m : mais_recente m = None -> m = ∅.
Proof.
  unfold mais_recente. intros H. apply map_to_list_empty_iff.
  destruct (map_to_list m) as [|kv l]; [done|]. exfalso.
  simpl in H. revert H. generalize kv. clear.
  induction l as [|kv' l IH]; intros kv; simpl; [done|].
  case_bool_decide; apply IH.
Qed.

Lemma mais_recente_maximo m k v :
  m !! k = Some v ->
  (forall k' v', m !! k' = Some v' -> String.le k' k) ->
  mais_recente m = Some (k, v).
Proof.
  intros Hk Hmax.
  destruct (mais_recente m) as [[k2 v2]|] eqn:Hm.
  - apply mais_recente_Some in Hm as [Hk2 Hmax2].
    assert (k2 = k) as ->.
    { apply (anti_symm String.le); eauto. }
    by simplify_eq.
  - apply mais_recente_None in Hm. by simplify_eq.
Qed.

Lemma vazia_app_r a b : vazia b = false -> vazia (a +:+ b) = false.
Proof. destruct a; [done|]. done. Qed.

Lemma strftime_seg_nao_vazia d : vazia (strftime_seg d) = false.
Proof. unfold strftime_seg. repeat apply vazia_app_r. done. Qed.

Lemma strftime_micro_nao_vazia d : vazia (strftime_micro d) = false.
Proof. unfold strftime_micro. repeat apply vazia_app_r. done. Qed.

Lemma parse_nao_vazia lib s ts :
  _parse_timestamp_to_unix lib s = Some ts -> vazia s = false.
Proof. by destruct s. Qed.

Lemma foldl_herdar_lookup prev l : forall acc k,
  foldl (herdar_campo prev) acc l !! k
  = if bool_decide (k ∈ l)
    then match herdavel prev k with Some v => Some v | None => acc !! k end
    else acc !! k.
Proof.
  induction l as [|c l IH]; intros acc k; cbn [foldl].
  { by rewrite bool_decide_eq_false_2 by apply not_elem_of_nil. }
  rewrite IH.
  destruct (decide (k = c)) as [->|Hne].
  - rewrite (bool_decide_eq_true_2 (c ∈ c :: l)) by by left.
    unfold herdar_campo, herdavel.
    destruct (prev !! c) as [v|]; [|by case_bool_decide].
    destruct (truthy v); [|by case_bool_decide].
    rewrite lookup_insert_eq. by case_bool_decide.
  - assert (bool_decide (k ∈ c :: l) = bool_decide (k ∈ l)) as ->.
    { apply bool_decide_ext. rewrite elem_of_cons.
      split; [by intros [?|?]|by right]. }
    assert (herdar_campo prev acc c !! k = acc !! k) as ->; [|done].
    unfold herdar_campo. destruct (prev !! c) as [v|]; [|done].
    destruct (truthy v); [|done]. by rewrite lookup_insert_ne.
Qed.

Lemma herdados_lookup f t tel prev k :
  vazia tel = false ->
  falha_consulta_anterior f = false ->
  consulta_mais_recente t tel = Some prev ->
  _get_previous_negotiation_data f t tel !! k
  = if bool_decide (k ∈ immutable_fields) then herdavel prev k else None.
Proof.
  intros Htel Hf Hprev. unfold _get_previous_negotiation_data.
  rewrite Htel, Hf, Hprev, foldl_herdar_lookup, lookup_empty.
  case_bool_decide; [|done]. by destruct (herdavel prev k).
Qed.


Lemma salvar_spec lib f now_memoria t tel ts sid ini :
  vazia tel = false -> vazia ts = false -> vazia sid = false ->
  vazia ini = false ->
  falha_put_item f = false ->
  _get_previous_negotiation_data f t tel !! "telefone" = None ->
  _get_previous_negotiation_data f t tel !! "tempo_sessao" = None ->
  exists novo,
    _save_session_timestamp_to_negociacao lib f now_memoria t tel ts sid
      (Some ini)
    = (true, <[tel := <[ts := novo]> (default ∅ (t !! tel))]> t)
    /\ forall k, novo !! k
         = item_salvo lib now_memoria (_get_previous_negotiation_data f t tel)
                      tel ts sid ini k.
Proof.
  intros Htel Hts Hsid Hini Hput Hb1 Hb2.
  unfold _save_session_timestamp_to_negociacao.
  rewrite Htel, Hts, Hsid, Hput. cbn [orb vazia_opt]. rewrite Hini.
  cbn [default from_option]. unfold id.
  set (inh := _get_previous_negotiation_data f t tel) in *.
  set (base := <["negociacao_iniciada_em":=VStr ini]> _).
  set (novo := if bool_decide (inh = ∅) then base else _).
  assert (Hnovo : forall k,
            novo !! k = item_salvo lib now_memoria inh tel ts sid ini k).
  { intros k. unfold novo, item_salvo.
    assert (Hb : base !! k =
      if decide ("negociacao_iniciada_em" = k) then Some (VStr ini)
      else if decide ("session_id" = k) then Some (VStr sid)
      else if decide ("tempo_sessao" = k) then Some (VStr ts)
      else if decide ("telefone" = k) then Some (VStr tel)
      else None).
    { unfold base. rewrite !lookup_insert, lookup_empty. done. }
    case_bool_decide as Hinh.
    - rewrite Hb, Hinh, lookup_empty. by destruct (decide (k = "tempo_memoria")).
    - rewrite lookup_union, Hb.
      destruct (decide (k = "tempo_memoria")) as [->|Hk].
      + destruct (inh !! "tempo_memoria") as [tm|] eqn:Htm.
        * destruct (_is_memory_valid lib now_memoria (py_str tm)).
          -- by rewrite Htm.
          -- by rewrite lookup_delete_eq.
        * by rewrite Htm.
      + assert ((match inh !! "tempo_memoria" with
                 | Some tm => if _is_memory_valid lib now_memoria (py_str tm)
                              then inh else delete "tempo_memoria" inh
                 | None => inh end) !! k = inh !! k) as ->.
        { destruct (inh !! "tempo_memoria") as [tm|]; [|done].
          destruct (_is_memory_valid _ _); [done|]. by rewrite lookup_delete_ne. }
        match goal with |- _ ∪ ?o = _ => by destruct (inh !! k), o end. }
  exists novo. split; [|done].
  unfold put_item. rewrite !Hnovo. unfold item_salvo.
  cbn. rewrite Hb1, Hb2. cbn. done.
Qed.

Lemma vazia_truthy s : vazia s = false -> truthy (VStr s) = true.
Proof. by destruct s. Qed.

Lemma herdados_fora f t tel k :
  k ∉ immutable_fields -> _get_previous_negotiation_data f t tel !! k = None.
Proof.
  intros Hk. unfold _get_previous_negotiation_data.
  destruct (vazia tel); [done|].
  destruct (falha_consulta_anterior f); [done|].
  destruct (consulta_mais_recente t tel) as [prev|]; [|done].
  rewrite foldl_herdar_lookup, lookup_empty.
  by rewrite bool_decide_eq_false_2.
Qed.

Lemma base_nao_herdada k : k ∈ chaves_base -> k ∉ immutable_fields.
Proof.
  unfold chaves_base, immutable_fields. rewrite !elem_of_cons, elem_of_nil.
  intros [->|[->|[->|[->|[]]]]] H;
    repeat (destruct H as [H|H]; [discriminate H|]); done.
Qed.

Lemma consulta_chave t tel prev ets :
  consulta_mais_recente t tel = Some prev ->
  prev !! "tempo_sessao" = Some (VStr ets) ->
  exists m it, t !! tel = Some m /\ mais_recente m = Some (ets, it)
               /\ prev = item_completo tel ets it.
Proof.
  unfold consulta_mais_recente. intros H Hets.
  destruct (t !! tel) as [m|]; [|done]. simpl in H.
  destruct (mais_recente m) as [[k it]|] eqn:Hm; [|done]. simpl in H.
  injection H as <-. unfold item_completo in Hets.
  rewrite lookup_insert_ne, lookup_insert_eq in Hets by done.
  injection Hets as ->. by exists m, it.
Qed.

Lemma sessao_existente_lida lib f t tel prev ets sid ts :
  falha_consulta_sessao f = false ->
  sessao_existente lib t tel prev ets sid ts ->
  _get_session_timestamp_from_negociacao f t tel = (Some ets, Some sid).
Proof.
  intros Hf (Htel & Hprev & Hets & _ & Hsid & Hparse).
  unfold _get_session_timestamp_from_negociacao.
  rewrite Htel, Hf, Hprev, Hets. unfold get. rewrite Hsid. cbn [truthy_opt default from_option].
  rewrite vazia_truthy by by eapply parse_nao_vazia. done.
Qed.

Lemma sessao_casos lib f now now_mem t tel prev ets sid ts :
  falha_consulta_sessao f = false ->
  sessao_existente lib t tel prev ets sid ts ->
  _get_or_create_session_id lib f now now_mem t tel
  = if (int_timestamp now - ts <? 3600)%Z then
      if String.eqb ets (strftime_seg (inicio_da_hora now))
      then Some ((sid, false), t)
      else Some ((sid, false),
                 snd (_save_session_timestamp_to_negociacao lib f now_mem t tel
                        (strftime_seg (inicio_da_hora now)) sid
                        (Some (strftime_micro now))))
    else Some ((strftime_micro now, true),
               snd (_save_session_timestamp_to_negociacao lib f now_mem t tel
                      (strftime_seg (inicio_da_hora now)) (strftime_micro now)
                      (Some (strftime_micro now)))).
Proof.
  intros Hf H. pose proof H as (Htel & _ & _ & Hets & _ & Hparse).
  unfold _get_or_create_session_id.
  rewrite Htel, (sessao_existente_lida _ _ _ _ _ _ _ _ Hf H).
  cbn [vazia_opt]. rewrite Hets, (parse_nao_vazia _ _ _ Hparse).
  cbn [orb default from_option]. unfold id. rewrite Hparse. cbn [mbind option_bind].
  destruct (int_timestamp now - ts <? 3600)%Z.
  - destruct (String.eqb _ _); [done|].
    by destruct (_save_session_timestamp_to_negociacao _ _ _ _ _ _ _ _).
  - by destruct (_save_session_timestamp_to_negociacao _ _ _ _ _ _ _ _).
Qed.

(** What the coordinator persists when it saves a session. *)
Lemma salvar_registro lib f now_mem t tel ts sid ini :
  vazia tel = false -> vazia ts = false -> vazia sid = false ->
  vazia ini = false ->
  falha_put_item f = false ->
  exists novo,
    snd (_save_session_timestamp_to_negociacao lib f now_mem t tel ts sid
           (Some ini))
    = <[tel := <[ts := novo]> (default ∅ (t !! tel))]> t
    /\ novo !! "telefone" = Some (VStr tel)
    /\ novo !! "tempo_sessao" = Some (VStr ts)
    /\ forall k, novo !! k
         = item_salvo lib now_mem (_get_previous_negotiation_data f t tel)
                      tel ts sid ini k.
Proof.
  intros Htel Hts Hsid Hini Hput.
  destruct (salvar_spec lib f now_mem t tel ts sid ini Htel Hts Hsid Hini Hput)
    as (novo & Hs & Hn).
  - apply herdados_fora, base_nao_herdada. na_lista.
  - apply herdados_fora, base_nao_herdada. na_lista.
  - exists novo. rewrite Hs. split; [done|].
    split; [|split; [|done]]; rewrite Hn; unfold item_salvo;
      rewrite herdados_fora by (apply base_nao_herdada; na_lista);
      done.
Qed.

Lemma registro_salvo (t : negociacao) tel ts (novo : dict) :
  novo !! "telefone" = Some (VStr tel) ->
  novo !! "tempo_sessao" = Some (VStr ts) ->
  registro (<[tel := <[ts := novo]> (default ∅ (t !! tel))]> t) tel ts
  = Some novo.
Proof.
  intros H1 H2. unfold registro. rewrite lookup_insert_eq. simpl.
  rewrite lookup_insert_eq. simpl. unfold item_completo.
  by rewrite !insert_id by (by rewrite ?lookup_insert_ne).
Qed.

(** When [put_item] raises, saving a session returns [False] and leaves the
    ledger as it was. *)
Lemma salvar_falha lib f now_mem t tel ts sid ini :
  falha_put_item f = true ->
  _save_session_timestamp_to_negociacao lib f now_mem t tel ts sid ini
  = (false, t).
Proof.
  intros Hput. unfold _save_session_timestamp_to_negociacao.
  destruct (_ || _); [done|]. by rewrite Hput.
Qed.



(** The record that a renewal persists. *)
Lemma renovacao_persistida lib f now now_mem t tel prev :
  falha_consulta_sessao f = false ->
  falha_put_item f = false ->
  renovacao lib now t tel prev ->
  exists t' novo,
    _get_or_create_session_id lib f now now_mem t tel
    = Some ((strftime_micro now, true), t')
    /\ registro t' tel (strftime_seg (inicio_da_hora now)) = Some novo
    /\ forall k, novo !! k
         = item_salvo lib now_mem (_get_previous_negotiation_data f t tel) tel
             (strftime_seg (inicio_da_hora now)) (strftime_micro now)
             (strftime_micro now) k.
Proof.
  intros Hf Hput (ets & sid & ts & H & Hage).
  rewrite (sessao_casos lib f now now_mem _ _ _ _ _ _ Hf H).
  destruct H as (Htel & _).
  rewrite (proj2 (Z.ltb_ge _ _) Hage).
  destruct (salvar_registro lib f now_mem t tel
              (strftime_seg (inicio_da_hora now))
              (strftime_micro now) (strftime_micro now))
    as (novo & Hs & Hn1 & Hn2 & Hn);
    [done|apply strftime_seg_nao_vazia|apply strftime_micro_nao_vazia
    |apply strftime_micro_nao_vazia|done|].
  eexists _, novo. rewrite Hs. split; [done|]. split; [|done].
  by apply registro_salvo.
Qed.

Lemma renovacao_anterior lib now t tel prev :
  renovacao lib now t tel prev ->
  vazia tel = false /\ consulta_mais_recente t tel = Some prev.
Proof. intros (? & ? & ? & (? & ? & _) & _). done. Qed.



(** C10. Fact inheritance copies an allow-listed field only when its value
    in the prior record is truthy: a field whose stored value is falsy (0,
    the empty string, the empty list or the empty object are) is not in the
    inherited data, whichever calls on the table raise, and is not in the
    record persisted by a renewal whose query for the latest record and
    whose [put_item] do not raise, although the prior record holds it; and
    whatever is inherited is truthy. *)
Theorem falsy_fact_dropped lib f now now_mem t tel prev :
  renovacao lib now t tel prev ->
  (forall campo v,
     campo ∈ immutable_fields -> prev !! campo = Some v ->
     truthy v = false ->
     _get_previous_negotiation_data f t tel !! campo = None
     /\ (falha_consulta_sessao f = false -> falha_put_item f = false ->
         exists t' novo,
           _get_or_create_session_id lib f now now_mem t tel
           = Some ((strftime_micro now, true), t')
           /\ registro t' tel (strftime_seg (inicio_da_hora now)) = Some novo
           /\ novo !! campo = None))
  /\ (forall campo v,
        _get_previous_negotiation_data f t tel !! campo = Some v ->
        truthy v = true /\ prev !! campo = Some v)
  /\ truthy (VNum 0) = false /\ truthy (VStr EmptyString) = false
  /\ truthy (VList []) = false /\ truthy (VDict []) = false.
Proof.
  intros H.
  destruct (renovacao_anterior _ _ _ _ _ H) as [Htel Hprev].
  assert (Hler : forall k,
    _get_previous_negotiation_data f t tel !! k
    = if falha_consulta_anterior f then None
      else if bool_decide (k ∈ immutable_fields) then herdavel prev k
           else None).
  { intros k. destruct (falha_consulta_anterior f) eqn:Hant.
    - unfold _get_previous_negotiation_data. by rewrite Htel, Hant.
    - by apply herdados_lookup. }
  split; [|split; [|done]].
  - intros c v Hc Hpc Hv.
    assert (Hinh : _get_previous_negotiation_data f t tel !! c = None).
    { rewrite Hler. destruct (falha_consulta_anterior f); [done|].
      rewrite bool_decide_eq_true_2 by done. unfold herdavel.
      by rewrite Hpc, Hv. }
    split; [done|]. intros Hf Hput.
    destruct (renovacao_persistida lib f now now_mem t tel prev Hf Hput H)
      as (t' & novo & Hr & Hreg & Hn).
    exists t', novo. split; [done|]. split; [done|].
    rewrite Hn. unfold item_salvo. rewrite Hinh.
    assert (Hnb : c ∉ chaves_base).
    { intros Hb. by apply base_nao_herdada in Hb. }
    repeat case_decide; subst; try done; exfalso; apply Hnb; na_lista.
  - intros c v. rewrite Hler.
    destruct (falha_consulta_anterior f); [done|].
    case_bool_decide; [|done]. unfold herdavel.
    destruct (prev !! c) as [w|]; [|done].
    destruct (truthy w) eqn:Hw; [|done]. by intros [= <-].
Qed.

End LedgerProps.

(* ===================================================================== *)
(** * Properties of the timestamp encodings *)
(* ===================================================================== *)

Module TimestampProps.
Import Py Flutuante Timestamp Ledger LedgerProps.
Local Open Scope Z_scope.

Lemma pretty_N_go_fixo k : forall n acc,
  (n < 10 ^ N.of_nat k)%N ->
  (k <> O -> (10 ^ (N.of_nat k - 1) <= n)%N) ->
  pretty_N_go n acc = decimal_fixo k n acc.
Proof.
  induction k as [|k IH]; intros n acc Hlt Hge.
  - simpl in Hlt. assert (n = 0%N) as -> by lia. done.
  - assert (Hpos : (0 < n)%N).
    { pose proof (Hge ltac:(done)) as H.
      assert (0 < 10 ^ (N.of_nat (S k) - 1))%N; [|lia].
      apply N.neq_0_lt_0, N.pow_nonzero. lia. }
    rewrite pretty_N_go_step by done. cbn [decimal_fixo]. apply IH.
    + replace (N.of_nat (S k)) with (N.succ (N.of_nat k)) in Hlt by lia.
      rewrite N.pow_succ_r' in Hlt.
      apply N.Div0.div_lt_upper_bound. lia.
    + intros Hk. specialize (Hge ltac:(done)).
      replace (N.of_nat (S k) - 1)%N with (N.succ (N.of_nat k - 1)) in Hge by lia.
      rewrite N.pow_succ_r' in Hge.
      apply N.div_le_lower_bound; lia.
Qed.

Lemma decimal_fixo_zero k acc : decimal_fixo k 0 acc = zeros k +:+ acc.
Proof.
  revert acc. induction k as [|k IH]; intros acc; [done|].
  cbn [decimal_fixo]. change (0 / 10)%N with 0%N. rewrite IH.
  change (pretty_N_char (0 mod 10)) with "0"%char.
  clear IH. induction k as [|k IH]; [done|].
  cbn [zeros]. change (("0" +:+ zeros k) +:+ String "0" acc)
    with (String "0" (zeros k +:+ String "0" acc)).
  rewrite IH. done.
Qed.

Lemma decimal_fixo_split j i : forall n acc,
  decimal_fixo (j + i) n acc
  = decimal_fixo j (n / 10 ^ N.of_nat i) (decimal_fixo i n acc).
Proof.
  induction i as [|i IH]; intros n acc.
  - rewrite Nat.add_0_r. simpl. by rewrite N.div_1_r.
  - replace (j + S i)%nat with (S (j + i)) by lia. cbn [decimal_fixo].
    rewrite IH. f_equal.
    replace (N.of_nat (S i)) with (N.succ (N.of_nat i)) by lia.
    rewrite N.pow_succ_r', N.Div0.div_div. done.
Qed.

Lemma decimal_fixo_length k : forall n acc,
  String.length (decimal_fixo k n acc) = (k + String.length acc)%nat.
Proof.
  induction k as [|k IH]; intros n acc; [done|].
  cbn [decimal_fixo]. rewrite IH. simpl. lia.
Qed.

(** The decimal numeral of a number below [10^w], [w >= 1], has between 1
    and [w] digits. *)
Lemma pretty_N_fixo w n :
  (n < 10 ^ N.of_nat w)%N -> w <> O ->
  exists i, (1 <= i <= w)%nat /\ pretty n = decimal_fixo i n EmptyString
            /\ (n < 10 ^ N.of_nat i)%N.
Proof.
  induction w as [|w IH]; intros Hlt Hw; [done|].
  destruct (decide (n = 0%N)) as [->|Hn0].
  { exists 1%nat. split; [lia|]. done. }
  destruct (decide (10 ^ N.of_nat w <= n)%N) as [Hge|Hsmall].
  - exists (S w). split; [lia|]. split; [|done].
    unfold pretty, pretty_N. rewrite decide_False by done.
    apply pretty_N_go_fixo; [done|].
    intros _. replace (N.of_nat (S w) - 1)%N with (N.of_nat w) by lia. done.
  - destruct w as [|w].
    { simpl in Hsmall. lia. }
    destruct IH as (i & Hi & Hp & Hlt'); [lia|done|].
    exists i. split; [lia|done].
Qed.

Lemma zeros_pretty_fixo w n :
  (n < 10 ^ N.of_nat w)%N -> w <> O ->
  zeros (w - String.length (pretty n)) +:+ pretty n
  = decimal_fixo w n EmptyString.
Proof.
  intros Hlt Hw. destruct (pretty_N_fixo w n Hlt Hw) as (i & Hi & -> & Hlt').
  rewrite decimal_fixo_length. simpl String.length.
  replace (i + 0)%nat with i by lia.
  replace w with ((w - i) + i)%nat at 2 by lia.
  rewrite decimal_fixo_split, N.div_small by done.
  by rewrite decimal_fixo_zero.
Qed.

Lemma pretty_Z_nonneg n : 0 <= n -> pretty n = pretty (Z.to_N n).
Proof. destruct n; [done|done|lia]. Qed.

Lemma pad6_fixo n :
  0 <= n < 1000000 -> pad6 n = decimal_fixo 6 (Z.to_N n) EmptyString.
Proof.
  intros Hn. unfold pad6. rewrite pretty_Z_nonneg by lia.
  apply zeros_pretty_fixo; [|done]. change (10 ^ N.of_nat 6)%N with 1000000%N. lia.
Qed.

Lemma pad2_fixo n :
  0 <= n < 100 -> pad2 n = decimal_fixo 2 (Z.to_N n) EmptyString.
Proof.
  intros Hn. unfold pad2. rewrite pretty_Z_nonneg by lia.
  rewrite <- (zeros_pretty_fixo 2) by (change (10 ^ N.of_nat 2)%N with 100%N; lia).
  destruct (Z.ltb_spec n 10) as [Hlt|Hge].
  - destruct (pretty_N_fixo 1 (Z.to_N n)) as (i & Hi & -> & _);
      [change (10 ^ N.of_nat 1)%N with 10%N; lia|done|].
    assert (i = 1%nat) as -> by lia. done.
  - assert (pretty (Z.to_N n) = decimal_fixo 2 (Z.to_N n) EmptyString) as ->.
    { unfold pretty, pretty_N. rewrite decide_False by lia.
      apply pretty_N_go_fixo.
      - change (10 ^ N.of_nat 2)%N with 100%N. lia.
      - intros _. change (10 ^ (N.of_nat 2 - 1))%N with 10%N. lia. }
    done.
Qed.

Lemma ano_fixo y :
  1000 <= y <= 9999 -> pretty y = decimal_fixo 4 (Z.to_N y) EmptyString.
Proof.
  intros Hy. rewrite pretty_Z_nonneg by lia.
  unfold pretty, pretty_N. rewrite decide_False by lia.
  apply pretty_N_go_fixo.
  - change (10 ^ N.of_nat 4)%N with 10000%N. lia.
  - intros _. change (10 ^ (N.of_nat 4 - 1))%N with 1000%N. lia.
Qed.

Lemma digito_char x : (x < 10)%N -> digito (pretty_N_char x) (Z.of_N x).
Proof.
  intros Hx.
  assert (x = 0 \/ x = 1 \/ x = 2 \/ x = 3 \/ x = 4 \/ x = 5 \/ x = 6
          \/ x = 7 \/ x = 8 \/ x = 9)%N as H by lia.
  repeat destruct H as [->|H]; try subst x; split; try reflexivity; lia.
Qed.

Lemma digito_mod x : digito (pretty_N_char (x mod 10)) (Z.of_N (x mod 10)).
Proof. apply digito_char. apply N.mod_upper_bound. lia. Qed.

Lemma digito_codigo c v :
  digito c v -> (48 <= N_of_ascii c <= 57)%N.
Proof.
  intros [H _]. unfold digit_val in H.
  destruct (48 <=? N_of_ascii c)%N eqn:H1; [|done].
  destruct (N_of_ascii c <=? 57)%N eqn:H2; [|done].
  apply N.leb_le in H1, H2. lia.
Qed.

Lemma digito_nao_espaco c v : digito c v -> is_space c = false.
Proof.
  intros H%digito_codigo. unfold is_space.
  destruct (N.leb_spec 9 (N_of_ascii c)), (N.leb_spec (N_of_ascii c) 13),
    (N.leb_spec 28 (N_of_ascii c)), (N.leb_spec (N_of_ascii c) 32),
    (N.eqb_spec (N_of_ascii c) 133), (N.eqb_spec (N_of_ascii c) 160);
    simpl; try done; lia.
Qed.

Lemma digito_diferente c v a :
  digito c v -> (N_of_ascii a < 48 \/ 57 < N_of_ascii a)%N ->
  Ascii.eqb a c = false.
Proof.
  intros H%digito_codigo Ha. apply Ascii.eqb_neq. intros ->. lia.
Qed.

Section Esqueleto.
Local Unset Default Proof Using.
Variables (y1 y2 y3 y4 m1 m2 d1 d2 h1 h2 n1 n2 s1 s2 u1 u2 u3 u4 u5 u6 : ascii).
Variables (vy1 vy2 vy3 vy4 vm1 vm2 vd1 vd2 vh1 vh2 vn1 vn2 vs1 vs2
           vu1 vu2 vu3 vu4 vu5 vu6 : Z).
Hypothesis (Hy1 : digito y1 vy1) (Hy2 : digito y2 vy2) (Hy3 : digito y3 vy3)
  (Hy4 : digito y4 vy4) (Hm1 : digito m1 vm1) (Hm2 : digito m2 vm2)
  (Hd1 : digito d1 vd1) (Hd2 : digito d2 vd2) (Hh1 : digito h1 vh1)
  (Hh2 : digito h2 vh2) (Hn1 : digito n1 vn1) (Hn2 : digito n2 vn2)
  (Hs1 : digito s1 vs1) (Hs2 : digito s2 vs2) (Hu1 : digito u1 vu1)
  (Hu2 : digito u2 vu2) (Hu3 : digito u3 vu3) (Hu4 : digito u4 vu4)
  (Hu5 : digito u5 vu5) (Hu6 : digito u6 vu6).

Local Abbreviation esq_seg := (esq_seg y1 y2 y3 y4 m1 m2 d1 d2 h1 h2 n1 n2 s1 s2).
Local Abbreviation esq_micro :=
  (esq_micro y1 y2 y3 y4 m1 m2 d1 d2 h1 h2 n1 n2 s1 s2 u1 u2 u3 u4 u5 u6).

Lemma strip_esq_micro : strip (esq_micro "Z") = esq_micro "Z".
Proof.
  unfold strip, esq_micro, esq_seg. cbn [lstrip].
  rewrite (digito_nao_espaco _ _ Hy1). reflexivity.
Qed.

Lemma strip_esq_seg : strip (esq_seg "Z") = esq_seg "Z".
Proof.
  unfold strip, esq_seg. cbn [lstrip].
  rewrite (digito_nao_espaco _ _ Hy1). reflexivity.
Qed.

Lemma contains_T_esq fim : contains "T" (esq_seg fim) = true.
Proof.
  unfold esq_seg. cbn [contains].
  rewrite (digito_diferente _ _ "T" Hy1), (digito_diferente _ _ "T" Hy2),
    (digito_diferente _ _ "T" Hy3), (digito_diferente _ _ "T" Hy4),
    (digito_diferente _ _ "T" Hm1), (digito_diferente _ _ "T" Hm2),
    (digito_diferente _ _ "T" Hd1), (digito_diferente _ _ "T" Hd2)
    by (right; vm_compute; reflexivity).
  reflexivity.
Qed.

Lemma contains_traco_esq fim : contains "-" (esq_seg fim) = true.
Proof.
  unfold esq_seg. cbn [contains].
  rewrite (digito_diferente _ _ "-" Hy1), (digito_diferente _ _ "-" Hy2),
    (digito_diferente _ _ "-" Hy3), (digito_diferente _ _ "-" Hy4)
    by (left; vm_compute; reflexivity).
  reflexivity.
Qed.

Ltac digitos :=
  repeat match goal with
  | H : digito ?c ?v |- context [digit_val ?c] => rewrite (proj1 H)
  end.

Lemma fromisoformat_esq_micro :
  fromisoformat (esq_micro EmptyString)
  = novo_datetime (val4 vy1 vy2 vy3 vy4) (val2 vm1 vm2) (val2 vd1 vd2)
      (val2 vh1 vh2) (val2 vn1 vn2) (val2 vs1 vs2)
      (val6 vu1 vu2 vu3 vu4 vu5 vu6).
Proof.
  unfold fromisoformat, esq_micro, esq_seg, val2, val4, val6.
  cbn -[novo_datetime digit_val Z.mul Z.add]. digitos.
  cbn -[novo_datetime digit_val Z.mul Z.add]. reflexivity.
Qed.

Lemma fromisoformat_esq_seg :
  fromisoformat (esq_seg EmptyString)
  = novo_datetime (val4 vy1 vy2 vy3 vy4) (val2 vm1 vm2) (val2 vd1 vd2)
      (val2 vh1 vh2) (val2 vn1 vn2) (val2 vs1 vs2) 0.
Proof.
  unfold fromisoformat, esq_seg, val2, val4.
  cbn -[novo_datetime digit_val Z.mul Z.add]. digitos.
  cbn -[novo_datetime digit_val Z.mul Z.add]. reflexivity.
Qed.

End Esqueleto.

Lemma sem_Z_final_esq_micro y1 y2 y3 y4 m1 m2 d1 d2 h1 h2 n1 n2 s1 s2
    u1 u2 u3 u4 u5 u6 :
  sem_Z_final (esq_micro y1 y2 y3 y4 m1 m2 d1 d2 h1 h2 n1 n2 s1 s2
                 u1 u2 u3 u4 u5 u6 "Z")
  = esq_micro y1 y2 y3 y4 m1 m2 d1 d2 h1 h2 n1 n2 s1 s2
      u1 u2 u3 u4 u5 u6 EmptyString.
Proof. reflexivity. Qed.

Lemma sem_Z_final_esq_seg y1 y2 y3 y4 m1 m2 d1 d2 h1 h2 n1 n2 s1 s2 :
  sem_Z_final (esq_seg y1 y2 y3 y4 m1 m2 d1 d2 h1 h2 n1 n2 s1 s2 "Z")
  = esq_seg y1 y2 y3 y4 m1 m2 d1 d2 h1 h2 n1 n2 s1 s2 EmptyString.
Proof. reflexivity. Qed.

Lemma datetime_ok_campos d :
  datetime_ok d = true ->
  1 <= year d <= 9999 /\ 1 <= month d <= 12
  /\ 1 <= day d <= days_in_month (year d) (month d)
  /\ 0 <= hour d <= 23 /\ 0 <= minute d <= 59 /\ 0 <= second d <= 59
  /\ 0 <= microsecond d <= 999999.
Proof.
  unfold datetime_ok. rewrite !andb_true_iff, !Z.leb_le. tauto.
Qed.

Lemma days_in_month_max y m : days_in_month y m <= 31.
Proof.
  unfold days_in_month.
  destruct (m =? 2); [destruct (is_leap y); lia|].
  destruct ((m =? 4) || (m =? 6) || (m =? 9) || (m =? 11)); lia.
Qed.

Lemma novo_datetime_ok d :
  datetime_ok d = true ->
  novo_datetime (year d) (month d) (day d) (hour d) (minute d) (second d)
    (microsecond d) = Some d.
Proof.
  intros H. unfold novo_datetime. destruct d. simpl in *. by rewrite H.
Qed.

Lemma digits_acc_fixo k : forall n a acc,
  digits_acc a (decimal_fixo k n acc)
  = digits_acc (a * 10 ^ Z.of_nat k + Z.of_N (n mod 10 ^ N.of_nat k)) acc.
Proof.
  induction k as [|k IH]; intros n a acc.
  - simpl. rewrite N.mod_1_r. f_equal. lia.
  - cbn [decimal_fixo]. rewrite IH. cbn [digits_acc].
    rewrite (proj1 (digito_mod n)). f_equal.
    replace (N.of_nat (S k)) with (N.succ (N.of_nat k)) by lia.
    replace (Z.of_nat (S k)) with (Z.succ (Z.of_nat k)) by lia.
    rewrite N.pow_succ_r', Z.pow_succ_r by lia.
    rewrite (N.Div0.mod_mul_r n 10 (10 ^ N.of_nat k)). lia.
Qed.

Lemma digits_fixo k n :
  (n < 10 ^ N.of_nat (S k))%N ->
  digits (decimal_fixo (S k) n EmptyString) = Some (Z.of_N n).
Proof.
  intros Hn. unfold digits.
  destruct (decimal_fixo (S k) n EmptyString) eqn:Hs.
  { apply (f_equal String.length) in Hs.
    rewrite decimal_fixo_length in Hs. done. }
  rewrite <- Hs, digits_acc_fixo, N.mod_small by done. simpl digits_acc.
  f_equal; lia.
Qed.

Lemma val2_fixo n :
  0 <= n < 100 ->
  val2 (Z.of_N (Z.to_N n / 10 mod 10)) (Z.of_N (Z.to_N n mod 10)) = n.
Proof.
  intros Hn.
  pose proof (digits_fixo 1 (Z.to_N n)
                ltac:(change (10 ^ N.of_nat 2)%N with 100%N; lia)) as H.
  cbn [decimal_fixo digits digits_acc] in H.
  rewrite !(proj1 (digito_mod _)) in H. injection H as H.
  unfold val2. lia.
Qed.

Lemma val4_fixo n :
  0 <= n < 10000 ->
  val4 (Z.of_N (Z.to_N n / 10 / 10 / 10 mod 10))
       (Z.of_N (Z.to_N n / 10 / 10 mod 10))
       (Z.of_N (Z.to_N n / 10 mod 10)) (Z.of_N (Z.to_N n mod 10)) = n.
Proof.
  intros Hn.
  pose proof (digits_fixo 3 (Z.to_N n)
                ltac:(change (10 ^ N.of_nat 4)%N with 10000%N; lia)) as H.
  cbn [decimal_fixo digits digits_acc] in H.
  rewrite !(proj1 (digito_mod _)) in H. injection H as H.
  unfold val4. lia.
Qed.

Lemma val6_fixo n :
  0 <= n < 1000000 ->
  val6 (Z.of_N (Z.to_N n / 10 / 10 / 10 / 10 / 10 mod 10))
       (Z.of_N (Z.to_N n / 10 / 10 / 10 / 10 mod 10))
       (Z.of_N (Z.to_N n / 10 / 10 / 10 mod 10))
       (Z.of_N (Z.to_N n / 10 / 10 mod 10))
       (Z.of_N (Z.to_N n / 10 mod 10)) (Z.of_N (Z.to_N n mod 10)) = n.
Proof.
  intros Hn.
  pose proof (digits_fixo 5 (Z.to_N n)
                ltac:(change (10 ^ N.of_nat 6)%N with 1000000%N; lia)) as H.
  cbn [decimal_fixo digits digits_acc] in H.
  rewrite !(proj1 (digito_mod _)) in H. injection H as H.
  unfold val6. lia.
Qed.

Lemma strftime_micro_esq d :
  datetime_ok d = true -> 1000 <= year d ->
  exists y1 y2 y3 y4 m1 m2 d1 d2 h1 h2 n1 n2 s1 s2 u1 u2 u3 u4 u5 u6
         vy1 vy2 vy3 vy4 vm1 vm2 vd1 vd2 vh1 vh2 vn1 vn2 vs1 vs2
         vu1 vu2 vu3 vu4 vu5 vu6,
    strftime_micro d
    = esq_micro y1 y2 y3 y4 m1 m2 d1 d2 h1 h2 n1 n2 s1 s2
        u1 u2 u3 u4 u5 u6 "Z"
    /\ strftime_seg d
       = esq_seg y1 y2 y3 y4 m1 m2 d1 d2 h1 h2 n1 n2 s1 s2 "Z"
    /\ digito y1 vy1 /\ digito y2 vy2 /\ digito y3 vy3 /\ digito y4 vy4
    /\ digito m1 vm1 /\ digito m2 vm2 /\ digito d1 vd1 /\ digito d2 vd2
    /\ digito h1 vh1 /\ digito h2 vh2 /\ digito n1 vn1 /\ digito n2 vn2
    /\ digito s1 vs1 /\ digito s2 vs2
    /\ digito u1 vu1 /\ digito u2 vu2 /\ digito u3 vu3 /\ digito u4 vu4
    /\ digito u5 vu5 /\ digito u6 vu6
    /\ val4 vy1 vy2 vy3 vy4 = year d /\ val2 vm1 vm2 = month d
    /\ val2 vd1 vd2 = day d /\ val2 vh1 vh2 = hour d
    /\ val2 vn1 vn2 = minute d /\ val2 vs1 vs2 = second d
    /\ val6 vu1 vu2 vu3 vu4 vu5 vu6 = microsecond d.
Proof.
  intros Hok Hy.
  destruct (datetime_ok_campos d Hok) as (Hy' & Hm & Hd & Hh & Hn & Hs & Hu).
  pose proof (days_in_month_max (year d) (month d)) as Hdm.
  unfold strftime_micro, strftime_seg.
  rewrite (ano_fixo (year d)), (pad2_fixo (month d)), (pad2_fixo (day d)),
    (pad2_fixo (hour d)), (pad2_fixo (minute d)), (pad2_fixo (second d)),
    (pad6_fixo (microsecond d)) by lia.
  do 40 eexists.
  split; [reflexivity|]. split; [reflexivity|].
  repeat (split; [apply digito_mod|]).
  split; [apply val4_fixo; lia|].
  repeat (split; [apply val2_fixo; lia|]).
  apply val6_fixo; lia.
Qed.

(** Reading back a pointer minted from the clock gives the reading of the
    clock, field by field. *)
Lemma strftime_micro_lido lib d :
  datetime_ok d = true -> 1000 <= year d ->
  strip (strftime_micro d) = strftime_micro d
  /\ fromisoformat (sem_Z_final (strftime_micro d)) = Some d
  /\ _parse_timestamp_to_unix lib (strftime_micro d)
     = Some (int_timestamp d).
Proof.
  intros Hok Hy.
  destruct (strftime_micro_esq d Hok Hy)
    as (y1 & y2 & y3 & y4 & m1 & m2 & d1 & d2 & h1 & h2 & n1 & n2 & s1 & s2
        & u1 & u2 & u3 & u4 & u5 & u6
        & vy1 & vy2 & vy3 & vy4 & vm1 & vm2 & vd1 & vd2 & vh1 & vh2
        & vn1 & vn2 & vs1 & vs2 & vu1 & vu2 & vu3 & vu4 & vu5 & vu6
        & -> & _ & Hy1 & Hy2 & Hy3 & Hy4 & Hm1 & Hm2 & Hd1 & Hd2 & Hh1 & Hh2
        & Hn1 & Hn2 & Hs1 & Hs2 & Hu1 & Hu2 & Hu3 & Hu4 & Hu5 & Hu6
        & Ey & Em & Ed & Eh & En & Es & Eu).
  assert (Hst : strip (esq_micro y1 y2 y3 y4 m1 m2 d1 d2 h1 h2 n1 n2 s1 s2
                         u1 u2 u3 u4 u5 u6 "Z") = esq_micro y1 y2 y3 y4 m1 m2
                         d1 d2 h1 h2 n1 n2 s1 s2 u1 u2 u3 u4 u5 u6 "Z")
    by (eapply strip_esq_micro; eauto).
  assert (Hf : fromisoformat (sem_Z_final (esq_micro y1 y2 y3 y4 m1 m2 d1 d2
                 h1 h2 n1 n2 s1 s2 u1 u2 u3 u4 u5 u6 "Z")) = Some d).
  { rewrite sem_Z_final_esq_micro.
    erewrite fromisoformat_esq_micro by eauto.
    rewrite Ey, Em, Ed, Eh, En, Es, Eu. by apply novo_datetime_ok. }
  split; [done|]. split; [done|].
  unfold _parse_timestamp_to_unix.
  change (esq_micro y1 y2 y3 y4 m1 m2 d1 d2 h1 h2 n1 n2 s1 s2
            u1 u2 u3 u4 u5 u6 "Z")
    with (String y1 (String y2 (String y3 (String y4 (String "-"
      (String m1 (String m2 (String "-" (String d1 (String d2 (String "T"
      (String h1 (String h2 (String ":" (String n1 (String n2 (String ":"
      (String s1 (String s2 (String "." (String u1 (String u2 (String u3
      (String u4 (String u5 (String u6 "Z")))))))))))))))))))))))))) at 1.
  cbv iota.
  rewrite Hst. unfold esq_micro at 1 2.
  rewrite (contains_T_esq _ _ _ _ _ _ _ _ _ _ _ _ _ _ _ _ _ _ _ _ _ _
             Hy1 Hy2 Hy3 Hy4 Hm1 Hm2 Hd1 Hd2).
  rewrite (contains_traco_esq _ _ _ _ _ _ _ _ _ _ _ _ _ _ _ _ _ _
             Hy1 Hy2 Hy3 Hy4).
  cbn [andb]. fold (esq_micro y1 y2 y3 y4 m1 m2 d1 d2 h1 h2 n1 n2 s1 s2
            u1 u2 u3 u4 u5 u6 "Z").
  rewrite Hf. done.
Qed.

(** X6. Reading back a pointer minted from the clock gives the reading of the
    clock, field by field, and [_parse_timestamp_to_unix] gives what
    [int(d.timestamp())] gives on that reading: the integer part of the
    float nearest to its seconds since the epoch. *)
Theorem fromisoformat_strftime_micro lib d :
  datetime_ok d = true -> 1000 <= year d ->
  fromisoformat (sem_Z_final (strftime_micro d)) = Some d
  /\ _parse_timestamp_to_unix lib (strftime_micro d)
     = Some (truncar (timestamp_de_micros (micros d))).
Proof.
  intros Hok Hy. by destruct (strftime_micro_lido lib d Hok Hy) as (_ & ? & ?).
Qed.

(** X7. Distinct readings of the clock give distinct pointers. *)
Theorem strftime_micro_inj d1 d2 :
  datetime_ok d1 = true -> 1000 <= year d1 ->
  datetime_ok d2 = true -> 1000 <= year d2 ->
  d1 <> d2 -> strftime_micro d1 <> strftime_micro d2.
Proof.
  intros Hok1 Hy1 Hok2 Hy2 Hne Heq. apply Hne.
  pose (lib := {| int_outros := fun _ => None; iso_outros := fun _ => None |}).
  destruct (strftime_micro_lido lib d1 Hok1 Hy1) as (_ & H1 & _).
  destruct (strftime_micro_lido lib d2 Hok2 Hy2) as (_ & H2 & _).
  rewrite Heq, H2 in H1. by injection H1.
Qed.

Lemma inicio_da_hora_ok d :
  datetime_ok d = true -> datetime_ok (inicio_da_hora d) = true.
Proof.
  intros H. destruct (datetime_ok_campos d H) as (Hy & Hm & Hd & Hh & _).
  unfold datetime_ok, inicio_da_hora. cbn [year month day hour minute second microsecond].
  rewrite !andb_true_iff, !Z.leb_le. lia.
Qed.

Lemma parse_strftime_seg lib d :
  datetime_ok d = true -> 1000 <= year d -> microsecond d = 0 ->
  fromisoformat (sem_Z_final (strftime_seg d)) = Some d
  /\ _parse_timestamp_to_unix lib (strftime_seg d) = Some (int_timestamp d).
Proof.
  intros Hok Hy Hus.
  destruct (strftime_micro_esq d Hok Hy)
    as (y1 & y2 & y3 & y4 & m1 & m2 & d1 & d2 & h1 & h2 & n1 & n2 & s1 & s2
        & u1 & u2 & u3 & u4 & u5 & u6
        & vy1 & vy2 & vy3 & vy4 & vm1 & vm2 & vd1 & vd2 & vh1 & vh2
        & vn1 & vn2 & vs1 & vs2 & vu1 & vu2 & vu3 & vu4 & vu5 & vu6
        & _ & -> & Hy1 & Hy2 & Hy3 & Hy4 & Hm1 & Hm2 & Hd1 & Hd2 & Hh1 & Hh2
        & Hn1 & Hn2 & Hs1 & Hs2 & _ & _ & _ & _ & _ & _
        & Ey & Em & Ed & Eh & En & Es & _).
  assert (Hst : strip (esq_seg y1 y2 y3 y4 m1 m2 d1 d2 h1 h2 n1 n2 s1 s2 "Z")
                = esq_seg y1 y2 y3 y4 m1 m2 d1 d2 h1 h2 n1 n2 s1 s2 "Z")
    by (eapply strip_esq_seg; eauto).
  assert (Hf : fromisoformat (sem_Z_final (esq_seg y1 y2 y3 y4 m1 m2 d1 d2
                 h1 h2 n1 n2 s1 s2 "Z")) = Some d).
  { rewrite sem_Z_final_esq_seg.
    erewrite fromisoformat_esq_seg by eauto.
    rewrite Ey, Em, Ed, Eh, En, Es, <- Hus. by apply novo_datetime_ok. }
  split; [done|].
  unfold _parse_timestamp_to_unix.
  change (esq_seg y1 y2 y3 y4 m1 m2 d1 d2 h1 h2 n1 n2 s1 s2 "Z")
    with (String y1 (String y2 (String y3 (String y4 (String "-"
      (String m1 (String m2 (String "-" (String d1 (String d2 (String "T"
      (String h1 (String h2 (String ":" (String n1 (String n2 (String ":"
      (String s1 (String s2 "Z"))))))))))))))))))) at 1.
  cbv iota.
  rewrite Hst.
  rewrite (contains_T_esq _ _ _ _ _ _ _ _ _ _ _ _ _ _ _ _ _ _ _ _ _ _
             Hy1 Hy2 Hy3 Hy4 Hm1 Hm2 Hd1 Hd2).
  rewrite (contains_traco_esq _ _ _ _ _ _ _ _ _ _ _ _ _ _ _ _ _ _
             Hy1 Hy2 Hy3 Hy4).
  cbn [andb]. rewrite Hf. done.
Qed.

(** The start of the hour of a clock reading is a whole hour since the
    epoch, not after the reading and less than an hour before it. *)
Lemma micros_inicio_da_hora d :
  datetime_ok d = true ->
  micros (inicio_da_hora d) mod 3600000000 = 0
  /\ micros (inicio_da_hora d) <= micros d
     < micros (inicio_da_hora d) + 3600000000.
Proof.
  intros Hok.
  destruct (datetime_ok_campos d Hok) as (_ & _ & _ & Hh & Hn & Hs & Hu).
  unfold micros.
  change (toordinal (inicio_da_hora d)) with (toordinal d).
  cbn [inicio_da_hora hour minute second microsecond].
  set (o := toordinal d) in *.
  replace (((o - 719163) * 86400 + hour d * 3600 + 0 * 60 + 0) * 1000000 + 0)
    with (((o - 719163) * 24 + hour d) * 3600000000) by lia.
  split; [by rewrite Z.mod_mul by lia|]. lia.
Qed.

(** X8. The session bucket written by [_get_or_create_session_id] is the
    start of the hour of the clock reading: it reads back as the reading
    with minute, second and microsecond set to zero, which is an instant a
    whole number of hours from the epoch, not after the reading and less
    than an hour before it; and [_parse_timestamp_to_unix] gives what
    [int(d.timestamp())] gives on that instant. *)
Theorem bucket_alinhado_a_hora lib d :
  datetime_ok d = true -> 1000 <= year d ->
  fromisoformat (sem_Z_final (strftime_seg (inicio_da_hora d)))
  = Some (inicio_da_hora d)
  /\ _parse_timestamp_to_unix lib (strftime_seg (inicio_da_hora d))
     = Some (truncar (timestamp_de_micros (micros (inicio_da_hora d))))
  /\ micros (inicio_da_hora d) mod 3600000000 = 0
  /\ micros (inicio_da_hora d) <= micros d
     < micros (inicio_da_hora d) + 3600000000.
Proof.
  intros Hok Hy.
  destruct (parse_strftime_seg lib (inicio_da_hora d)) as [Hf Hp];
    [by apply inicio_da_hora_ok|simpl; lia|done|].
  split; [done|]. split; [done|]. by apply micros_inicio_da_hora.
Qed.

(** ** Digit strings and [strip] *)

Lemma rev_app_rev_app s a b :
  String.rev_app (String.rev_app s a) b = String.rev_app a (s +:+ b).
Proof.
  revert a. induction s as [|c s IH]; intros a; [done|].
  cbn [String.rev_app]. rewrite IH. done.
Qed.

Lemma string_app_cons c s t : String c s +:+ t = String c (s +:+ t).
Proof. reflexivity. Qed.

Lemma string_app_nil_r s : s +:+ EmptyString = s.
Proof.
  induction s as [|c s IH]; [done|]. by rewrite string_app_cons, IH.
Qed.

Lemma string_app_assoc s t u : (s +:+ t) +:+ u = s +:+ (t +:+ u).
Proof.
  induction s as [|c s IH]; [done|]. by rewrite !string_app_cons, IH.
Qed.

Lemma rev_involutiva s : String.rev (String.rev s) = s.
Proof.
  unfold String.rev. rewrite rev_app_rev_app.
  change (s +:+ EmptyString = s). apply string_app_nil_r.
Qed.

Lemma lstrip_idem s : lstrip (lstrip s) = lstrip s.
Proof.
  induction s as [|c s IH]; [done|]. cbn [lstrip].
  destruct (is_space c) eqn:Hc; [done|]. cbn [lstrip]. by rewrite Hc.
Qed.

Lemma rev_app_cabeca s : forall c a,
  exists w, String.rev_app s (String c a) = w +:+ String c a.
Proof.
  induction s as [|x s IH]; intros c a.
  - by exists EmptyString.
  - cbn [String.rev_app]. destruct (IH x (String c a)) as [w Hw].
    exists (w +:+ String x EmptyString). rewrite Hw.
    by rewrite string_app_assoc.
Qed.

Lemma lstrip_app_nao_espaco w c a :
  is_space c = false ->
  exists w', lstrip (w +:+ String c a) = w' +:+ String c a.
Proof.
  intros Hc. induction w as [|x w IH].
  - exists EmptyString. change (EmptyString +:+ String c a) with (String c a).
    cbn [lstrip]. by rewrite Hc.
  - rewrite string_app_cons. cbn [lstrip].
    destruct (is_space x); [done|]. exists (String x w).
    by rewrite string_app_cons.
Qed.

Lemma rev_app_app w : forall c a,
  String.rev_app (w +:+ String c EmptyString) a = String c (String.rev_app w a).
Proof.
  induction w as [|x w IH]; intros c a; [done|].
  rewrite string_app_cons. cbn [String.rev_app]. by rewrite IH.
Qed.

(** Removing trailing blanks keeps a first character that is not blank. *)
Lemma rstrip_cabeca c r :
  is_space c = false ->
  exists r', String.rev (lstrip (String.rev (String c r))) = String c r'.
Proof.
  intros Hc. unfold String.rev at 2. cbn [String.rev_app].
  destruct (rev_app_cabeca r c EmptyString) as [w Hw]. rewrite Hw.
  destruct (lstrip_app_nao_espaco w c EmptyString Hc) as [w' Hw'].
  rewrite Hw'. unfold String.rev. rewrite rev_app_app. eauto.
Qed.

Lemma strip_idem s : strip (strip s) = strip s.
Proof.
  unfold strip.
  set (t := lstrip s).
  assert (Ht : lstrip (String.rev (lstrip (String.rev t)))
               = String.rev (lstrip (String.rev t))).
  { subst t. destruct (lstrip s) as [|c r] eqn:Hl; [done|].
    assert (Hc : is_space c = false).
    { pose proof (lstrip_idem s) as Hi. rewrite Hl in Hi. cbn [lstrip] in Hi.
      destruct (is_space c); [|done].
      exfalso. clear -Hi.
      assert (String.length (lstrip r) <= String.length r)%nat as Hlen.
      { clear. induction r as [|x r IH]; [done|]. cbn.
        destruct (is_space x); simpl; lia. }
      rewrite Hi in Hlen. simpl in Hlen. lia. }
    destruct (rstrip_cabeca c r Hc) as [r' ->]. cbn [lstrip]. by rewrite Hc. }
  rewrite Ht, rev_involutiva, lstrip_idem. done.
Qed.

Lemma todos_digitos_lstrip s : todos_digitos s = true -> lstrip s = s.
Proof.
  destruct s as [|c r]; [done|]. cbn.
  destruct (digit_val c) as [v|] eqn:Hv; [|done]. intros _.
  assert (Hd : digito c v).
  { split; [done|]. unfold digit_val in Hv.
    destruct (_ && _) eqn:Hb; [|done]. injection Hv as <-.
    apply andb_true_iff in Hb as [H1%N.leb_le H2%N.leb_le]. lia. }
  by rewrite (digito_nao_espaco _ _ Hd).
Qed.

Lemma todos_digitos_rev_app s : forall a,
  todos_digitos s = true -> todos_digitos a = true ->
  todos_digitos (String.rev_app s a) = true.
Proof.
  induction s as [|c s IH]; intros a Hs Ha; [done|].
  cbn in Hs |- *. destruct (digit_val c) eqn:Hc; [|done].
  apply IH; [done|]. cbn. by rewrite Hc.
Qed.

Lemma todos_digitos_strip s : todos_digitos s = true -> strip s = s.
Proof.
  intros Hs. unfold strip. rewrite (todos_digitos_lstrip s Hs).
  rewrite todos_digitos_lstrip by by apply todos_digitos_rev_app.
  apply rev_involutiva.
Qed.

Lemma todos_digitos_contains s a :
  todos_digitos s = true -> digit_val a = None -> contains a s = false.
Proof.
  intros Hs Ha. induction s as [|c s IH]; [done|].
  cbn in Hs |- *. destruct (digit_val c) eqn:Hc; [|done].
  rewrite IH by done.
  destruct (Ascii.eqb_spec a c) as [->|]; [congruence|done].
Qed.

Lemma todos_digitos_digits_acc s : forall a,
  todos_digitos s = true -> is_Some (digits_acc a s).
Proof.
  induction s as [|c s IH]; intros a Hs; [by eexists|].
  cbn in Hs |- *. destruct (digit_val c); [by apply IH|done].
Qed.

Lemma todos_digitos_int_ascii s :
  todos_digitos s = true -> int_ascii s = digits s.
Proof.
  destruct s as [|c r]; [done|]. cbn [todos_digitos].
  destruct (digit_val c) eqn:Hc; [|done]. intros _.
  unfold int_ascii.
  destruct c as [[] [] [] [] [] [] [] []]; try reflexivity; discriminate Hc.
Qed.

Lemma todos_digitos_py_int lib s :
  todos_digitos s = true -> s <> EmptyString -> py_int lib s = digits s.
Proof.
  intros Hs Hne. unfold py_int. rewrite todos_digitos_int_ascii by done.
  destruct s as [|c r]; [done|]. unfold digits.
  by destruct (todos_digitos_digits_acc (String c r) 0 Hs) as [z ->].
Qed.

Lemma todos_digitos_fixo k : forall n acc,
  todos_digitos acc = true -> todos_digitos (decimal_fixo k n acc) = true.
Proof.
  induction k as [|k IH]; intros n acc Ha; [done|].
  cbn [decimal_fixo]. apply IH. cbn [todos_digitos].
  by rewrite (proj1 (digito_mod n)).
Qed.

Lemma parse_desdobra lib s :
  s <> EmptyString ->
  _parse_timestamp_to_unix lib s
  = let tempo_str := strip s in
    if contains "T"%char tempo_str && contains "-"%char tempo_str then
      match fromisoformat (sem_Z_final tempo_str) with
      | Some dt_obj => Some (int_timestamp dt_obj)
      | None => iso_outros lib (sem_Z_final tempo_str)
      end
    else if (String.length tempo_str <=? 10)%nat then py_int lib tempo_str
    else
      year ← py_int lib (slice 0 4 tempo_str);
      month ← py_int lib (slice 4 6 tempo_str);
      day ← py_int lib (slice 6 8 tempo_str);
      hour ← py_int lib (slice 8 10 tempo_str);
      minute ← py_int lib (slice 10 12 tempo_str);
      second ← py_int lib (slice 12 14 tempo_str);
      microsecond ← (if (20 <=? String.length tempo_str)%nat
                     then py_int lib (slice 14 20 tempo_str) else Some 0%Z);
      dt_obj ← novo_datetime year month day hour minute second microsecond;
      Some (int_timestamp dt_obj).
Proof. by destruct s. Qed.

(** X9. The short encoding: seconds since the epoch as a decimal numeral of at
    most ten digits reads back as that number of seconds. *)
Theorem parse_segundos_unix lib n :
  0 <= n < 10000000000 ->
  _parse_timestamp_to_unix lib (pretty n) = Some n.
Proof.
  intros Hn. rewrite pretty_Z_nonneg by lia.
  destruct (pretty_N_fixo 10 (Z.to_N n)) as (i & Hi & -> & Hlt);
    [change (10 ^ N.of_nat 10)%N with 10000000000%N; lia|done|].
  assert (Hlen : String.length (decimal_fixo i (Z.to_N n) EmptyString) = i).
  { rewrite decimal_fixo_length. simpl. lia. }
  assert (Hd : todos_digitos (decimal_fixo i (Z.to_N n) EmptyString) = true)
    by by apply todos_digitos_fixo.
  assert (Hv : digits (decimal_fixo i (Z.to_N n) EmptyString) = Some n).
  { destruct i as [|i]; [lia|]. rewrite digits_fixo by done. f_equal. lia. }
  revert Hlen Hd Hv. generalize (decimal_fixo i (Z.to_N n) EmptyString).
  intros s Hlen Hd Hv.
  rewrite parse_desdobra by (intros ->; simpl in Hlen; lia).
  cbv zeta. rewrite (todos_digitos_strip s Hd).
  rewrite (todos_digitos_contains s "T" Hd) by done.
  cbn [andb]. rewrite Hlen.
  destruct (Nat.leb_spec i 10) as [_|?]; [|lia].
  rewrite todos_digitos_py_int; [done|done|].
  intros ->. simpl in Hlen. lia.
Qed.

Lemma strftime_micro_iso d :
  datetime_ok d = true -> 1000 <= year d ->
  contains "T" (strftime_micro d) = true
  /\ contains "-" (strftime_micro d) = true.
Proof.
  intros Hok Hy.
  destruct (strftime_micro_esq d Hok Hy)
    as (y1 & y2 & y3 & y4 & m1 & m2 & d1 & d2 & h1 & h2 & n1 & n2 & s1 & s2
        & u1 & u2 & u3 & u4 & u5 & u6
        & vy1 & vy2 & vy3 & vy4 & vm1 & vm2 & vd1 & vd2 & vh1 & vh2
        & vn1 & vn2 & vs1 & vs2 & vu1 & vu2 & vu3 & vu4 & vu5 & vu6
        & -> & _ & Hy1 & Hy2 & Hy3 & Hy4 & Hm1 & Hm2 & Hd1 & Hd2 & _).
  unfold esq_micro. split.
  - eapply contains_T_esq; eauto.
  - eapply contains_traco_esq; eauto.
Qed.

Lemma normalize_iso lib s :
  vazia s = false ->
  contains "T" (strip s) = true -> contains "-" (strip s) = true ->
  _normalize_tempo_memoria_to_iso lib s = strip s.
Proof.
  destruct s; [done|]. intros _ H1 H2.
  unfold _normalize_tempo_memoria_to_iso. cbv beta iota zeta.
  by rewrite H1, H2.
Qed.

Lemma normalize_strftime_micro lib d :
  datetime_ok d = true -> 1000 <= year d ->
  _normalize_tempo_memoria_to_iso lib (strftime_micro d) = strftime_micro d.
Proof.
  intros Hok Hy.
  destruct (strftime_micro_lido lib d Hok Hy) as (Hst & _).
  destruct (strftime_micro_iso d Hok Hy) as [HT Ht].
  rewrite normalize_iso; rewrite ?Hst; auto using strftime_micro_nao_vazia.
Qed.

(** A pointer minted from the clock is valid for as long as the clock has
    advanced less than the validity window. *)
Lemma memoria_recente_valida lib now d :
  datetime_ok d = true -> 1000 <= year d ->
  _is_memory_valid lib now (strftime_micro d)
  = (int_timestamp now - int_timestamp d <? MEMORY_TIMEOUT).
Proof.
  intros Hok Hy.
  destruct (strftime_micro_lido lib d Hok Hy) as (_ & _ & Hp).
  unfold _is_memory_valid. rewrite Hp.
  destruct (strftime_micro d) eqn:Hs; [|done].
  pose proof (strftime_micro_nao_vazia d) as H. by rewrite Hs in H.
Qed.

End TimestampProps.

(* ===================================================================== *)
(** * Properties of the memory lifecycle and further ones of sessions *)
(* ===================================================================== *)

Module LedgerExtra.
Import Py Flutuante Timestamp Ledger LedgerProps TimestampProps.
Local Open Scope Z_scope.

Lemma item_completo_insert tel k (it : dict) a v :
  a <> "telefone" -> a <> "tempo_sessao" ->
  item_completo tel k (<[a := v]> it) = <[a := v]> (item_completo tel k it).
Proof.
  intros H1 H2. unfold item_completo. apply map_eq. intros j.
  rewrite !lookup_insert. repeat case_decide; congruence.
Qed.

Lemma consulta_update_tempo_memoria t tel prev ets tm :
  consulta_mais_recente t tel = Some prev ->
  prev !! "tempo_sessao" = Some (VStr ets) ->
  consulta_mais_recente (update_tempo_memoria t tel ets tm) tel
  = Some (<["tempo_memoria" := VStr tm]> prev).
Proof.
  intros Hprev Hets.
  destruct (consulta_chave _ _ _ _ Hprev Hets) as (m & it & Hm & Hmax & ->).
  apply mais_recente_Some in Hmax as [Hit Hmax].
  unfold consulta_mais_recente, update_tempo_memoria.
  rewrite lookup_insert_eq, Hm. cbn [default from_option mbind option_bind].
  unfold id. rewrite Hit. cbn [default from_option]. unfold id.
  rewrite (mais_recente_maximo _ ets (<["tempo_memoria":=VStr tm]> it)).
  - cbn. by rewrite item_completo_insert.
  - by rewrite lookup_insert_eq.
  - intros k' v'. rewrite lookup_insert. case_decide; [by intros; subst|].
    apply Hmax.
Qed.


Lemma sessao_lida f t tel prev ets sid :
  vazia tel = false ->
  falha_consulta_sessao f = false ->
  consulta_mais_recente t tel = Some prev ->
  prev !! "tempo_sessao" = Some (VStr ets) ->
  prev !! "session_id" = Some (VStr sid) -> vazia sid = false ->
  _get_session_timestamp_from_negociacao f t tel = (Some ets, Some sid).
Proof.
  intros Htel Hf Hprev Hets Hsid Hvsid.
  unfold _get_session_timestamp_from_negociacao.
  rewrite Htel, Hf, Hprev, Hets. unfold get. rewrite Hsid.
  cbn [truthy_opt default from_option]. by rewrite vazia_truthy.
Qed.

(** What renewing the memory pointer writes. *)
Lemma memoria_renovada_escrita lib f now_valid now now_save t tel prev ets
    sid :
  vazia tel = false ->
  consulta_mais_recente t tel = Some prev ->
  prev !! "tempo_sessao" = Some (VStr ets) -> vazia ets = false ->
  prev !! "session_id" = Some (VStr sid) -> vazia sid = false ->
  memoria_a_renovar lib f now_valid t tel ->
  falha_consulta_sessao f = false ->
  _get_or_create_memory_id lib f now_valid now now_save t tel
  = Some (tel +:+ "_mem_" +:+ strftime_micro now,
          if falha_update_item f then t
          else update_tempo_memoria t tel ets (strftime_micro now)).
Proof.
  intros Htel Hprev Hets Hvets Hsid Hvsid Hren Hf.
  pose proof (sessao_lida f t tel prev ets sid Htel Hf Hprev Hets Hsid Hvsid)
    as Hsess.
  assert (Hsave : snd (_save_memory_timestamp_to_negociacao f now_save t tel
                         (strftime_micro now))
                  = if falha_update_item f then t
                    else update_tempo_memoria t tel ets (strftime_micro now)).
  { unfold _save_memory_timestamp_to_negociacao.
    rewrite Htel, strftime_micro_nao_vazia, Hsess. cbn [orb vazia_opt].
    rewrite Hvets, Hvsid. cbn [orb default from_option]. unfold id.
    by destruct (falha_update_item f). }
  unfold _get_or_create_memory_id, memoria_a_renovar in *. rewrite Htel.
  destruct (_get_memory_timestamp_from_negociacao lib f t tel) as [e|];
    cbn [vazia_opt].
  - destruct (vazia e) eqn:He.
    + destruct (_save_memory_timestamp_to_negociacao _ _ _ _ _).
      simpl in Hsave. by rewrite Hsave.
    + destruct Hren as [?|[[ts Hts] Hinv]]; [done|].
      cbn [default from_option]. unfold id. rewrite Hinv, Hts.
      cbn [mbind option_bind].
      destruct (_save_memory_timestamp_to_negociacao _ _ _ _ _).
      simpl in Hsave. by rewrite Hsave.
  - destruct (_save_memory_timestamp_to_negociacao _ _ _ _ _).
    simpl in Hsave. by rewrite Hsave.
Qed.


(** X13. A memory pointer minted by one call, in which the query for the
    session and [update_item] do not raise, is the one returned by a call
    that follows in which the query for the memory does not raise, without
    any write, for as long as it is within its validity window. *)
Theorem memoria_estavel lib f f2 now_valid now now_save now_valid2 now2
    now_save2 t tel prev ets sid :
  vazia tel = false ->
  consulta_mais_recente t tel = Some prev ->
  prev !! "tempo_sessao" = Some (VStr ets) -> vazia ets = false ->
  prev !! "session_id" = Some (VStr sid) -> vazia sid = false ->
  memoria_a_renovar lib f now_valid t tel ->
  falha_consulta_sessao f = false ->
  falha_update_item f = false ->
  falha_consulta_memoria f2 = false ->
  datetime_ok now = true -> 1000 <= year now ->
  int_timestamp now_valid2 - int_timestamp now < MEMORY_TIMEOUT ->
  exists id t',
    _get_or_create_memory_id lib f now_valid now now_save t tel
    = Some (id, t')
    /\ _get_or_create_memory_id lib f2 now_valid2 now2 now_save2 t' tel
       = Some (id, t').
Proof.
  intros Htel Hprev Hets Hvets Hsid Hvsid Hren Hf Hup Hf2 Hok Hy Hage.
  pose proof (memoria_renovada_escrita lib f now_valid now now_save t tel prev
                ets sid Htel Hprev Hets Hvets Hsid Hvsid Hren Hf) as H1.
  rewrite Hup in H1.
  pose proof (consulta_update_tempo_memoria t tel prev ets (strftime_micro now)
                Hprev Hets) as Hc.
  eexists _, _. split; [exact H1|].
  unfold _get_or_create_memory_id, _get_memory_timestamp_from_negociacao.
  rewrite Htel, Hf2, Hc, lookup_insert_eq. cbn [py_str].
  rewrite normalize_strftime_micro by done. cbn [vazia_opt].
  rewrite strftime_micro_nao_vazia. cbn [default from_option]. unfold id.
  rewrite memoria_recente_valida by done.
  by rewrite (proj2 (Z.ltb_lt _ _) Hage).
Qed.

(** X14. [_get_or_create_memory_id] raises exactly when the read of the
    stored memory timestamp does not raise and the timestamp, once
    normalised, is not empty and is one that [_parse_timestamp_to_unix]
    raises on. *)
Theorem memoria_ilegivel lib f now_valid now now_save t tel :
  _get_or_create_memory_id lib f now_valid now now_save t tel = None
  <-> vazia tel = false
      /\ exists e,
           _get_memory_timestamp_from_negociacao lib f t tel = Some e
           /\ vazia e = false
           /\ _parse_timestamp_to_unix lib e = None.
Proof.
  unfold _get_or_create_memory_id.
  destruct (vazia tel); [split; [done|by intros [? _]]|].
  destruct (_get_memory_timestamp_from_negociacao lib f t tel) as [e|];
    cbn [vazia_opt].
  2:{ destruct (_save_memory_timestamp_to_negociacao _ _ _ _ _).
      split; [done|]. by intros (_ & ? & ? & _). }
  destruct (vazia e) eqn:He.
  { destruct (_save_memory_timestamp_to_negociacao _ _ _ _ _).
    split; [done|]. intros (_ & e' & [= <-] & ? & _). congruence. }
  cbn [default from_option]. unfold id.
  unfold _is_memory_valid.
  destruct e as [|c r] eqn:Hee; [done|]. rewrite <- Hee.
  destruct (_parse_timestamp_to_unix lib e) as [ts|] eqn:Hp.
  - cbn [mbind option_bind].
    destruct (_ <? _); [|destruct (_save_memory_timestamp_to_negociacao _ _ _ _ _)];
      (split; [done|]); intros (_ & e' & [= <-] & _ & ?); congruence.
  - split; [|done]. intros _. split; [done|]. exists e. by subst e.
Qed.

(** When the query for the stored memory timestamp raises, a new memory
    pointer is minted, whatever is stored. *)
Lemma memoria_consulta_falha_id lib f now_valid now now_save t tel :
  vazia tel = false ->
  falha_consulta_memoria f = true ->
  fst <$> _get_or_create_memory_id lib f now_valid now now_save t tel
  = Some (tel +:+ "_mem_" +:+ strftime_micro now).
Proof.
  intros Htel Hf.
  unfold _get_or_create_memory_id, _get_memory_timestamp_from_negociacao.
  rewrite Htel, Hf. cbn [vazia_opt].
  by destruct (_save_memory_timestamp_to_negociacao _ _ _ _ _).
Qed.

(** ** Normalisation of stored memory timestamps *)

Lemma parse_strip lib s :
  _parse_timestamp_to_unix lib (strip s) = _parse_timestamp_to_unix lib s.
Proof.
  destruct (decide (s = EmptyString)) as [->|Hs]; [done|].
  rewrite (parse_desdobra lib s Hs). cbv zeta.
  destruct (decide (strip s = EmptyString)) as [He|Hne].
  - rewrite He. done.
  - rewrite (parse_desdobra lib _ Hne). cbv zeta. by rewrite strip_idem.
Qed.

Lemma normalize_casos lib s :
  _normalize_tempo_memoria_to_iso lib s = strip s
  \/ exists dt,
       _normalize_tempo_memoria_to_iso lib s = strftime_micro dt
       /\ datetime_ok dt = true
       /\ py_int lib (slice 0 4 (strip s)) = Some (year dt)
       /\ ((14 <=? String.length (strip s))%nat && isdigit_str (strip s)) = true
       /\ _parse_timestamp_to_unix lib s = Some (int_timestamp dt).
Proof.
  destruct (decide (s = EmptyString)) as [->|Hs]; [by left|].
  rewrite (parse_desdobra lib s Hs).
  assert (_normalize_tempo_memoria_to_iso lib s
          = let tempo_str := strip s in
            if contains "T"%char tempo_str && contains "-"%char tempo_str
            then tempo_str
            else if (14 <=? String.length tempo_str)%nat && isdigit_str tempo_str then
              match
                year ← py_int lib (slice 0 4 tempo_str);
                month ← py_int lib (slice 4 6 tempo_str);
                day ← py_int lib (slice 6 8 tempo_str);
                hour ← py_int lib (slice 8 10 tempo_str);
                minute ← py_int lib (slice 10 12 tempo_str);
                second ← py_int lib (slice 12 14 tempo_str);
                microsecond ← (if (20 <=? String.length tempo_str)%nat
                               then py_int lib (slice 14 20 tempo_str) else Some 0%Z);
                novo_datetime year month day hour minute second microsecond
              with
              | Some dt_obj => strftime_micro dt_obj
              | None => tempo_str
              end
            else tempo_str) as -> by by destruct s.
  cbv zeta. set (t := strip s).
  destruct (contains "T" t && contains "-" t); [by left|].
  destruct ((14 <=? String.length t)%nat && isdigit_str t) eqn:Hc; [|by left].
  apply andb_true_iff in Hc as [Hlen Hdig]. apply Nat.leb_le in Hlen.
  destruct (Nat.leb_spec (String.length t) 10) as [?|_]; [lia|].
  destruct (py_int lib (slice 0 4 t)) as [y|]; [|by left]. cbn [mbind option_bind].
  destruct (py_int lib (slice 4 6 t)) as [mo|]; [|by left]. cbn [mbind option_bind].
  destruct (py_int lib (slice 6 8 t)) as [d|]; [|by left]. cbn [mbind option_bind].
  destruct (py_int lib (slice 8 10 t)) as [h|]; [|by left]. cbn [mbind option_bind].
  destruct (py_int lib (slice 10 12 t)) as [mi|]; [|by left]. cbn [mbind option_bind].
  destruct (py_int lib (slice 12 14 t)) as [sg|]; [|by left]. cbn [mbind option_bind].
  destruct (if (20 <=? String.length t)%nat then py_int lib (slice 14 20 t) else Some 0)
    as [us|]; [|by left]. cbn [mbind option_bind].
  destruct (novo_datetime y mo d h mi sg us) as [dt|] eqn:Hdt; [|by left].
  right. exists dt. cbn [mbind option_bind].
  unfold novo_datetime in Hdt.
  destruct (datetime_ok _) eqn:Hok; [|done]. injection Hdt as <-.
  done.
Qed.

(** X10. Normalising a stored timestamp to the ISO layout keeps the instant it
    denotes (and keeps an unreadable one unreadable). *)
Theorem normalize_preserva_instante lib s :
  ano_de_quatro_digitos lib s ->
  _parse_timestamp_to_unix lib (_normalize_tempo_memoria_to_iso lib s)
  = _parse_timestamp_to_unix lib s.
Proof.
  intros Hy.
  destruct (normalize_casos lib s) as [->|(dt & -> & Hok & Hyear & Hc & ->)].
  - apply parse_strip.
  - destruct (strftime_micro_lido lib dt Hok) as (_ & _ & Hp); [|done].
    by apply Hy.
Qed.

Lemma contains_app a s t : contains a (s +:+ t) = contains a s || contains a t.
Proof.
  induction s as [|c s IH]; [done|].
  rewrite string_app_cons. cbn [contains]. rewrite IH. by rewrite orb_assoc.
Qed.

Lemma strip_extremos c w :
  is_space c = false -> strip (String c w +:+ "Z") = String c w +:+ "Z".
Proof.
  intros Hc. unfold strip. rewrite string_app_cons. cbn [lstrip]. rewrite Hc.
  rewrite <- string_app_cons.
  unfold String.rev at 2. rewrite rev_app_app. cbn [lstrip].
  change (is_space "Z") with false. cbv iota.
  rewrite <- (rev_app_app (String c w) "Z" EmptyString).
  apply rev_involutiva.
Qed.

Lemma strftime_micro_forma d :
  datetime_ok d = true ->
  exists c w, is_space c = false /\ strftime_micro d = String c w +:+ "Z"
              /\ contains "T" (strftime_micro d) = true
              /\ contains "-" (strftime_micro d) = true.
Proof.
  intros Hok. destruct (datetime_ok_campos d Hok) as (Hy & _).
  assert (exists c r, pretty (year d) = String c r /\ is_space c = false)
    as (c & r & Hp & Hc).
  { rewrite pretty_Z_nonneg by lia.
    destruct (pretty_N_fixo 4 (Z.to_N (year d))) as (i & Hi & Hp & _);
      [change (10 ^ N.of_nat 4)%N with 10000%N; lia|done|].
    rewrite Hp.
    pose proof (todos_digitos_fixo i (Z.to_N (year d)) EmptyString eq_refl) as Hd.
    pose proof (decimal_fixo_length i (Z.to_N (year d)) EmptyString) as Hl.
    destruct (decimal_fixo i (Z.to_N (year d)) EmptyString) as [|c r];
      [simpl in Hl; lia|].
    exists c, r. split; [done|].
    pose proof (todos_digitos_lstrip _ Hd) as Hls. cbn [lstrip] in Hls.
    destruct (is_space c); [|done]. exfalso.
    assert (String.length (lstrip r) <= String.length r)%nat as Hlen.
    { clear. induction r as [|x r IH]; [done|]. cbn.
      destruct (is_space x); simpl; lia. }
    rewrite Hls in Hlen. simpl in Hlen. lia. }
  unfold strftime_micro. rewrite Hp.
  eexists c, _. split; [done|]. split.
  - rewrite string_app_cons. rewrite <- !string_app_assoc.
    rewrite <- string_app_cons. reflexivity.
  - rewrite !contains_app. cbn [contains].
    change (Ascii.eqb "T" "T") with true. change (Ascii.eqb "-" "-") with true.
    cbn [orb]. rewrite !orb_true_r. done.
Qed.

Lemma normalize_strftime lib d :
  datetime_ok d = true ->
  _normalize_tempo_memoria_to_iso lib (strftime_micro d) = strftime_micro d.
Proof.
  intros Hok.
  destruct (strftime_micro_forma d Hok) as (c & w & Hc & Hs & HT & Ht).
  assert (Hst : strip (strftime_micro d) = strftime_micro d).
  { rewrite Hs. by apply strip_extremos. }
  rewrite normalize_iso; rewrite ?Hst; auto using strftime_micro_nao_vazia.
Qed.

(** X11. Normalising twice is normalising once. *)
Theorem normalize_idempotente lib s :
  _normalize_tempo_memoria_to_iso lib
    (_normalize_tempo_memoria_to_iso lib s)
  = _normalize_tempo_memoria_to_iso lib s.
Proof.
  destruct (normalize_casos lib s) as [Hn|(dt & Hn & Hok & _)].
  - rewrite Hn.
    destruct (normalize_casos lib (strip s))
      as [Hn2|(dt & Hn2 & Hok & _ & Hc & _)].
    + by rewrite Hn2, strip_idem.
    + (* the stripped text takes the compact path: so did the text *)
      rewrite strip_idem in Hc.
      destruct (decide (s = EmptyString)) as [->|Hs]; [done|].
      assert (strip s <> EmptyString) as Hne.
      { intros He. rewrite He in Hc. done. }
      revert Hn Hn2.
      assert (forall u, u <> EmptyString -> strip u = strip s ->
                _normalize_tempo_memoria_to_iso lib u
                = _normalize_tempo_memoria_to_iso lib s) as Hsame.
      { intros u Hu Hus. destruct u; [done|]. destruct s; [done|].
        unfold _normalize_tempo_memoria_to_iso. cbv beta iota zeta.
        by rewrite Hus. }
      intros Hn Hn2. rewrite (Hsame (strip s) Hne (strip_idem s)). done.
  - rewrite Hn. by apply normalize_strftime.
Qed.

(** ** Sessions *)

Lemma consulta_None t tel :
  consulta_mais_recente t tel = None -> default ∅ (t !! tel) = ∅.
Proof.
  unfold consulta_mais_recente.
  destruct (t !! tel) as [m|]; [|done]. cbn.
  destruct (mais_recente m) as [kv|] eqn:Hm; [done|].
  intros _. by apply mais_recente_None.
Qed.

Lemma salvar_sem_anterior lib f now_mem t tel ts sid :
  vazia tel = false -> vazia ts = false -> vazia sid = false ->
  consulta_mais_recente t tel = None ->
  _save_session_timestamp_to_negociacao lib f now_mem t tel ts sid (Some sid)
  = if falha_put_item f then (false, t)
    else (true, <[tel := {[ ts := registro_inicial tel ts sid ]}]> t).
Proof.
  intros Htel Hts Hsid Hnone.
  assert (Hinh : _get_previous_negotiation_data f t tel = ∅).
  { unfold _get_previous_negotiation_data. rewrite Htel, Hnone.
    by destruct (falha_consulta_anterior f). }
  unfold _save_session_timestamp_to_negociacao.
  rewrite Hinh, Htel, Hts, Hsid. cbn [orb vazia_opt]. rewrite Hsid.
  rewrite bool_decide_eq_true_2 by done.
  destruct (falha_put_item f); [done|].
  cbn [default from_option]. unfold id.
  unfold put_item. rewrite lookup_insert_ne, lookup_insert_ne, lookup_insert_ne,
    lookup_insert_eq by done.
  rewrite lookup_insert_ne, lookup_insert_ne, lookup_insert_eq by done.
  rewrite (consulta_None _ _ Hnone). done.
Qed.

Lemma consulta_registro_unico (t : negociacao) tel ts (novo : dict) :
  novo !! "telefone" = Some (VStr tel) ->
  novo !! "tempo_sessao" = Some (VStr ts) ->
  consulta_mais_recente (<[tel := {[ ts := novo ]}]> t) tel = Some novo.
Proof.
  intros H1 H2. unfold consulta_mais_recente. rewrite lookup_insert_eq. cbn.
  rewrite (mais_recente_maximo _ ts novo).
  - cbn. unfold item_completo.
    by rewrite !insert_id by (by rewrite ?lookup_insert_ne).
  - by rewrite lookup_singleton_eq.
  - intros k' v' [-> _]%lookup_singleton_Some. done.
Qed.

(** What the first call for a correspondent writes. *)
Lemma primeira_sessao_escrita lib f now now_mem t tel :
  vazia tel = false ->
  consulta_mais_recente t tel = None ->
  _get_or_create_session_id lib f now now_mem t tel
  = Some ((strftime_micro now, false),
          if falha_put_item f then t
          else <[tel := {[ strftime_seg (inicio_da_hora now) :=
                             registro_inicial tel
                               (strftime_seg (inicio_da_hora now))
                               (strftime_micro now) ]}]> t).
Proof.
  intros Htel Hnone.
  assert (Hler : _get_session_timestamp_from_negociacao f t tel
                 = (None, None)).
  { unfold _get_session_timestamp_from_negociacao. rewrite Htel, Hnone.
    by destruct (falha_consulta_sessao f). }
  unfold _get_or_create_session_id.
  rewrite Htel, Hler. cbn [vazia_opt orb].
  rewrite salvar_sem_anterior
    by auto using strftime_seg_nao_vazia, strftime_micro_nao_vazia.
  by destruct (falha_put_item f).
Qed.

(** X15. The first session of a correspondent: with no record in the ledger,
    the pointer is minted from the clock and the call does not count as a
    renewal, whichever calls on the table raise; when [put_item] does not
    raise the ledger then holds one record for the correspondent, made of
    the four fields of a fresh session and nothing else, and when it raises
    the ledger is left as it was. *)
Theorem primeira_sessao lib f now now_mem t tel :
  vazia tel = false ->
  consulta_mais_recente t tel = None ->
  exists t',
    _get_or_create_session_id lib f now now_mem t tel
    = Some ((strftime_micro now, false), t')
    /\ (falha_put_item f = false ->
        consulta_mais_recente t' tel
        = Some (registro_inicial tel (strftime_seg (inicio_da_hora now))
                  (strftime_micro now)))
    /\ (falha_put_item f = true -> t' = t).
Proof.
  intros Htel Hnone. eexists. split; [by apply primeira_sessao_escrita|].
  destruct (falha_put_item f); (split; [|done]); [done|].
  intros _. by apply consulta_registro_unico.
Qed.

(** X16. After the first call for a correspondent, in which [put_item] does
    not raise, a further call in which the query for the latest record does
    not raise, made in the same clock hour and with the session less than
    3600 seconds old, gets the same session pointer, is not a renewal, and
    writes nothing. *)
Theorem sessao_estavel_na_hora lib f f2 now now_mem now2 now_mem2 t tel :
  vazia tel = false ->
  consulta_mais_recente t tel = None ->
  falha_put_item f = false ->
  falha_consulta_sessao f2 = false ->
  datetime_ok now = true -> 1000 <= year now ->
  inicio_da_hora now2 = inicio_da_hora now ->
  int_timestamp now2 - int_timestamp now < 3600 ->
  exists t',
    _get_or_create_session_id lib f now now_mem t tel
    = Some ((strftime_micro now, false), t')
    /\ _get_or_create_session_id lib f2 now2 now_mem2 t' tel
       = Some ((strftime_micro now, false), t').
Proof.
  intros Htel Hnone Hput Hf2 Hok Hy Hhora Hage.
  pose proof (primeira_sessao_escrita lib f now now_mem t tel Htel Hnone) as H1.
  rewrite Hput in H1.
  set (t' := <[tel := _]> t) in H1.
  assert (Hc : consulta_mais_recente t' tel
               = Some (registro_inicial tel
                         (strftime_seg (inicio_da_hora now))
                         (strftime_micro now)))
    by by apply consulta_registro_unico.
  exists t'. split; [done|].
  destruct (strftime_micro_lido lib now Hok) as (_ & _ & Hp); [lia|].
  rewrite (sessao_casos lib f2 now2 now_mem2 t' tel
             (registro_inicial tel (strftime_seg (inicio_da_hora now))
                (strftime_micro now))
             (strftime_seg (inicio_da_hora now)) (strftime_micro now)
             (int_timestamp now)).
  - rewrite Hhora.
    rewrite (proj2 (Z.ltb_lt _ _)) by lia.
    by rewrite String.eqb_refl.
  - done.
  - repeat split; try done.
    apply strftime_seg_nao_vazia.
Qed.

Lemma salvar_outros lib f now_mem t tel tel' ts sid ini :
  tel' <> tel -> vazia ini = false ->
  snd (_save_session_timestamp_to_negociacao lib f now_mem t tel ts sid
         (Some ini))
    !! tel' = t !! tel'.
Proof.
  intros Hne Hini.
  destruct (falha_put_item f) eqn:Hput; [by rewrite salvar_falha|].
  destruct (vazia tel) eqn:Htel;
    [by unfold _save_session_timestamp_to_negociacao; rewrite Htel|].
  destruct (vazia ts) eqn:Hts;
    [by unfold _save_session_timestamp_to_negociacao; rewrite Htel, Hts|].
  destruct (vazia sid) eqn:Hsid;
    [by unfold _save_session_timestamp_to_negociacao; rewrite Htel, Hts, Hsid|].
  destruct (salvar_registro lib f now_mem t tel ts sid ini) as (novo & -> & _);
    try done.
  by rewrite lookup_insert_ne.
Qed.

(** X17. The session lifecycle of one correspondent never touches the records
    of another, whichever calls on the table raise. *)
Theorem sessao_isola_correspondentes lib f now now_mem t tel tel' r t' :
  _get_or_create_session_id lib f now now_mem t tel = Some (r, t') ->
  tel' <> tel ->
  t' !! tel' = t !! tel'.
Proof.
  intros H Hne. unfold _get_or_create_session_id in H.
  destruct (vazia tel); [by injection H as _ <-|].
  destruct (_get_session_timestamp_from_negociacao f t tel) as [ets sid].
  destruct (vazia_opt ets || vazia_opt sid).
  - pose proof (salvar_outros lib f now_mem t tel tel'
                  (strftime_seg (inicio_da_hora now)) (strftime_micro now)
                  (strftime_micro now) Hne (strftime_micro_nao_vazia now)) as Hs.
    destruct (_save_session_timestamp_to_negociacao _ _ _ _ _ _ _ _).
    by injection H as _ <-.
  - destruct (_parse_timestamp_to_unix _ _); [|done]. cbn in H.
    destruct (_ <? _).
    + destruct (String.eqb _ _); [by injection H as _ <-|].
      pose proof (salvar_outros lib f now_mem t tel tel'
                    (strftime_seg (inicio_da_hora now))
                    (default EmptyString sid)
                    (strftime_micro now) Hne (strftime_micro_nao_vazia now)) as Hs.
      destruct (_save_session_timestamp_to_negociacao _ _ _ _ _ _ _ _).
      by injection H as _ <-.
    + pose proof (salvar_outros lib f now_mem t tel tel'
                    (strftime_seg (inicio_da_hora now)) (strftime_micro now)
                    (strftime_micro now) Hne (strftime_micro_nao_vazia now)) as Hs.
      destruct (_save_session_timestamp_to_negociacao _ _ _ _ _ _ _ _).
      by injection H as _ <-.
Qed.

(** X18. [_get_or_create_session_id] raises exactly when the read of the
    latest record does not raise and gives a bucket and a session pointer,
    and the pointer is one that [_parse_timestamp_to_unix] raises on;
    nothing is written then. *)
Theorem sessao_ilegivel lib f now now_mem t tel :
  _get_or_create_session_id lib f now now_mem t tel = None
  <-> vazia tel = false
      /\ exists ets sid,
           _get_session_timestamp_from_negociacao f t tel
           = (Some ets, Some sid)
           /\ vazia ets = false /\ vazia sid = false
           /\ _parse_timestamp_to_unix lib sid = None.
Proof.
  unfold _get_or_create_session_id.
  destruct (vazia tel); [split; [done|by intros [? _]]|].
  destruct (_get_session_timestamp_from_negociacao f t tel) as [ets sid].
  destruct ets as [ets|], sid as [sid|]; cbn [vazia_opt orb];
    rewrite ?orb_true_r.
  2-4: destruct (_save_session_timestamp_to_negociacao _ _ _ _ _ _ _ _); cbn;
       split; [done|]; by intros (_ & ? & ? & [=] & _).
  destruct (vazia ets) eqn:He; cbn [orb].
  { destruct (_save_session_timestamp_to_negociacao _ _ _ _ _ _ _ _); cbn.
    split; [done|]. intros (_ & ? & ? & [= <- <-] & ? & _). congruence. }
  destruct (vazia sid) eqn:Hs.
  { destruct (_save_session_timestamp_to_negociacao _ _ _ _ _ _ _ _); cbn.
    split; [done|]. intros (_ & ? & ? & [= <- <-] & _ & ? & _). congruence. }
  cbn [default from_option]. unfold id.
  destruct (_parse_timestamp_to_unix lib sid) as [ts|] eqn:Hp;
    cbn [mbind option_bind].
  - destruct (_ <? _); [destruct (String.eqb _ _)|];
      try destruct (_save_session_timestamp_to_negociacao _ _ _ _ _ _ _ _); cbn;
      (split; [done|]); intros (_ & ? & ? & [= <- <-] & _ & _ & ?); congruence.
  - split; [|done]. intros _. split; [done|]. by exists ets, sid.
Qed.

(** What a call returns when the query for the latest record raises. *)
Lemma sessao_consulta_falha_casos lib f now now_mem t tel :
  vazia tel = false ->
  falha_consulta_sessao f = true ->
  _get_or_create_session_id lib f now now_mem t tel
  = Some ((strftime_micro now, false),
          snd (_save_session_timestamp_to_negociacao lib f now_mem t tel
                 (strftime_seg (inicio_da_hora now)) (strftime_micro now)
                 (Some (strftime_micro now)))).
Proof.
  intros Htel Hf.
  unfold _get_or_create_session_id, _get_session_timestamp_from_negociacao.
  rewrite Htel, Hf. cbn [vazia_opt orb].
  by destruct (_save_session_timestamp_to_negociacao _ _ _ _ _ _ _ _).
Qed.

(** X26. When the query for the latest record raises,
    [_get_or_create_session_id] returns a pointer minted from the clock
    with [renewed = false], whatever the ledger holds and however old the
    stored session is; when [put_item] does not raise it persists a record
    for the current hour that carries the new pointer, and when [put_item]
    raises too the ledger is left as it was. *)
Theorem sessao_consulta_falha lib f now now_mem t tel :
  vazia tel = false ->
  falha_consulta_sessao f = true ->
  exists t',
    _get_or_create_session_id lib f now now_mem t tel
    = Some ((strftime_micro now, false), t')
    /\ (falha_put_item f = false ->
        exists novo,
          registro t' tel (strftime_seg (inicio_da_hora now)) = Some novo
          /\ novo !! "session_id" = Some (VStr (strftime_micro now)))
    /\ (falha_put_item f = true -> t' = t).
Proof.
  intros Htel Hf. rewrite sessao_consulta_falha_casos by done.
  eexists. split; [done|]. split.
  - intros Hput.
    destruct (salvar_registro lib f now_mem t tel
                (strftime_seg (inicio_da_hora now))
                (strftime_micro now) (strftime_micro now))
      as (novo & Hs & Hn1 & Hn2 & Hn);
      [done|apply strftime_seg_nao_vazia|apply strftime_micro_nao_vazia
      |apply strftime_micro_nao_vazia|done|].
    exists novo. rewrite Hs. split; [by apply registro_salvo|].
    rewrite Hn. unfold item_salvo.
    rewrite herdados_fora by (apply base_nao_herdada; na_lista).
    done.
  - intros Hput. by rewrite salvar_falha.
Qed.

(** X27. When the query for the stored memory timestamp raises,
    [_get_or_create_memory_id] returns an identifier made of the
    correspondent and a pointer minted from the clock, whatever the ledger
    holds. *)
Theorem memoria_consulta_falha lib f now_valid now now_save t tel :
  vazia tel = false ->
  falha_consulta_memoria f = true ->
  exists t',
    _get_or_create_memory_id lib f now_valid now now_save t tel
    = Some (tel +:+ "_mem_" +:+ strftime_micro now, t').
Proof.
  intros Htel Hf.
  pose proof (memoria_consulta_falha_id lib f now_valid now now_save t tel
                Htel Hf) as H.
  destruct (_get_or_create_memory_id _ _ _ _ _ _ _) as [[id t']|]; [|done].
  injection H as ->. by exists t'.
Qed.

(** ** The validity predicates *)

(** X23. When the query for the latest record does not raise, the session
    lifecycle keeps the stored session pointer exactly when
    [_is_session_valid] holds of it, and mints a new one, counting as a
    renewal, exactly when it does not. *)
Theorem sessao_valida_mantida lib f now now_mem t tel prev ets sid ts :
  falha_consulta_sessao f = false ->
  sessao_existente lib t tel prev ets sid ts ->
  exists t',
    _get_or_create_session_id lib f now now_mem t tel
    = Some ((if _is_session_valid lib now sid then sid
             else strftime_micro now,
             negb (_is_session_valid lib now sid)), t').
Proof.
  intros Hf H.
  rewrite (sessao_casos lib f now now_mem t tel prev ets sid ts Hf H).
  destruct H as (_ & _ & _ & _ & _ & Hparse).
  unfold _is_session_valid. rewrite Hparse.
  pose proof (parse_nao_vazia _ _ _ Hparse) as Hne.
  destruct sid; [done|].
  destruct (int_timestamp now - ts <? 3600); [|by eexists].
  destruct (String.eqb _ _); by eexists.
Qed.

(** X24. A timestamp that is valid as a session is valid as a memory. *)
Theorem sessao_valida_memoria_valida lib now s :
  _is_session_valid lib now s = true -> _is_memory_valid lib now s = true.
Proof.
  unfold _is_session_valid, _is_memory_valid, MEMORY_TIMEOUT.
  destruct s; [done|]. destruct (_parse_timestamp_to_unix _ _); [|done].
  intros H%Z.ltb_lt. apply Z.ltb_lt. lia.
Qed.

End LedgerExtra.

(* ===================================================================== *)
(** * Properties of contact normalisation *)
(* ===================================================================== *)

Module ContactProps.
Import Contact.

Section Idempotence.
Variable unicode_digit : codepoint -> bool.

Abbreviation isdigit := (isdigit unicode_digit).
Abbreviation limpar := (limpar unicode_digit).
Abbreviation so_digitos := (so_digitos unicode_digit).

Lemma limpar_so_digitos x : so_digitos (limpar x).
Proof.
  unfold Contact.so_digitos, Contact.limpar. apply Forall_forall. intros c Hc.
  apply list_elem_of_In, filter_In in Hc. tauto.
Qed.

Lemma limpar_fixo l : so_digitos l -> limpar l = l.
Proof.
  unfold Contact.limpar. induction 1 as [|c l Hc _ IH]; simpl; [done|].
  by rewrite Hc, IH.
Qed.

Lemma so_digitos_prefix55 l : so_digitos l -> so_digitos (prefix55 ++ l).
Proof.
  intros H. unfold Contact.so_digitos, prefix55. repeat constructor; exact H.
Qed.

Lemma py_slice_ultimos13 {A} (l : list A) :
  13 < length l ->
  py_slice (Some (-13)%Z) None l = skipn (length l - 13) l.
Proof.
  intros Hn. unfold py_slice, clamp_index.
  change (-13 <? 0)%Z with true. cbv iota.
  replace (Z.to_nat (Z.max 0 (-13 + Z.of_nat (length l))))
    with (length l - 13) by lia.
  apply firstn_all2. rewrite length_skipn. lia.
Qed.

Lemma py_slice_ddd13 {A} (l : list A) :
  13 < length l ->
  py_slice (Some (-13)%Z) (Some (-11)%Z) l
  = firstn 2 (skipn (length l - 13) l).
Proof.
  intros Hn. unfold py_slice, clamp_index.
  change (-13 <? 0)%Z with true. change (-11 <? 0)%Z with true. cbv iota.
  replace (Z.to_nat (Z.max 0 (-13 + Z.of_nat (length l))))
    with (length l - 13) by lia.
  f_equal. lia.
Qed.

(** What [normalizar_limpo] can return. *)
Lemma normalizar_limpo_casos l :
  normalizar_limpo l = l
  \/ (length l = 11 /\ normalizar_limpo l = prefix55 ++ l)
  \/ (13 < length l
      /\ firstn 2 (skipn (length l - 13) l) = prefix55
      /\ normalizar_limpo l = skipn (length l - 13) l).
Proof.
  unfold normalizar_limpo.
  destruct (startswith l prefix55 && (length l =? 13)); [by left|].
  destruct (length l =? 11) eqn:H11.
  { right; left. apply Nat.eqb_eq in H11. done. }
  destruct ((length l =? 13) && negb (startswith l prefix55)); [by left|].
  destruct (13 <? length l) eqn:H13.
  - apply Nat.ltb_lt in H13.
    rewrite py_slice_ultimos13, py_slice_ddd13 by done.
    destruct (endswith _ _); simpl; [|by left].
    case_bool_decide as Hd; [|by left].
    right; right. done.
  - destruct (length l <? 11); by left.
Qed.

Lemma normalizar_limpo_so_digitos l :
  so_digitos l -> so_digitos (normalizar_limpo l).
Proof.
  intros H.
  destruct (normalizar_limpo_casos l) as [->|[[_ ->]|(_ & _ & ->)]].
  - done.
  - by apply so_digitos_prefix55.
  - unfold so_digitos. by apply Forall_drop.
Qed.

Lemma normalizar_limpo_canonico r :
  length r = 13 -> firstn 2 r = prefix55 -> normalizar_limpo r = r.
Proof.
  intros Hlen H55. unfold normalizar_limpo, startswith.
  rewrite Hlen. simpl (length prefix55).
  rewrite bool_decide_eq_true_2 by done. done.
Qed.

Lemma normalizar_limpo_idem l :
  normalizar_limpo (normalizar_limpo l) = normalizar_limpo l.
Proof.
  destruct (normalizar_limpo_casos l) as [H|[[Hn H]|(Hn & H55 & H)]].
  - by rewrite !H.
  - rewrite H. apply normalizar_limpo_canonico.
    + rewrite length_app. simpl. lia.
    + done.
  - rewrite H. apply normalizar_limpo_canonico.
    + rewrite length_skipn. lia.
    + done.
Qed.

(** C9. Contact normalisation is idempotent: for every input string [x]
    (whatever characters the Unicode tables count as digits),
    [normalizar_telefone (normalizar_telefone x) = normalizar_telefone x]. *)
Theorem normalizar_telefone_idempotent (x : pystr) :
  normalizar_telefone unicode_digit (normalizar_telefone unicode_digit x)
  = normalizar_telefone unicode_digit x.
Proof.
  unfold normalizar_telefone at 2.
  destruct x as [|c x]; [done|].
  set (y := limpar (c :: x)).
  assert (Hy : so_digitos y) by apply limpar_so_digitos.
  unfold normalizar_telefone.
  destruct (normalizar_limpo y) as [|d r] eqn:Hr; [done|].
  rewrite <- Hr.
  rewrite limpar_fixo by by apply normalizar_limpo_so_digitos.
  apply normalizar_limpo_idem.
Qed.

End Idempotence.

End ContactProps.


(* ===================================================================== *)
(** * Further properties of contact normalisation and of the reply text *)
(* ===================================================================== *)

Module ContactExtra.
Import Contact ContactProps Resposta.
Local Open Scope N_scope.

(** X19. The result of [normalizar_telefone] depends on the digits of its input
    only, and is made of digits only. *)
Theorem normalizar_so_digitos_importam unicode_digit (x : pystr) :
  normalizar_telefone unicode_digit x
  = normalizar_telefone unicode_digit (limpar unicode_digit x)
  /\ so_digitos unicode_digit (normalizar_telefone unicode_digit x).
Proof.
  destruct x as [|c x]; [split; [done|constructor]|].
  set (y := limpar unicode_digit (c :: x)).
  assert (Hy : so_digitos unicode_digit y) by apply limpar_so_digitos.
  split.
  - change (normalizar_telefone unicode_digit (c :: x))
      with (normalizar_limpo y).
    unfold normalizar_telefone. destruct y as [|d r] eqn:Hr; [done|].
    rewrite <- Hr. by rewrite limpar_fixo by by rewrite Hr.
  - by apply normalizar_limpo_so_digitos.
Qed.

(** X20. A national number of eleven digits and the same number behind the
    country code 55 get the same 13-digit key, whatever the punctuation
    around the digits. *)
Theorem normalizar_chave_unica unicode_digit (x x' d : pystr) :
  length d = 11%nat ->
  limpar unicode_digit x = d ->
  limpar unicode_digit x' = prefix55 ++ d ->
  normalizar_telefone unicode_digit x = prefix55 ++ d
  /\ normalizar_telefone unicode_digit x' = prefix55 ++ d.
Proof.
  intros Hlen Hx Hx'. split.
  - destruct x as [|c x]; [by subst d|].
    unfold normalizar_telefone. rewrite Hx. unfold normalizar_limpo.
    rewrite Hlen. simpl (11 =? 13)%nat. rewrite andb_false_r. done.
  - destruct x' as [|c x']; [done|].
    unfold normalizar_telefone. rewrite Hx'.
    apply normalizar_limpo_canonico; [|done].
    rewrite length_app. simpl. lia.
Qed.

Lemma tem_par_cons2 a b x y r :
  tem_par a b (x :: y :: r) = ((x =? a) && (y =? b)) || tem_par a b (y :: r).
Proof. reflexivity. Qed.

Lemma replace2_cons2 a b c x y r :
  replace2 a b c (x :: y :: r)
  = if (x =? a) && (y =? b) then c :: replace2 a b c r
    else x :: replace2 a b c (y :: r).
Proof. reflexivity. Qed.

Lemma replace2_cabeca a b c s :
  match replace2 a b c s with
  | [] => s = []
  | z :: _ => z = c \/ exists r, s = z :: r
  end.
Proof.
  destruct s as [|x [|y r]]; simpl; [done|right; eauto|].
  destruct ((x =? a) && (y =? b)); [by left|right; eauto].
Qed.

Lemma replace2_sem_par_aux a b c a' b' n : forall s,
  (length s <= n)%nat ->
  c <> a' -> c <> b' ->
  (tem_par a' b' s = false \/ (a' = a /\ b' = b)) ->
  tem_par a' b' (replace2 a b c s) = false.
Proof.
  induction n as [|n IH]; intros s Hn Hca Hcb Hs.
  { destruct s; [done|simpl in Hn; lia]. }
  destruct s as [|x [|y r]]; [done|done|].
  rewrite replace2_cons2.
  assert (Hr : tem_par a' b' (y :: r) = false \/ (a' = a /\ b' = b)).
  { destruct Hs as [Hs|?]; [|by right]. left. rewrite tem_par_cons2 in Hs.
    by apply orb_false_iff in Hs as [_ ?]. }
  assert (Hr' : tem_par a' b' r = false \/ (a' = a /\ b' = b)).
  { destruct Hr as [Hr|?]; [|by right]. left.
    destruct r as [|z r]; [done|]. rewrite tem_par_cons2 in Hr.
    by apply orb_false_iff in Hr as [_ ?]. }
  destruct ((x =? a) && (y =? b)) eqn:Hm.
  - pose proof (IH r ltac:(simpl in Hn; lia) Hca Hcb Hr') as Hrec.
    destruct (replace2 a b c r) as [|z q] eqn:Hq; [done|].
    rewrite tem_par_cons2, Hrec.
    rewrite (proj2 (N.eqb_neq c a')) by done. done.
  - pose proof (IH (y :: r) ltac:(simpl in Hn |- *; lia) Hca Hcb Hr) as Hrec.
    pose proof (replace2_cabeca a b c (y :: r)) as Hh.
    destruct (replace2 a b c (y :: r)) as [|z q] eqn:Hq; [done|].
    rewrite tem_par_cons2, Hrec, orb_false_r.
    destruct Hh as [->|[r0 [= <- <-]]].
    + rewrite (proj2 (N.eqb_neq c b')) by done. by rewrite andb_false_r.
    + destruct Hs as [Hs|[-> ->]]; [|done].
      rewrite tem_par_cons2 in Hs. by apply orb_false_iff in Hs as [? _].
Qed.

Lemma replace2_remove a b c s :
  c <> a -> c <> b -> tem_par a b (replace2 a b c s) = false.
Proof.
  intros Ha Hb. apply (replace2_sem_par_aux a b c a b (length s)); auto.
Qed.

Lemma replace2_preserva a b c a' b' s :
  c <> a' -> c <> b' -> tem_par a' b' s = false ->
  tem_par a' b' (replace2 a b c s) = false.
Proof.
  intros Ha Hb Hs. apply (replace2_sem_par_aux a b c a' b' (length s)); auto.
Qed.

Lemma replace2_sem_par a b c n : forall s,
  (length s <= n)%nat -> tem_par a b s = false -> replace2 a b c s = s.
Proof.
  induction n as [|n IH]; intros s Hn Hs.
  { destruct s; [done|simpl in Hn; lia]. }
  destruct s as [|x [|y r]]; [done|done|].
  rewrite tem_par_cons2 in Hs. apply orb_false_iff in Hs as [Hm Hr].
  rewrite replace2_cons2, Hm. f_equal. apply IH; [simpl in Hn |- *; lia|done].
Qed.

(** X21. No escape sequence backslash-n, backslash-t or backslash-r is left in
    a sanitised reply, and sanitising it again changes nothing. *)
Theorem sanitizar_sem_escapes (texto : pystr) :
  tem_par 92 110 (sanitizar_texto_resposta texto) = false
  /\ tem_par 92 116 (sanitizar_texto_resposta texto) = false
  /\ tem_par 92 114 (sanitizar_texto_resposta texto) = false
  /\ sanitizar_texto_resposta (sanitizar_texto_resposta texto)
     = sanitizar_texto_resposta texto.
Proof.
  assert (H : tem_par 92 110 (sanitizar_texto_resposta texto) = false
              /\ tem_par 92 116 (sanitizar_texto_resposta texto) = false
              /\ tem_par 92 114 (sanitizar_texto_resposta texto) = false).
  { destruct texto as [|c r]; [done|]. unfold sanitizar_texto_resposta.
    cbv zeta. split; [|split].
    - do 2 (apply replace2_preserva; [done|done|]). by apply replace2_remove.
    - apply replace2_preserva; [done|done|]. by apply replace2_remove.
    - by apply replace2_remove. }
  destruct H as (H1 & H2 & H3). split; [done|]. split; [done|]. split; [done|].
  set (y := sanitizar_texto_resposta texto) in *.
  unfold sanitizar_texto_resposta at 1. destruct y as [|c r] eqn:Hy; [done|].
  rewrite <- Hy in *. cbv zeta.
  rewrite (replace2_sem_par 92 110 10 (length y) y) by done.
  rewrite (replace2_sem_par 92 116 9 (length y) y) by done.
  by rewrite (replace2_sem_par 92 114 13 (length y) y) by done.
Qed.

End ContactExtra.

(* ===================================================================== *)
(** * Properties of the session attributes *)
(* ===================================================================== *)

Module AtributosProps.
Import Py Timestamp Ledger LedgerProps Atributos.
Local Open Scope Z_scope.

(** X25. The session attributes of a correspondent hold the correspondent
    whenever there is one, never hold an empty value, and hold none but the
    seven attributes a session may carry; without a correspondent there are
    none. *)
Theorem session_attrs_sem_vazios now itens telefone :
  (vazia telefone = false ->
   _get_session_attributes_from_db now itens telefone !! "telefone"
   = Some telefone)
  /\ (vazia telefone = true ->
      _get_session_attributes_from_db now itens telefone = ∅)
  /\ forall k v,
       _get_session_attributes_from_db now itens telefone !! k = Some v ->
       vazia v = false /\ k ∈ chaves_session_attrs.
Proof.
  unfold _get_session_attributes_from_db.
  destruct (vazia telefone) eqn:Htel.
  { split; [done|]. split; [done|]. intros k v H.
    by rewrite lookup_empty in H. }
  assert (Hum : forall k v, ({[ "telefone" := telefone ]} : gmap string string)
                            !! k = Some v ->
                vazia v = false /\ k ∈ chaves_session_attrs).
  { intros k v [<- <-]%lookup_singleton_Some. split; [done|].
    unfold chaves_session_attrs. na_lista. }
  destruct itens as [[|item r]|].
  1,3: split; [intros _; by rewrite lookup_singleton_eq|];
       split; [done|exact Hum].
  split; [|split; [done|]].
  - intros _. apply map_lookup_filter_Some. split; [|done].
    by rewrite !lookup_insert_ne, lookup_insert_eq by done.
  - intros k v [H Hv]%map_lookup_filter_Some. split; [exact Hv|].
    unfold chaves_session_attrs.
    repeat (apply lookup_insert_Some in H as [[<- _]|[_ H]]; [na_lista|]).
    by rewrite lookup_empty in H.
Qed.

End AtributosProps.

(* ===================================================================== *)
(** * The properties on the concrete scenarios *)
(* ===================================================================== *)

Module Cenarios.
Import Py Flutuante Debounce Timestamp Ledger Exemplos.
Import DebounceProps LedgerProps.
Local Open Scope Z_scope.






(** Two readings of the clock 0.1 s apart: as floats, 1700000000.15 and
    1700000000.05 differ by more than the literal [0.1], and 1700000000.1
    and 1700000000.0 do not. *)
Example tolerancia_em_floats :
  fora_da_tolerancia (carimbo (T0 + 150000)) (carimbo (T0 + 50000)) = true
  /\ fora_da_tolerancia (carimbo (T0 + 100000)) (carimbo T0) = false.
Proof. split; vm_compute; reflexivity. Qed.



(** A read of the store that raises. *)
Lemma armazenar_falha_witness :
  exists r,
    armazenar_mensagem_pendente cfg_padrao c_sem_leitura cod_ex m_oi s_vazio
    = (Ok r, s_vazio)
    /\ deve_processar r = true.
Proof.
  apply (armazenar_falha_deve_processar cfg_padrao c_sem_leitura cod_ex m_oi
           s_vazio).
  left. vm_compute. eexists. reflexivity.
Defined.

Lemma sessao_existente_ex :
  sessao_existente lib_estrita t_ex cod_ex prev_ex bucket_10h sid_10h55
    1709290500.
Proof. repeat split; vm_compute; reflexivity. Defined.

(** A pointer minted at 10:55:00 read at 11:55:00 is exactly 3600 s old. *)
Lemma renovacao_ex : renovacao lib_estrita as_11h55 t_ex cod_ex prev_ex.
Proof.
  exists bucket_10h, sid_10h55, 1709290500.
  split; [exact sessao_existente_ex|]. vm_compute. discriminate.
Defined.


(** The two sides of the threshold, evaluated. *)
Example limiar_3599 :
  int_timestamp as_11h54m59 - 1709290500 = 3599
  /\ fst <$> _get_or_create_session_id lib_estrita nenhuma_falha
               as_11h54m59 as_11h54m59 t_ex cod_ex
     = Some (sid_10h55, false).
Proof. split; vm_compute; reflexivity. Qed.

Example limiar_3600 :
  int_timestamp as_11h55 - 1709290500 = 3600
  /\ fst <$> _get_or_create_session_id lib_estrita nenhuma_falha
               as_11h55 as_11h55 t_ex cod_ex
     = Some ("2024-03-01T11:55:00.000000Z", true).
Proof. split; vm_compute; reflexivity. Qed.

(** With the query for the latest record raising, the pointer of 10:55 is
    not found at 11:05: a new one is minted and the call does not count as
    a renewal. *)
Example consulta_falha_1105 :
  fst <$> _get_or_create_session_id lib_estrita falha_consulta
            as_11h05 as_11h05 t_ex cod_ex
  = Some ("2024-03-01T11:05:00.000000Z", false).
Proof. vm_compute; reflexivity. Qed.


(** The same call with [put_item] raising: the pointer is returned and the
    ledger is as it was. *)
Example bucket_rotation_put_falha :
  _get_or_create_session_id lib_estrita falha_put as_11h05 as_11h05 t_ex
    cod_ex
  = Some ((sid_10h55, false), t_ex).
Proof. reflexivity. Qed.




Lemma falsy_fact_dropped_witness :
  _get_previous_negotiation_data nenhuma_falha t_ex cod_ex
    !! "equipamento_ids" = None
  /\ _get_previous_negotiation_data nenhuma_falha t_ex cod_ex !! "carga_id"
     = Some (VNum 42)
  /\ exists t' novo,
       _get_or_create_session_id lib_estrita nenhuma_falha as_11h55 as_11h55
         t_ex cod_ex
       = Some ((strftime_micro as_11h55, true), t')
       /\ registro t' cod_ex (strftime_seg (inicio_da_hora as_11h55))
          = Some novo
       /\ novo !! "equipamento_ids" = None.
Proof.
  destruct (falsy_fact_dropped lib_estrita nenhuma_falha as_11h55 as_11h55
              t_ex cod_ex prev_ex renovacao_ex) as (Hdrop & _).
  destruct (Hdrop "equipamento_ids" (VList [])) as [Hinh Hreg].
  - repeat constructor.
  - vm_compute. reflexivity.
  - reflexivity.
  - split; [exact Hinh|]. split; [vm_compute; reflexivity|].
    exact (Hreg eq_refl eq_refl).
Defined.

End Cenarios.

(* ===================================================================== *)
(** * Further concrete scenarios *)
(* ===================================================================== *)

Module CenariosExtra.
Import Py Flutuante Debounce Timestamp Ledger Exemplos.
Import DebounceProps LedgerProps TimestampProps LedgerExtra.
Import Cenarios.
Local Open Scope Z_scope.

(** "Oi" and "bom dia" are handed out by the first wakeup, the later
    message is still pending at the end of the run. *)
Lemma mensagens_conservadas_witness :
  concat (snd (executa cfg_padrao (sistema_de s_vazio) (serie rajada_e_carga)))
  ++ pendentes cod_ex
       (armazem (fst (executa cfg_padrao (sistema_de s_vazio)
                        (serie rajada_e_carga))))
  = pendentes cod_ex s_vazio
    ++ [e_oi; e_bom_dia; nova_pendente m_carga (carimbo (T0 + 20000000))].
Proof.
  apply (mensagens_conservadas cfg_padrao cod_ex s_vazio rajada_e_carga).
  - intros it H. vm_compute in H. discriminate H.
  - repeat constructor.
  - repeat (constructor; [intros _; split; reflexivity|]). constructor.
Defined.

(** The wakeup of "bom dia" delivered a second time obtains nothing. *)
Lemma disparo_uma_vez_witness :
  obter_e_limpar_mensagens_acumuladas (sem_falhas (T0 + 6000000)) cod_ex
    (carimbo (T0 + 2000000)) s_drenado
  = (Ok [], s_drenado).
Proof.
  apply (disparo_uma_vez (sem_falhas (T0 + 5000000)) _ cod_ex
           (carimbo (T0 + 2000000)) _ s_bom_dia lote_ex).
  - vm_compute. reflexivity.
  - discriminate.
Defined.

(** "bom dia" of one correspondent leaves the record of another one as it
    was. *)
Lemma passo_isola_correspondentes_witness :
  tabela (fst (passo cfg_padrao s_oi (Chegada c_bom_dia cod_ex m_bom_dia)))
    !! outro_ex
  = tabela s_oi !! outro_ex.
Proof.
  apply (passo_isola_correspondentes cfg_padrao outro_ex s_oi
           (Chegada c_bom_dia cod_ex m_bom_dia)).
  discriminate.
Defined.

(** The message without text does not show in the combined text. *)
Lemma combinar_ignora_vazias_witness :
  combinar_mensagens lote_com_vazia
  = combinar_mensagens (List.filter com_texto lote_com_vazia).
Proof.
  apply combinar_ignora_vazias.
  repeat (constructor; [eexists; reflexivity|]). constructor.
Defined.

(** The wakeup of "bom dia" with a store that refuses the write. *)
Lemma obter_falha_sem_efeito_witness :
  obter_e_limpar_mensagens_acumuladas c_sem_escrita cod_ex
    (carimbo (T0 + 2000000)) s_bom_dia
  = (Ok [], s_bom_dia).
Proof.
  apply obter_falha_sem_efeito. right. eexists. reflexivity.
Defined.

Lemma fromisoformat_strftime_micro_witness :
  fromisoformat (sem_Z_final (strftime_micro fim_de_9999)) = Some fim_de_9999
  /\ _parse_timestamp_to_unix lib_estrita (strftime_micro fim_de_9999)
     = Some (truncar (timestamp_de_micros (micros fim_de_9999))).
Proof.
  apply fromisoformat_strftime_micro; [reflexivity|cbn; lia].
Defined.

Lemma strftime_micro_inj_witness :
  strftime_micro as_11h54m59 <> strftime_micro as_11h55.
Proof.
  apply strftime_micro_inj;
    [reflexivity|cbn; lia|reflexivity|cbn; lia|discriminate].
Defined.

Lemma bucket_alinhado_a_hora_witness :
  fromisoformat (sem_Z_final (strftime_seg (inicio_da_hora as_11h54m59)))
  = Some (inicio_da_hora as_11h54m59)
  /\ _parse_timestamp_to_unix lib_estrita
       (strftime_seg (inicio_da_hora as_11h54m59))
     = Some (truncar (timestamp_de_micros
                        (micros (inicio_da_hora as_11h54m59))))
  /\ micros (inicio_da_hora as_11h54m59) mod 3600000000 = 0
  /\ micros (inicio_da_hora as_11h54m59) <= micros as_11h54m59
     < micros (inicio_da_hora as_11h54m59) + 3600000000.
Proof. apply bucket_alinhado_a_hora; [reflexivity|cbn; lia]. Defined.

Lemma parse_segundos_unix_witness :
  _parse_timestamp_to_unix lib_estrita (pretty 1700000000) = Some 1700000000.
Proof. apply parse_segundos_unix. lia. Defined.

Lemma normalize_preserva_instante_witness :
  _parse_timestamp_to_unix lib_estrita
    (_normalize_tempo_memoria_to_iso lib_estrita tm_compacto)
  = _parse_timestamp_to_unix lib_estrita tm_compacto.
Proof.
  apply normalize_preserva_instante.
  intros y _ H. vm_compute in H. injection H as <-. lia.
Defined.

Lemma memoria_a_renovar_ex :
  memoria_a_renovar lib_estrita nenhuma_falha as_11h05 t_velha cod_ex.
Proof.
  vm_compute. right. split; [exists 1706778000; reflexivity|reflexivity].
Defined.


(** The same call with [update_item] raising: the new identifier is
    returned and the ledger is as it was. *)
Example memoria_renovada_update_falha :
  _get_or_create_memory_id lib_estrita
    {| falha_consulta_sessao := false; falha_consulta_anterior := false;
       falha_consulta_memoria := false; falha_put_item := false;
       falha_update_item := true |}
    as_11h05 as_11h05 as_11h05 t_velha cod_ex
  = Some (cod_ex +:+ "_mem_" +:+ strftime_micro as_11h05, t_velha).
Proof. reflexivity. Qed.

(** The pointer minted at 11:05 is the one returned at 11:55. *)
Lemma memoria_estavel_witness :
  exists id t',
    _get_or_create_memory_id lib_estrita nenhuma_falha as_11h05 as_11h05
      as_11h05 t_velha cod_ex
    = Some (id, t')
    /\ _get_or_create_memory_id lib_estrita nenhuma_falha as_11h55 as_11h55
         as_11h55 t' cod_ex
       = Some (id, t').
Proof.
  apply (memoria_estavel lib_estrita nenhuma_falha nenhuma_falha as_11h05
           as_11h05 as_11h05 as_11h55 as_11h55 as_11h55 t_velha cod_ex
           prev_velho bucket_10h sid_10h55).
  - reflexivity.
  - reflexivity.
  - reflexivity.
  - reflexivity.
  - reflexivity.
  - reflexivity.
  - exact memoria_a_renovar_ex.
  - reflexivity.
  - reflexivity.
  - reflexivity.
  - reflexivity.
  - cbn. lia.
  - vm_compute. reflexivity.
Defined.

Lemma primeira_sessao_witness :
  exists t',
    _get_or_create_session_id lib_estrita nenhuma_falha as_11h05 as_11h05
      t_vazia cod_ex
    = Some ((strftime_micro as_11h05, false), t')
    /\ consulta_mais_recente t' cod_ex
       = Some (registro_inicial cod_ex
                 (strftime_seg (inicio_da_hora as_11h05))
                 (strftime_micro as_11h05)).
Proof.
  destruct (primeira_sessao lib_estrita nenhuma_falha as_11h05 as_11h05
              t_vazia cod_ex eq_refl eq_refl) as (t' & Hr & Hok & _).
  exists t'. split; [exact Hr|exact (Hok eq_refl)].
Defined.

(** A session started at 11:05 is the session of a call at 11:54:59. *)
Lemma sessao_estavel_na_hora_witness :
  int_timestamp as_11h54m59 - int_timestamp as_11h05 = 2999
  /\ exists t',
       _get_or_create_session_id lib_estrita nenhuma_falha as_11h05 as_11h05
         t_vazia cod_ex
       = Some ((strftime_micro as_11h05, false), t')
       /\ _get_or_create_session_id lib_estrita nenhuma_falha as_11h54m59
            as_11h54m59 t' cod_ex
          = Some ((strftime_micro as_11h05, false), t').
Proof.
  split; [vm_compute; reflexivity|].
  apply sessao_estavel_na_hora;
    [reflexivity|reflexivity|reflexivity|reflexivity|reflexivity|cbn; lia
    |reflexivity|vm_compute; reflexivity].
Defined.

(** The renewal of the session of one correspondent at 11:55 leaves the
    record of the other one as it was. *)
Lemma sessao_isola_correspondentes_witness :
  t_renovada !! outro_ex = t_dois !! outro_ex.
Proof.
  apply (sessao_isola_correspondentes lib_estrita nenhuma_falha as_11h55
           as_11h55 t_dois cod_ex outro_ex r_renovada t_renovada).
  - reflexivity.
  - discriminate.
Defined.

(** The pointer of 10:55 read at 11:55. *)
Lemma sessao_valida_mantida_witness :
  exists t',
    _get_or_create_session_id lib_estrita nenhuma_falha as_11h55 as_11h55
      t_ex cod_ex
    = Some ((if _is_session_valid lib_estrita as_11h55 sid_10h55
             then sid_10h55 else strftime_micro as_11h55,
             negb (_is_session_valid lib_estrita as_11h55 sid_10h55)), t').
Proof.
  exact (sessao_valida_mantida lib_estrita nenhuma_falha as_11h55 as_11h55
           t_ex cod_ex prev_ex bucket_10h sid_10h55 1709290500 eq_refl
           sessao_existente_ex).
Defined.

Lemma sessao_valida_memoria_valida_witness :
  _is_memory_valid lib_estrita as_11h05 sid_10h55 = true.
Proof. apply sessao_valida_memoria_valida. vm_compute. reflexivity. Defined.

(** The query for the latest record raises at 11:05. *)
Lemma sessao_consulta_falha_witness :
  exists t',
    _get_or_create_session_id lib_estrita falha_consulta as_11h05 as_11h05
      t_ex cod_ex
    = Some ((strftime_micro as_11h05, false), t')
    /\ exists novo,
         registro t' cod_ex (strftime_seg (inicio_da_hora as_11h05))
         = Some novo
         /\ novo !! "session_id" = Some (VStr (strftime_micro as_11h05)).
Proof.
  destruct (sessao_consulta_falha lib_estrita falha_consulta as_11h05
              as_11h05 t_ex cod_ex eq_refl eq_refl) as (t' & Hr & Hok & _).
  exists t'. split; [exact Hr|exact (Hok eq_refl)].
Defined.

Lemma memoria_consulta_falha_witness :
  exists t',
    _get_or_create_memory_id lib_estrita falha_consulta as_11h05 as_11h05
      as_11h05 t_ex cod_ex
    = Some (cod_ex +:+ "_mem_" +:+ strftime_micro as_11h05, t').
Proof.
  exact (memoria_consulta_falha lib_estrita falha_consulta as_11h05 as_11h05
           as_11h05 t_ex cod_ex eq_refl eq_refl).
Defined.

(** X28. From 2514-05-30 on, [int(now.timestamp())] can be the second
    after the one the clock shows, the float nearest to the seconds since
    the epoch being a whole number at the last microsecond of a second: at
    2514-05-30T01:59:59.999999 it is 17179869600, the first second of the
    next hour.  A session minted at 01:00:00 of that day is therefore 3600
    seconds old for a call made in the last microsecond of the same clock
    hour, and that call renews it.  At the last microsecond of year 9999
    the value is 253402300800, and at the first microsecond of year 1000 it
    is -30610224000. *)
Theorem arredondamento_renova_na_mesma_hora :
  int_timestamp as_2514_01h59 = 17179869600
  /\ int_timestamp as_2514_01h00 = 17179869600 - 3600
  /\ inicio_da_hora as_2514_01h59 = as_2514_01h00
  /\ int_timestamp fim_de_9999 = 253402300800
  /\ int_timestamp inicio_de_1000 = -30610224000
  /\ (r ← _get_or_create_session_id lib_estrita nenhuma_falha as_2514_01h00
            as_2514_01h00 t_vazia cod_ex;
      fst <$> _get_or_create_session_id lib_estrita nenhuma_falha
                as_2514_01h59 as_2514_01h59 (snd r) cod_ex)
     = Some (strftime_micro as_2514_01h59, true).
Proof. repeat split; vm_compute; reflexivity. Qed.

(** X29. Invocations that overlap can hand a message out twice.  "Oi" is
    stored; its wakeup reads the record after 10 s; "bom dia" arrives and
    reads the record before the wakeup writes; the wakeup hands out "Oi"
    and clears the record; the message then writes the list it had read
    with its own entry after it, and schedules its wakeup; that wakeup
    hands out "Oi" and "bom dia". *)
Theorem sobreposicao_entrega_duas_vezes :
  In (T0 + 10000001, despertar_ex (T0 + 10000001) 3) (agendados s_sobreposto)
  /\ snd (executa cfg_padrao (sistema_de s_vazio)
            (corrida_sobreposta
             ++ serie [Disparo (sem_falhas (T0 + 13000001))
                         (despertar_ex (T0 + 10000001) 3)]))
     = [[e_oi]; [e_oi; nova_pendente m_bom_dia (carimbo (T0 + 10000001))]].
Proof.
  split; [vm_compute; right; left; reflexivity|vm_compute; reflexivity].
Qed.

End CenariosExtra.

(* ===================================================================== *)
(** * A further scenario of contact normalisation *)
(* ===================================================================== *)

Module CenariosContato.
Import Contact ContactProps ContactExtra.
Local Open Scope N_scope.

(** [(11) 99999-0000] and [+55 11999990000], with no digit outside
    ASCII, get the key [5511999990000]. *)
Lemma normalizar_chave_unica_witness :
  normalizar_telefone (fun _ => false)
    [40; 49; 49; 41; 32; 57; 57; 57; 57; 57; 45; 48; 48; 48; 48]
  = prefix55 ++ [49; 49; 57; 57; 57; 57; 57; 48; 48; 48; 48]
  /\ normalizar_telefone (fun _ => false)
       [43; 53; 53; 32; 49; 49; 57; 57; 57; 57; 57; 48; 48; 48; 48]
     = prefix55 ++ [49; 49; 57; 57; 57; 57; 57; 48; 48; 48; 48].
Proof.
  apply normalizar_chave_unica; reflexivity.
Defined.

End CenariosContato.
